(** * Indian Legal KAG System: classification, framework selection and scoring

    A shallow embedding of the three analysis components of the repository
    and of the table of articles they refer to

      - [analysis_frameworks/document_classifier.py]  (module [Classifier])
      - [analysis_frameworks/framework_engine.py]     (module [Frameworks])
      - [analysis_frameworks/scoring_engine.py]       (module [Scoring])
      - [config/constitutional_articles.py]           (module [Articles])

    together with the properties of their results.

    Modelling conventions.
      - A Python [str] is a [string]; the text functions ([lower], [strip],
        [split], the patterns' [\s], [\d], [\w]) are the ASCII ones.
      - A Python [float] is an exact rational [Q]: sums, products and
        quotients are the mathematical ones, comparisons are [Qle_bool];
        there is no rounding, no infinity and no not-a-number.
        [min] and [max] return one of their arguments, as Python's do.
      - A [dict] whose iteration order the code relies on is an association
        list in insertion order; assigning to a present key keeps its place.
      - Dynamically typed inputs ([document_analysis], [content_indicators])
        are values of [pyval]; an operation that raises in Python returns
        [None] in the [exc] monad and is caught where the source catches it.
      - [datetime.now()] stamps, log lines and the issue and recommendation
        texts of the scoring engine are left out. *)

From Stdlib Require Import List String Ascii Bool Arith ZArith QArith Lia Lqa.
From Stdlib Require Import Sorting.Sorted Sorting.Permutation.
From Stdlib Require Import DecimalString DecimalNat.
Import ListNotations.

Local Open Scope string_scope.
Local Open Scope list_scope.

(** ** Python numbers *)

Module PyNum.

Definition Qlt_bool (x y : Q) : bool := negb (Qle_bool y x).

(** [min(a, b)]: [b] when [b < a], otherwise [a]. *)
Definition py_min (a b : Q) : Q := if Qlt_bool b a then b else a.

(** [max(a, b)]: [b] when [b > a], otherwise [a]. *)
Definition py_max (a b : Q) : Q := if Qlt_bool a b then b else a.

(** [len(x)] as a float operand. *)
Definition of_nat (n : nat) : Q := inject_Z (Z.of_nat n).

(** [a / b] on two lengths. *)
Definition ratio (a b : nat) : Q := of_nat a / of_nat b.

End PyNum.
Export PyNum.

(** ** Python strings (ASCII) *)

Module Text.

Definition is_upper (c : ascii) : bool :=
  let n := nat_of_ascii c in (65 <=? n)%nat && (n <=? 90)%nat.

Definition is_lower (c : ascii) : bool :=
  let n := nat_of_ascii c in (97 <=? n)%nat && (n <=? 122)%nat.

Definition is_digit (c : ascii) : bool :=
  let n := nat_of_ascii c in (48 <=? n)%nat && (n <=? 57)%nat.

(** [str.isspace] on one ASCII character: TAB, LF, VT, FF, CR, the four
    separators 0x1c-0x1f and the space. *)
Definition is_space (c : ascii) : bool :=
  let n := nat_of_ascii c in
  ((9 <=? n)%nat && (n <=? 13)%nat) || ((28 <=? n)%nat && (n <=? 32)%nat).

Definition lower_char (c : ascii) : ascii :=
  if is_upper c then ascii_of_nat (nat_of_ascii c + 32) else c.

Definition upper_char (c : ascii) : ascii :=
  if is_lower c then ascii_of_nat (nat_of_ascii c - 32) else c.

(** [s.lower()] *)
Fixpoint lower (s : string) : string :=
  match s with
  | EmptyString => EmptyString
  | String c s' => String (lower_char c) (lower s')
  end.

Fixpoint lstrip (s : string) : string :=
  match s with
  | EmptyString => EmptyString
  | String c s' => if is_space c then lstrip s' else s
  end.

(** Drops the trailing white space; [rstrip_aux] returns [None] for a
    string that is white space only. *)
Fixpoint rstrip_aux (s : string) : option string :=
  match s with
  | EmptyString => None
  | String c s' =>
      match rstrip_aux s' with
      | Some t => Some (String c t)
      | None => if is_space c then None else Some (String c EmptyString)
      end
  end.

Definition rstrip (s : string) : string :=
  match rstrip_aux s with Some t => t | None => EmptyString end.

(** [s.strip()] *)
Definition strip (s : string) : string := rstrip (lstrip s).

(** [s.split()]: the maximal runs of non-space characters.  [cur] is the
    word being read, in reverse. *)
Fixpoint split_aux (cur : list ascii) (s : string) : list string :=
  let flush (rest : list string) :=
    match cur with
    | [] => rest
    | _ => string_of_list_ascii (rev cur) :: rest
    end in
  match s with
  | EmptyString => flush []
  | String c s' =>
      if is_space c then flush (split_aux [] s')
      else split_aux (c :: cur) s'
  end.

Definition split (s : string) : list string := split_aux [] s.

(** [sub in s] *)
Fixpoint contains (sub s : string) : bool :=
  String.prefix sub s ||
  match s with
  | EmptyString => false
  | String _ s' => contains sub s'
  end.

(** [sep.join(l)] *)
Fixpoint join (sep : string) (l : list string) : string :=
  match l with
  | [] => EmptyString
  | [x] => x
  | x :: rest => x ++ sep ++ join sep rest
  end.

(** [s.split(sep)[0]] for a one-character separator. *)
Fixpoint first_token (sep : ascii) (s : string) : string :=
  match s with
  | EmptyString => EmptyString
  | String c s' =>
      if Ascii.eqb c sep then EmptyString else String c (first_token sep s')
  end.

End Text.
Export Text.

(** ** Ordered dictionaries *)

Module Dict.
Section Ops.
Context {V : Type}.

Definition dict := list (string * V).

(** [d.get(k)] *)
Fixpoint get (k : string) (d : dict) : option V :=
  match d with
  | [] => None
  | (k', v) :: d' => if String.eqb k k' then Some v else get k d'
  end.

(** [d.get(k, default)] *)
Definition get_default (k : string) (default : V) (d : dict) : V :=
  match get k d with Some v => v | None => default end.

(** [d[k] = v]: a present key keeps its position, a new one goes last. *)
Fixpoint set (k : string) (v : V) (d : dict) : dict :=
  match d with
  | [] => [(k, v)]
  | (k', v') :: d' =>
      if String.eqb k k' then (k, v) :: d' else (k', v') :: set k v d'
  end.

(** [k in d] *)
Definition mem (k : string) (d : dict) : bool :=
  match get k d with Some _ => true | None => false end.

Definition keys (d : dict) : list string := map fst d.
End Ops.
Arguments dict V : clear implicits.
End Dict.

(** [x in l] for a list of strings. *)
Definition str_in (x : string) (l : list string) : bool :=
  existsb (String.eqb x) l.

(** ** Regular expressions: [re.compile] and [re.search]

    The classifier's patterns are kept as the source writes them and are
    compiled by [parse]; a pattern outside the supported syntax is a
    [re.error] ([None]).  Matching is by derivatives, ignoring case. *)

Module Re.

Inductive atom : Type :=
| AChar (c : ascii)            (* a literal character *)
| ARange (lo hi : ascii)       (* [lo-hi] *)
| ASpace                       (* \s *)
| ADigit                       (* \d *)
| AWord                        (* \w *)
| ADot.                        (* . : anything but a newline *)

Inductive regex : Type :=
| Void                                    (* matches nothing *)
| Eps                                     (* the empty string *)
| Set_ (negated : bool) (items : list atom)
| Cat (r1 r2 : regex)
| Alt (r1 r2 : regex)
| Star (r : regex).

Definition plus (r : regex) : regex := Cat r (Star r).
Definition opt (r : regex) : regex := Alt r Eps.

Fixpoint repeat_n (n : nat) (r : regex) : regex :=
  match n with
  | O => Eps
  | S n' => Cat r (repeat_n n' r)
  end.

(** *** Parsing *)

Definition is_meta (c : ascii) : bool :=
  existsb (Ascii.eqb c)
    ["."; "^"; "$"; "*"; "+"; "?"; "{"; "}"; "["; "]"; "("; ")"; "|"; "\"]%char.

(** The atom a backslash escape stands for. *)
Definition escape (c : ascii) : option atom :=
  if Ascii.eqb c "s" then Some ASpace
  else if Ascii.eqb c "d" then Some ADigit
  else if Ascii.eqb c "w" then Some AWord
  else if is_upper c || is_lower c || is_digit c then None
  else Some (AChar c).

(** The items of a character class up to its closing bracket. *)
Fixpoint parse_class (s : list ascii) (acc : list atom)
  : option (list atom * list ascii) :=
  match s with
  | [] => None
  | c :: tl =>
      if Ascii.eqb c "]" then Some (rev acc, tl)
      else if Ascii.eqb c "\" then
        match tl with
        | e :: rest =>
            match escape e with
            | Some a => parse_class rest (a :: acc)
            | None => None
            end
        | [] => None
        end
      else
        match tl with
        | "-"%char :: hi :: rest =>
            if Ascii.eqb hi "]" then parse_class tl (AChar c :: acc)
            else if Ascii.eqb hi "\" then None
            else parse_class rest (ARange c hi :: acc)
        | _ => parse_class tl (AChar c :: acc)
        end
  end.

Fixpoint parse_nat (s : list ascii) (acc : nat) : nat * list ascii :=
  match s with
  | c :: rest =>
      if is_digit c then parse_nat rest (10 * acc + (nat_of_ascii c - 48))
      else (acc, s)
  | [] => (acc, s)
  end.

(** The postfix operators [*], [+], [?] and [{n}] after an atom. *)
Definition parse_postfix (r : regex) (s : list ascii)
  : option (regex * list ascii) :=
  match s with
  | "*"%char :: rest => Some (Star r, rest)
  | "+"%char :: rest => Some (plus r, rest)
  | "?"%char :: rest => Some (opt r, rest)
  | "{"%char :: c :: rest =>
      if is_digit c then
        match parse_nat (c :: rest) 0 with
        | (n, "}"%char :: rest') => Some (repeat_n n r, rest')
        | _ => None
        end
      else None
  | _ => Some (r, s)
  end.

Fixpoint parse_alt (fuel : nat) (s : list ascii)
  : option (regex * list ascii) :=
  match fuel with
  | O => None
  | S fuel' =>
      let parse_atom (s : list ascii) : option (regex * list ascii) :=
        match s with
        | "("%char :: rest =>
            match parse_alt fuel' rest with
            | Some (r, ")"%char :: rest') => Some (r, rest')
            | _ => None
            end
        | "["%char :: "^"%char :: rest =>
            match parse_class rest [] with
            | Some (items, rest') => Some (Set_ true items, rest')
            | None => None
            end
        | "["%char :: rest =>
            match parse_class rest [] with
            | Some (items, rest') => Some (Set_ false items, rest')
            | None => None
            end
        | "\"%char :: c :: rest =>
            match escape c with
            | Some a => Some (Set_ false [a], rest)
            | None => None
            end
        | "."%char :: rest => Some (Set_ false [ADot], rest)
        | c :: rest =>
            if is_meta c then None else Some (Set_ false [AChar c], rest)
        | [] => None
        end in
      let fix parse_seq (n : nat) (s : list ascii)
        : option (regex * list ascii) :=
        match n with
        | O => None
        | S n' =>
            match s with
            | [] => Some (Eps, s)
            | ")"%char :: _ => Some (Eps, s)
            | "|"%char :: _ => Some (Eps, s)
            | _ =>
                match parse_atom s with
                | Some (a, rest) =>
                    match parse_postfix a rest with
                    | Some (r, rest') =>
                        match parse_seq n' rest' with
                        | Some (r', rest'') => Some (Cat r r', rest'')
                        | None => None
                        end
                    | None => None
                    end
                | None => None
                end
            end
        end in
      match parse_seq fuel s with
      | Some (r, "|"%char :: rest) =>
          match parse_alt fuel' rest with
          | Some (r', rest') => Some (Alt r r', rest')
          | None => None
          end
      | res => res
      end
  end.

(** [re.compile(pattern)] *)
Definition parse (pattern : string) : option regex :=
  let s := list_ascii_of_string pattern in
  match parse_alt (S (List.length s)) s with
  | Some (r, []) => Some r
  | _ => None
  end.

(** *** Matching *)

Definition atom_match (c : ascii) (a : atom) : bool :=
  match a with
  | AChar x => Ascii.eqb c x
  | ARange lo hi =>
      (nat_of_ascii lo <=? nat_of_ascii c)%nat &&
      (nat_of_ascii c <=? nat_of_ascii hi)%nat
  | ASpace => is_space c
  | ADigit => is_digit c
  | AWord => is_upper c || is_lower c || is_digit c || Ascii.eqb c "_"
  | ADot => negb (Ascii.eqb c "010")
  end.

(** Under [re.IGNORECASE] a character is in a set when one of its case
    variants is. *)
Definition set_match (negated : bool) (items : list atom) (c : ascii) : bool :=
  let hit (a : atom) :=
    atom_match c a || atom_match (lower_char c) a
    || atom_match (upper_char c) a in
  xorb negated (existsb hit items).

Fixpoint nullable (r : regex) : bool :=
  match r with
  | Void => false
  | Eps => true
  | Set_ _ _ => false
  | Cat r1 r2 => nullable r1 && nullable r2
  | Alt r1 r2 => nullable r1 || nullable r2
  | Star _ => true
  end.

Definition cat (r1 r2 : regex) : regex :=
  match r1, r2 with
  | Void, _ => Void
  | _, Void => Void
  | Eps, _ => r2
  | _, Eps => r1
  | _, _ => Cat r1 r2
  end.

Definition alt (r1 r2 : regex) : regex :=
  match r1, r2 with
  | Void, _ => r2
  | _, Void => r1
  | _, _ => Alt r1 r2
  end.

(** The derivative of [r] by the character [c]. *)
Fixpoint deriv (c : ascii) (r : regex) : regex :=
  match r with
  | Void => Void
  | Eps => Void
  | Set_ negated items => if set_match negated items c then Eps else Void
  | Cat r1 r2 =>
      alt (cat (deriv c r1) r2) (if nullable r1 then deriv c r2 else Void)
  | Alt r1 r2 => alt (deriv c r1) (deriv c r2)
  | Star r1 => cat (deriv c r1) (Star r1)
  end.

Definition is_void (r : regex) : bool :=
  match r with Void => true | _ => false end.

(** Does a prefix of [s] match [r]? *)
Fixpoint match_prefix (r : regex) (s : list ascii) : bool :=
  nullable r ||
  match s with
  | [] => false
  | c :: s' =>
      let d := deriv c r in
      if is_void d then false else match_prefix d s'
  end.

(** Does [r] match somewhere in [s]? *)
Fixpoint search_from (r : regex) (s : list ascii) : bool :=
  match_prefix r s ||
  match s with
  | [] => false
  | _ :: s' => search_from r s'
  end.

(** [re.search(pattern, text, re.IGNORECASE | re.MULTILINE)]: [None] for
    a [re.error], otherwise whether there is a match.  The patterns have
    no anchors, so [re.MULTILINE] changes nothing. *)
Definition search (pattern text : string) : option bool :=
  match parse pattern with
  | Some r => Some (search_from r (list_ascii_of_string text))
  | None => None
  end.

End Re.

(** ** The document classifier ([AdvancedDocumentClassifier]) *)

Module Classifier.
Import Dict.
Local Open Scope Q_scope.

(** One entry of [document_patterns]. *)
Record criteria : Type := {
  keywords : list string;
  patterns : list string;
  structure : list string;
  weight_keyword : Q;
  weight_pattern : Q;
  weight_structure : Q
}.

Definition _initialize_document_patterns : dict criteria := [
  ("government_notification", {|
     keywords := ["government of india"; "notification"; "ministry"; "gazette"; "office memorandum"; "central government"; "bharat sarkar"];
     patterns := ["No\.\s+[A-Z]-\d+"; "dated\s+the\s+\d+"; "Government\s+of\s+India"; "Ministry\s+of"; "Department\s+of"];
     structure := ["preamble"; "notification"; "signature"; "seal"];
     weight_keyword := 0.4; weight_pattern := 0.3; weight_structure := 0.3 |});
  ("office_memorandum", {|
     keywords := ["office memorandum"; "om"; "circular"; "guidelines"; "instructions"; "departmental"];
     patterns := ["OFFICE\s+MEMORANDUM"; "O\.M\.\s+No"; "Circular\s+No"; "Guidelines"];
     structure := ["header"; "subject"; "body"; "signature"];
     weight_keyword := 0.5; weight_pattern := 0.3; weight_structure := 0.2 |});
  ("recruitment_rules", {|
     keywords := ["recruitment rules"; "appointment"; "selection"; "eligibility"; "qualification"; "cadre"];
     patterns := ["Recruitment\s+Rules"; "post\s+of"; "Group\s+[AB]"; "Pay\s+Matrix"; "Level\s+\d+"];
     structure := ["rules"; "schedule"; "qualifications"];
     weight_keyword := 0.4; weight_pattern := 0.4; weight_structure := 0.2 |});
  ("constitutional_document", {|
     keywords := ["constitution"; "article"; "fundamental rights"; "directive principles"; "part iii"; "part iv"];
     patterns := ["Article\s+\d+"; "Constitution\s+of\s+India"; "Part\s+[IVX]+"; "Schedule\s+[IVX]+"];
     structure := ["articles"; "parts"; "schedules"];
     weight_keyword := 0.3; weight_pattern := 0.5; weight_structure := 0.2 |});
  ("constitutional_amendment", {|
     keywords := ["constitutional amendment"; "amendment act"; "constitution amendment"; "amending"];
     patterns := ["Constitution\s+\([^)]+\s+Amendment\)\s+Act"; "Amendment\s+Act\s+\d{4}"; "Article\s+368"];
     structure := ["amendment"; "explanation"; "commencement"];
     weight_keyword := 0.4; weight_pattern := 0.4; weight_structure := 0.2 |});
  ("supreme_court_judgment", {|
     keywords := ["supreme court"; "bench"; "justice"; "appeal"; "petition"; "writ"; "suo moto"];
     patterns := ["Supreme\s+Court\s+of\s+India"; "(\w+)\s+v\.?\s+(\w+)"; "AIR\s+\d{4}\s+SC"; "Justice\s+[A-Z]"];
     structure := ["case_title"; "bench"; "judgment"; "orders"];
     weight_keyword := 0.3; weight_pattern := 0.5; weight_structure := 0.2 |});
  ("high_court_judgment", {|
     keywords := ["high court"; "division bench"; "single bench"; "writ petition"; "appeal"];
     patterns := ["High\s+Court"; "Division\s+Bench"; "W\.P\.\s+No"; "Criminal\s+Appeal"];
     structure := ["case_details"; "facts"; "judgment"; "order"];
     weight_keyword := 0.3; weight_pattern := 0.4; weight_structure := 0.3 |});
  ("privacy_policy", {|
     keywords := ["privacy policy"; "data collection"; "personal information"; "cookies"; "data processing"];
     patterns := ["Privacy\s+Policy"; "Data\s+Protection"; "Personal\s+Data"; "Cookie\s+Policy"];
     structure := ["collection"; "usage"; "sharing"; "rights"];
     weight_keyword := 0.4; weight_pattern := 0.3; weight_structure := 0.3 |});
  ("dpdpa_compliance_document", {|
     keywords := ["dpdpa"; "digital personal data protection act"; "data fiduciary"; "data principal"; "consent"];
     patterns := ["DPDPA\s+2023"; "Data\s+Fiduciary"; "Data\s+Principal"; "Digital\s+Personal\s+Data"];
     structure := ["compliance"; "procedures"; "rights"; "obligations"];
     weight_keyword := 0.5; weight_pattern := 0.3; weight_structure := 0.2 |});
  ("service_agreement", {|
     keywords := ["service agreement"; "services"; "contractor"; "client"; "deliverables"];
     patterns := ["Service\s+Agreement"; "Statement\s+of\s+Work"; "Deliverables"; "Service\s+Level"];
     structure := ["scope"; "deliverables"; "payment"; "termination"];
     weight_keyword := 0.4; weight_pattern := 0.3; weight_structure := 0.3 |});
  ("employment_contract", {|
     keywords := ["employment"; "employee"; "employer"; "salary"; "designation"; "terms of employment"];
     patterns := ["Employment\s+Agreement"; "Terms\s+of\s+Employment"; "Job\s+Description"; "Compensation"];
     structure := ["position"; "duties"; "compensation"; "termination"];
     weight_keyword := 0.4; weight_pattern := 0.3; weight_structure := 0.3 |});
  ("general_legal_document", {|
     keywords := ["legal"; "law"; "agreement"; "contract"; "terms"];
     patterns := ["Agreement"; "Contract"; "Terms"; "Legal"];
     structure := ["parties"; "terms"; "obligations"];
     weight_keyword := 0.3; weight_pattern := 0.3; weight_structure := 0.4 |})
].

Definition _initialize_indian_legal_indicators : dict (list string) := [
  ("constitutional_markers",
    ["Article\s+\d+"; "Constitution\s+of\s+India"; "Fundamental\s+Rights";
     "Directive\s+Principles"; "Supreme\s+Court"; "High\s+Court"]);
  ("indian_statutes",
    ["Indian\s+Penal\s+Code"; "Companies\s+Act"; "Contract\s+Act";
     "DPDPA\s+2023"; "IT\s+Act"; "Consumer\s+Protection\s+Act"]);
  ("government_indicators",
    ["Government\s+of\s+India"; "Ministry\s+of"; "Central\s+Government";
     "State\s+Government"; "Gazette\s+of\s+India"]);
  ("legal_concepts",
    ["whereas"; "hereby"; "provided\s+that"; "notwithstanding";
     "subject\s+to"; "in\s+exercise\s+of"])
].

Definition _initialize_confidence_thresholds : dict Q := [
  ("government_notification", 0.7);
  ("constitutional_document", 0.6);
  ("supreme_court_judgment", 0.8);
  ("privacy_policy", 0.6);
  ("dpdpa_compliance_document", 0.8);
  ("employment_contract", 0.5);
  ("service_agreement", 0.5);
  ("default", 0.4)
].

(** The attributes set by [__init__]. *)
Definition document_patterns := _initialize_document_patterns.
Definition indian_legal_indicators := _initialize_indian_legal_indicators.
Definition confidence_thresholds := _initialize_confidence_thresholds.

(** [sum(1 for x in l if p(x))] *)
Definition count {A : Type} (p : A -> bool) (l : list A) : nat :=
  List.length (filter p l).

Definition _calculate_keyword_score (text_lower : string)
    (keywords : list string) : Q :=
  match keywords with
  | [] => 0.0
  | _ =>
      let matches := count (fun keyword => contains (lower keyword) text_lower) keywords in
      ratio matches (List.length keywords)
  end.

(** [re.search] under [try ... except re.error: continue]. *)
Definition pattern_found (text : string) (pattern : string) : bool :=
  match Re.search pattern text with
  | Some found => found
  | None => false
  end.

Definition _calculate_pattern_score (text : string)
    (patterns : list string) : Q :=
  match patterns with
  | [] => 0.0
  | _ =>
      let matches := count (pattern_found text) patterns in
      ratio matches (List.length patterns)
  end.

Definition _calculate_structure_score (text_lower : string)
    (structure_elements : list string) : Q :=
  match structure_elements with
  | [] => 0.0
  | _ =>
      let matches := count (fun element => contains (lower element) text_lower) structure_elements in
      ratio matches (List.length structure_elements)
  end.

(** One pass over the indicator categories: 0.1 for a category with a
    matching pattern (the inner loop breaks at the first one). *)
Definition _calculate_indian_legal_bonus (text : string) : Q :=
  let bonus :=
    fold_left
      (fun bonus (entry : string * list string) =>
         if existsb (pattern_found text) (snd entry) then bonus + 0.1 else bonus)
      indian_legal_indicators 0.0 in
  py_min 0.5 bonus.

(** The body of the scoring loop for one document type. *)
Definition type_score (text : string) (c : criteria) : Q :=
  let text_lower := lower text in
  let text_words := split text in
  let keyword_score := _calculate_keyword_score text_lower (keywords c) in
  let pattern_score := _calculate_pattern_score text (patterns c) in
  let structure_score := _calculate_structure_score text_lower (structure c) in
  let indian_bonus := _calculate_indian_legal_bonus text in
  let final_score :=
    keyword_score * weight_keyword c +
    pattern_score * weight_pattern c +
    structure_score * weight_structure c +
    indian_bonus * 0.1 in
  let length_factor := py_min 1.0 (ratio (List.length text_words) 100) in
  let final_score := final_score * length_factor in
  py_min 1.0 final_score.

(** The scoring loop: [classification_scores[doc_type] = ...] for every
    entry of [document_patterns], in order. *)
Definition classification_scores (text : string) : dict Q :=
  fold_left
    (fun scores (entry : string * criteria) =>
       set (fst entry) (type_score text (snd entry)) scores)
    document_patterns [].

(** [max(d, key=d.get)]: the first key, in iteration order, whose value
    no other value exceeds. *)
Fixpoint max_key_from (best : string) (best_value : Q) (d : dict Q) : string * Q :=
  match d with
  | [] => (best, best_value)
  | (k, v) :: d' =>
      if Qlt_bool best_value v then max_key_from k v d'
      else max_key_from best best_value d'
  end.

Definition max_key (d : dict Q) : option (string * Q) :=
  match d with
  | [] => None
  | (k, v) :: d' => Some (max_key_from k v d')
  end.

(** [self.confidence_thresholds["default"]] (the key is in the table). *)
Definition default_threshold : Q :=
  get_default "default" 0.4 confidence_thresholds.

(** The guard of [classify_with_confidence]:
    [not text or len(text.strip()) < 10]. *)
Definition too_short (text : string) : bool :=
  String.eqb text EmptyString || (String.length (strip text) <? 10)%nat.

(** The threshold step applied to the best type and its score. *)
Definition apply_threshold (best_type : string) (best_confidence : Q) : string :=
  let threshold := get_default best_type default_threshold confidence_thresholds in
  if Qlt_bool best_confidence threshold then
    if Qlt_bool 0.2 best_confidence then "general_legal_document"
    else "unknown"
  else best_type.

(** [classify_with_confidence(text)]: (document_type, confidence, all_scores). *)
Definition classify_with_confidence (text : string) : string * Q * dict Q :=
  if too_short text then ("unknown", 0.0, [])
  else
    let scores := classification_scores text in
    match max_key scores with
    | None => ("unknown", 0.0, [])
    | Some (best_type, best_confidence) =>
        (apply_threshold best_type best_confidence, best_confidence, scores)
    end.

Definition get_classification_confidence_level (confidence : Q) : string :=
  if Qle_bool 0.9 confidence then "very_high"
  else if Qle_bool 0.7 confidence then "high"
  else if Qle_bool 0.5 confidence then "medium"
  else if Qle_bool 0.3 confidence then "low"
  else "very_low".

(** *** Alternatives and recommendations *)

(** [sorted(d.items(), key=lambda x: x[1], reverse=True)]: the sort is
    stable, so an item goes after the items with a larger value and before
    the later items with an equal one. *)
Fixpoint insert_descending (x : string * Q) (l : dict Q) : dict Q :=
  match l with
  | [] => [x]
  | y :: l' =>
      if Qlt_bool (snd x) (snd y) then y :: insert_descending x l' else x :: l
  end.

Definition sorted_descending (d : dict Q) : dict Q :=
  fold_right insert_descending [] d.

(** An entry of the list of alternatives. *)
Record alternative : Type := {
  alternative_type : string;          (* "document_type" *)
  alternative_confidence : Q;         (* "confidence" *)
  alternative_level : string          (* "confidence_level" *)
}.

(** [_get_alternative_classifications(all_scores, top_n)]: the loop over
    [range(1, min(top_n + 1, len(sorted_scores)))]. *)
Definition _get_alternative_classifications (all_scores : dict Q) (top_n : nat)
  : list alternative :=
  let sorted_scores := sorted_descending all_scores in
  let stop := Nat.min (top_n + 1) (List.length sorted_scores) in
  flat_map
    (fun i =>
       match nth_error sorted_scores i with
       | Some (doc_type, score) =>
           [{| alternative_type := doc_type;
               alternative_confidence := score;
               alternative_level := get_classification_confidence_level score |}]
       | None => []
       end)
    (seq 1 (stop - 1)).

(** [_generate_recommendations(doc_type, confidence)] *)
Definition _generate_recommendations (doc_type : string) (confidence : Q)
  : list string :=
  (if Qlt_bool confidence 0.5
   then ["Consider manual review due to low classification confidence"]
   else [])
  ++
  (if String.eqb doc_type "privacy_policy" then
     ["Review for DPDPA 2023 compliance requirements";
      "Ensure Article 21 privacy rights consideration"]
   else if String.eqb doc_type "government_notification" then
     ["Verify constitutional validity under relevant articles";
      "Check compliance with administrative law requirements"]
   else if str_in doc_type ["employment_contract"; "service_agreement"] then
     ["Review labor law compliance";
      "Ensure constitutional rights protection"]
   else []).

(** [text] is not read. *)
Definition _generate_classification_reasoning (doc_type : string) (confidence : Q)
    (text : string) : string :=
  if Qle_bool 0.8 confidence then
    "Strong indicators for " ++ doc_type ++
    " classification including specific terminology and document structure."
  else if Qle_bool 0.6 confidence then
    "Clear patterns matching " ++ doc_type ++
    " with good confidence based on content analysis."
  else if Qle_bool 0.4 confidence then
    "Moderate confidence for " ++ doc_type ++
    " classification based on partial pattern matching."
  else
    "Low confidence classification. Document may be " ++ doc_type ++
    " but lacks clear identifying markers.".

End Classifier.

(** ** Dynamically typed values *)

Module Py.
Import Dict.

#[warnings="-register-all"] Inductive pyval : Type :=
| PyNone
| PyBool (b : bool)
| PyInt (z : Z)
| PyFloat (q : Q)
| PyString (s : string)
| PyList (l : list pyval)
| PyDict (d : list (string * pyval)).

(** [bool(v)] *)
Definition truthy (v : pyval) : bool :=
  match v with
  | PyNone => false
  | PyBool b => b
  | PyInt z => negb (Z.eqb z 0)
  | PyFloat q => negb (Qeq_bool q 0)
  | PyString s => negb (String.eqb s EmptyString)
  | PyList l => match l with [] => false | _ => true end
  | PyDict d => match d with [] => false | _ => true end
  end.

(** Computations that may raise: [None] is a raised exception. *)
Definition exc (A : Type) : Type := option A.

Definition ret {A : Type} (a : A) : exc A := Some a.
Definition raise {A : Type} : exc A := None.
Definition bind {A B : Type} (m : exc A) (k : A -> exc B) : exc B :=
  match m with
  | Some a => k a
  | None => None
  end.

Declare Scope exc_scope.
Delimit Scope exc_scope with exc.
Notation "x <- m ;; k" := (bind m (fun x => k))
  (at level 61, m at next level, right associativity) : exc_scope.

(** [v.get(k, default)]: an [AttributeError] unless [v] is a dict. *)
Definition py_get (v : pyval) (k : string) (default : pyval) : exc pyval :=
  match v with
  | PyDict d => ret (get_default k default d)
  | _ => raise
  end.

(** [len(v)]: a [TypeError] for a value without a length. *)
Definition py_len (v : pyval) : exc nat :=
  match v with
  | PyString s => ret (String.length s)
  | PyList l => ret (List.length l)
  | PyDict d => ret (List.length d)
  | _ => raise
  end.

(** [for x in v]: the items visited; a [TypeError] for a value that is
    not iterable. *)
Definition py_iter (v : pyval) : exc (list pyval) :=
  match v with
  | PyString s =>
      ret (map (fun c => PyString (String c EmptyString)) (list_ascii_of_string s))
  | PyList l => ret l
  | PyDict d => ret (map (fun kv => PyString (fst kv)) d)
  | _ => raise
  end.

(** [v.lower()]: an [AttributeError] unless [v] is a string. *)
Definition py_lower (v : pyval) : exc string :=
  match v with
  | PyString s => ret (lower s)
  | _ => raise
  end.

(** A value used as a summand of [sum]: a [TypeError] unless a number. *)
Definition py_number (v : pyval) : exc Q :=
  match v with
  | PyBool b => ret (if b then 1 else 0)%Q
  | PyInt z => ret (inject_Z z)
  | PyFloat q => ret q
  | _ => raise
  end.

End Py.

(** ** The constitutional articles ([config/constitutional_articles.py]) *)

Module Articles.
Import Dict.
Local Open Scope nat_scope.

(** [f"{i}"] for a non-negative integer. *)
Definition format_int (i : nat) : string := NilEmpty.string_of_uint (Nat.to_uint i).

(** [i in l] for a list of integers. *)
Definition int_in (i : nat) (l : list nat) : bool := existsb (Nat.eqb i) l.

(** [d.get(i)] for a dict with integer keys. *)
Fixpoint get_int {V : Type} (i : nat) (d : list (nat * V)) : option V :=
  match d with
  | [] => None
  | (j, v) :: d' => if Nat.eqb i j then Some v else get_int i d'
  end.

(** The value stored for an article. *)
Record article : Type := {
  number : nat;
  title : string;
  text : string;
  part : string;
  chapter : string;
  privacy_implications : bool;
  dpdpa_relevance : string;
  fundamental_right : bool;
  directive_principle : bool;
  constitutional_significance : string;
  landmark_cases : list string;
  privacy_scope : list string
}.

Definition important_articles : list (nat * (string * string)) := [
  (1, ("Name and territory of the Union",
       "India, that is Bharat, shall be a Union of States."));
  (12, ("Definition",
        "In this part, the State includes the Government and Parliament of India."));
  (14, ("Equality before law",
        "The State shall not deny to any person equality before the law."));
  (19, ("Freedom of speech etc.",
        "All citizens shall have the right to freedom of speech and expression."));
  (21, ("Protection of life and personal liberty",
        "No person shall be deprived of his life or personal liberty except according to procedure established by law."));
  (32, ("Right to constitutional remedies",
        "The right to move the Supreme Court is guaranteed."));
  (243, ("Definitions - Panchayats",
         "In this Part, Gram Sabha means a body consisting of persons registered in electoral rolls."));
  (356, ("President's rule",
         "If the President is satisfied that government of State cannot be carried on, he may assume functions."));
  (368, ("Power to amend Constitution",
         "Parliament may amend by way of addition, variation or repeal any provision."))
].

(** [a <= i <= b] *)
Definition between (a i b : nat) : bool := Nat.leb a i && Nat.leb i b.

(** [f"article_{i}"] *)
Definition article_key (i : nat) : string := ("article_" ++ format_int i)%string.

(** The body of the loop of [create_all_articles]: the value stored for [i]. *)
Definition article_of (i : nat) : article :=
  let title_text :=
    match get_int i important_articles with
    | Some title_text => title_text
    | None => (("Article " ++ format_int i)%string,
               ("Constitutional provision " ++ format_int i)%string)
    end in
  let part :=
    if between 1 i 4 then "I"
    else if between 5 i 11 then "II"
    else if between 12 i 35 then "III"
    else if between 36 i 51 then "IV"
    else if between 52 i 151 then "V"
    else if between 152 i 237 then "VI"
    else "Other" in
  let chapter :=
    if between 12 i 35 then "Fundamental Rights"
    else if between 36 i 51 then "Directive Principles"
    else "Constitutional Provisions" in
  {| number := i;
     title := fst title_text;
     text := snd title_text;
     part := part;
     chapter := chapter;
     privacy_implications := int_in i [14; 19; 21; 32];
     dpdpa_relevance := if Nat.eqb i 21 then "critical" else "low";
     fundamental_right := between 12 i 35;
     directive_principle := between 36 i 51;
     constitutional_significance :=
       if int_in i [14; 19; 21; 32; 368] then "landmark" else "important";
     landmark_cases := [];
     privacy_scope := [] |}.

(** [for i in range(1, 396): articles[f"article_{i}"] = {...}] *)
Definition create_all_articles : dict article :=
  fold_left (fun articles i => set (article_key i) (article_of i) articles)
    (seq 1 395) [].

Definition CONSTITUTIONAL_ARTICLES : dict article := create_all_articles.

End Articles.

(** ** The framework engine ([AdaptiveLegalFrameworkEngine]) *)

Module Frameworks.
Import Dict Py.

(** An entry of [framework_registry]: the two fields the selection reads
    (the descriptive fields are not part of the model). *)
Record framework_config : Type := {
  applicable_documents : list string;
  priority : Z
}.

Definition _initialize_framework_registry : dict framework_config := [
  ("constitutional_analysis", {|
     applicable_documents :=
       ["government_notification"; "constitutional_document"; "supreme_court_judgment";
        "constitutional_amendment"; "recruitment_rules"; "office_memorandum"];
     priority := 1 |});
  ("privacy_rights_analysis", {|
     applicable_documents :=
       ["privacy_policy"; "dpdpa_compliance_document"; "data_processing_agreement";
        "employment_contract"; "service_agreement"];
     priority := 2 |});
  ("dpdpa_compliance", {|
     applicable_documents :=
       ["privacy_policy"; "dpdpa_compliance_document"; "data_processing_agreement"];
     priority := 2 |});
  ("contract_law_analysis", {|
     applicable_documents :=
       ["service_agreement"; "employment_contract"; "non_disclosure_agreement";
        "partnership_agreement"; "loan_agreement"; "lease_agreement"];
     priority := 3 |});
  ("administrative_law", {|
     applicable_documents :=
       ["government_notification"; "office_memorandum"; "recruitment_rules";
        "policy_document"; "compliance_manual"];
     priority := 2 |});
  ("general_legal_analysis", {|
     applicable_documents := ["general_legal_document"; "unknown"];
     priority := 4 |})
].

Definition combination_rules : dict (list string) := [
  ("government_documents", ["constitutional_analysis"; "administrative_law"]);
  ("privacy_documents", ["privacy_rights_analysis"; "dpdpa_compliance"; "constitutional_analysis"]);
  ("commercial_contracts", ["contract_law_analysis"; "constitutional_analysis"]);
  ("employment_matters", ["labor_law_analysis"; "contract_law_analysis"; "constitutional_analysis"]);
  ("judicial_documents", ["case_law_analysis"; "constitutional_analysis"])
].

Definition minimum_frameworks : nat := 1.
Definition maximum_frameworks : nat := 4.

Definition framework_registry := _initialize_framework_registry.

Definition _get_primary_frameworks (document_type : string) (confidence : Q)
  : list string :=
  map fst
    (filter
       (fun entry : string * framework_config =>
          str_in document_type (applicable_documents (snd entry)))
       framework_registry).

(** [d.get(k, default)] read as a condition. *)
Definition flag (d : dict pyval) (k : string) (default : pyval) : bool :=
  truthy (get_default k default d).

Definition _get_content_based_frameworks (content_indicators : dict pyval)
  : list string :=
  (if flag content_indicators "constitutional_relevance" (PyBool false)
   then ["constitutional_analysis"] else [])
  ++
  (if flag content_indicators "dpdpa_relevance" (PyBool false)
      || flag content_indicators "privacy_terms" (PyList [])
   then ["privacy_rights_analysis"; "dpdpa_compliance"] else [])
  ++
  (if flag content_indicators "government_terms" (PyList [])
   then ["administrative_law"] else []).

(** [for x in extra: if x not in l: l.append(x)] *)
Definition append_new (l extra : list string) : list string :=
  fold_left (fun acc x => if str_in x acc then acc else acc ++ [x]) extra l.

Definition _categorize_document_type (document_type : string) : string :=
  if str_in document_type ["government_notification"; "office_memorandum"; "recruitment_rules"]
  then "government_documents"
  else if str_in document_type ["privacy_policy"; "dpdpa_compliance_document"]
  then "privacy_documents"
  else if str_in document_type ["service_agreement"; "employment_contract"]
  then "commercial_contracts"
  else if str_in document_type ["employment_contract"]
  then "employment_matters"
  else if str_in document_type ["supreme_court_judgment"; "high_court_judgment"]
  then "judicial_documents"
  else "general_documents".

Definition _apply_combination_rules (document_type : string)
    (frameworks : list string) : list string :=
  let doc_category := _categorize_document_type document_type in
  let combination_rule := get_default doc_category [] combination_rules in
  append_new frameworks combination_rule.

(** [self.framework_registry.get(framework, {}).get("priority", 5)] *)
Definition priority_of (framework : string) : Z :=
  match get framework framework_registry with
  | Some config => priority config
  | None => 5
  end.

(** [list.sort(key=...)] is stable: an item goes before the first item
    with a larger key and after the items with an equal one. *)
Fixpoint insert_by_key (key : string -> Z) (x : string) (l : list string)
  : list string :=
  match l with
  | [] => [x]
  | y :: l' =>
      if (key x <=? key y)%Z then x :: l else y :: insert_by_key key x l'
  end.

Definition sort_by_key (key : string -> Z) (l : list string) : list string :=
  fold_right (insert_by_key key) [] l.

Definition _prioritize_and_limit_frameworks (frameworks : list string)
  : list string :=
  let sorted_frameworks := sort_by_key priority_of frameworks in
  let sorted_frameworks :=
    if (List.length sorted_frameworks <? minimum_frameworks)%nat then
      if str_in "general_legal_analysis" sorted_frameworks then sorted_frameworks
      else sorted_frameworks ++ ["general_legal_analysis"]
    else sorted_frameworks in
  firstn maximum_frameworks sorted_frameworks.

Definition _generate_selection_reason (framework document_type : string)
    (confidence : Q) (content_indicators : dict pyval) : string :=
  let documents :=
    match get framework framework_registry with
    | Some config => applicable_documents config
    | None => []
    end in
  let reasons :=
    (if str_in document_type documents
     then [("Document type '" ++ document_type ++ "' matches framework scope")%string]
     else [])
    ++
    (if String.eqb framework "constitutional_analysis"
        && flag content_indicators "constitutional_relevance" PyNone
     then ["Constitutional content detected"]
     else if String.eqb framework "privacy_rights_analysis"
        && flag content_indicators "privacy_terms" PyNone
     then ["Privacy-related content identified"]
     else if String.eqb framework "dpdpa_compliance"
        && flag content_indicators "dpdpa_relevance" PyNone
     then ["DPDPA compliance requirements identified"]
     else [])
    ++
    (if Qle_bool 0.7 confidence
     then ["High classification confidence supports framework application"]
     else []) in
  let reasons :=
    match reasons with
    | [] => ["Selected based on document analysis and legal framework requirements"]
    | _ => reasons
    end in
  join "; " reasons.

Record selection : Type := {
  selected_frameworks : list string;
  framework_count : nat;
  selection_confidence : Q;
  selection_reasons : dict string;
  document_type : string
}.

(** The list handed to [_prioritize_and_limit_frameworks]. *)
Definition combined_frameworks (document_type : string) (confidence : Q)
    (content_indicators : dict pyval) : list string :=
  let selected := _get_primary_frameworks document_type confidence in
  let selected := append_new selected (_get_content_based_frameworks content_indicators) in
  let selected :=
    if Qle_bool 0.5 confidence && negb (str_in "constitutional_analysis" selected)
    then selected ++ ["constitutional_analysis"]
    else selected in
  _apply_combination_rules document_type selected.

(** [content_indicators or {}] *)
Definition indicators (content_indicators : option (dict pyval)) : dict pyval :=
  match content_indicators with
  | Some d => d
  | None => []
  end.

(** [select_frameworks(document_type, confidence, content_indicators=None)] *)
Definition select_frameworks (document_type : string) (confidence : Q)
    (content_indicators : option (dict pyval)) : selection :=
  let content_indicators := indicators content_indicators in
  let final_frameworks :=
    _prioritize_and_limit_frameworks
      (combined_frameworks document_type confidence content_indicators) in
  {| selected_frameworks := final_frameworks;
     framework_count := List.length final_frameworks;
     selection_confidence := confidence;
     selection_reasons :=
       fold_left
         (fun reasons framework =>
            set framework
              (_generate_selection_reason framework document_type confidence content_indicators)
              reasons)
         final_frameworks [];
     document_type := document_type |}.

(** *** Framework details *)

(** The ["key_articles"] of the registry entries that have them. *)
Definition key_articles : dict (list nat) := [
  ("constitutional_analysis", [1; 12; 14; 19; 21; 32; 356; 368]);
  ("privacy_rights_analysis", [21]);
  ("administrative_law", [14; 19; 21; 309; 356])
]%nat.

(** An entry of ["constitutional_articles_details"]. *)
Record article_details : Type := {
  title : string;
  part : string;
  chapter : string
}.

(** [d[i] = v] for a dict with integer keys. *)
Fixpoint set_int {V : Type} (i : nat) (v : V) (d : list (nat * V)) : list (nat * V) :=
  match d with
  | [] => [(i, v)]
  | (j, w) :: d' => if Nat.eqb i j then (i, v) :: d' else (j, w) :: set_int i v d'
  end.

(** The result of [get_framework_details]: the error dict, or the copy of
    the registry entry with its ["constitutional_articles_details"], which
    is present when the entry has ["key_articles"]. *)
Inductive framework_details : Type :=
| not_found (error : string)
| details (config : framework_config)
          (constitutional_articles_details : option (list (nat * article_details))).

(** [constitutional_articles] is the attribute [__init__] sets from the
    imported [CONSTITUTIONAL_ARTICLES].  A stored article has a title, a
    part and a chapter, so the defaults of the three [get] calls are not
    modelled. *)
Definition get_framework_details (constitutional_articles : dict Articles.article)
    (framework_name : string) : framework_details :=
  match get framework_name framework_registry with
  | None => not_found ("Framework '" ++ framework_name ++ "' not found")%string
  | Some framework =>
      details framework
        (match get framework_name key_articles with
         | None => None
         | Some numbers =>
             Some
               (fold_left
                  (fun found article_num =>
                     match get (Articles.article_key article_num) constitutional_articles with
                     | Some a =>
                         set_int article_num
                           {| title := Articles.title a;
                              part := Articles.part a;
                              chapter := Articles.chapter a |} found
                     | None => found
                     end)
                  numbers [])
         end)
  end.

End Frameworks.

(** ** The scoring engine ([UniversalLegalScoringEngine]) *)

Module Scoring.
Import Dict Py.
Local Open Scope Q_scope.
Local Open Scope exc_scope.

Record criterion_config : Type := {
  criterion_weight : Q;          (* "weight" *)
  scoring_method : string
}.

Record category_config : Type := {
  weight : Q;
  max_score : Q;
  criteria : dict criterion_config
}.

Definition _initialize_scoring_criteria : dict category_config := [
  ("constitutional_compliance", {|
     weight := 0.4;
     max_score := 100;
     criteria := [
       ("fundamental_rights_adherence",
         {| criterion_weight := 0.3; scoring_method := "rights_protection_analysis" |});
       ("constitutional_validity",
         {| criterion_weight := 0.3; scoring_method := "validity_framework_analysis" |});
       ("procedural_compliance",
         {| criterion_weight := 0.4; scoring_method := "due_process_evaluation" |})
     ] |});
  ("privacy_compliance", {|
     weight := 0.3;
     max_score := 100;
     criteria := [
       ("article_21_compliance",
         {| criterion_weight := 0.4; scoring_method := "puttaswamy_framework_assessment" |});
       ("consent_mechanism",
         {| criterion_weight := 0.3; scoring_method := "consent_validity_analysis" |});
       ("transparency",
         {| criterion_weight := 0.3; scoring_method := "disclosure_adequacy_assessment" |})
     ] |});
  ("dpdpa_compliance", {|
     weight := 0.3;
     max_score := 100;
     criteria := [
       ("lawful_basis",
         {| criterion_weight := 0.35; scoring_method := "lawful_processing_assessment" |});
       ("data_fiduciary_obligations",
         {| criterion_weight := 0.35; scoring_method := "fiduciary_compliance_analysis" |});
       ("data_principal_rights",
         {| criterion_weight := 0.3; scoring_method := "principal_rights_protection" |})
     ] |})
].

(** The levels of each table in the order the source lists them. *)
Definition _initialize_risk_thresholds : dict (dict Q) := [
  ("constitutional_risk",
    [("very_low", 90); ("low", 75); ("medium", 60); ("high", 40); ("very_high", 0)]);
  ("privacy_risk",
    [("very_low", 85); ("low", 70); ("medium", 55); ("high", 35); ("very_high", 0)]);
  ("compliance_risk",
    [("very_low", 88); ("low", 73); ("medium", 58); ("high", 38); ("very_high", 0)]);
  ("overall_risk",
    [("very_low", 87); ("low", 72); ("medium", 57); ("high", 37); ("very_high", 0)])
].

Definition scoring_criteria := _initialize_scoring_criteria.
Definition risk_thresholds := _initialize_risk_thresholds.

(** *** Scoring methods *)

Definition _score_fundamental_rights_protection (analysis : pyval) : exc Q :=
  let score := 70.0 in
  constitutional_indicators <- py_get analysis "indian_legal_indicators" (PyDict []) ;;
  constitutional_relevance <-
    py_get constitutional_indicators "constitutional_relevance" (PyBool false) ;;
  let score := if truthy constitutional_relevance then score + 15 else score - 10 in
  article_mentions <- py_get constitutional_indicators "article_mentions" (PyList []) ;;
  score <-
    (if truthy article_mentions
     then n <- py_len article_mentions ;; ret (score + of_nat n * 3)
     else ret score) ;;
  ret (py_min 100 (py_max 0 score)).

Definition _score_privacy_rights_compliance (analysis : pyval) : exc Q :=
  let score := 60.0 in
  privacy_indicators <- py_get analysis "indian_legal_indicators" (PyDict []) ;;
  privacy_terms <- py_get privacy_indicators "privacy_terms" (PyList []) ;;
  score <-
    (if truthy privacy_terms
     then n <- py_len privacy_terms ;; ret (score + of_nat n * 8)
     else ret (score - 15)) ;;
  dpdpa_relevance <- py_get privacy_indicators "dpdpa_relevance" (PyBool false) ;;
  let score := if truthy dpdpa_relevance then score + 15 else score in
  ret (py_min 100 (py_max 0 score)).

(** The chunk loop: the numbers of chunks that mention consent and a
    lawful basis. *)
Fixpoint count_mentions (chunks : list pyval) (consent_mentions lawful_basis_mentions : nat)
  : exc (nat * nat) :=
  match chunks with
  | [] => ret (consent_mentions, lawful_basis_mentions)
  | chunk :: rest =>
      raw <- py_get chunk "text" (PyString EmptyString) ;;
      chunk_text <- py_lower raw ;;
      let consent_mentions :=
        if contains "consent" chunk_text
        then S consent_mentions else consent_mentions in
      let lawful_basis_mentions :=
        if existsb (fun term => contains term chunk_text)
             ["lawful basis"; "legitimate interest"]
        then S lawful_basis_mentions else lawful_basis_mentions in
      count_mentions rest consent_mentions lawful_basis_mentions
  end.

Definition _score_dpdpa_lawful_basis (analysis : pyval) : exc Q :=
  let score := 65.0 in
  text_chunks <- py_get analysis "enhanced_chunks" (PyList []) ;;
  chunks <- py_iter text_chunks ;;
  mentions <- count_mentions chunks 0 0 ;;
  let score := if (0 <? fst mentions)%nat then score + 15 else score in
  let score := if (0 <? snd mentions)%nat then score + 10 else score in
  ret (py_min 100 (py_max 0 score)).

Definition _default_scoring_method (analysis : pyval) : exc Q := ret 65.0.

(** [_score_criterion]: the "score" of its result.  An exception of the
    scoring method is caught and leaves the base score. *)
Definition _score_criterion (config : criterion_config)
    (document_analysis : pyval) : Q :=
  let base_score := 65.0 in
  let method := scoring_method config in
  let score_result :=
    if String.eqb method "rights_protection_analysis"
    then _score_fundamental_rights_protection document_analysis
    else if String.eqb method "puttaswamy_framework_assessment"
    then _score_privacy_rights_compliance document_analysis
    else if String.eqb method "lawful_processing_assessment"
    then _score_dpdpa_lawful_basis document_analysis
    else _default_scoring_method document_analysis in
  match score_result with
  | Some score => score
  | None => base_score
  end.

(** The table of [_map_framework_to_category]. *)
Definition mapping : dict string := [
  ("constitutional_analysis", "constitutional_compliance");
  ("privacy_rights_analysis", "privacy_compliance");
  ("dpdpa_compliance", "dpdpa_compliance");
  ("administrative_law", "constitutional_compliance");
  ("general_legal_analysis", "constitutional_compliance")
].

Definition _map_framework_to_category (framework : string) : string :=
  get_default framework "constitutional_compliance" mapping.

(** The entry stored in ["category_scores"]. *)
Record category_score : Type := {
  score : Q;
  criterion_scores : dict Q;
  category : string;
  framework : string
}.

Definition _score_framework_category (framework : string)
    (document_analysis : pyval) : option category_score :=
  let category_name := _map_framework_to_category framework in
  match get category_name scoring_criteria with
  | None => None
  | Some category_config =>
      let scored :=
        map (fun entry : string * criterion_config =>
               (fst entry, snd entry, _score_criterion (snd entry) document_analysis))
            (criteria category_config) in
      let category_score :=
        fold_left
          (fun total (entry : string * criterion_config * Q) =>
             total + snd entry * criterion_weight (snd (fst entry)))
          scored 0.0 in
      Some {|
        score := py_min 100 (py_max 0 category_score);
        criterion_scores :=
          fold_left
            (fun scores (entry : string * criterion_config * Q) =>
               set (fst (fst entry)) (snd entry) scores)
            scored [];
        category := category_name;
        framework := framework |}
  end.

(** [self.scoring_criteria.get(category, {}).get("weight", 0.33)] *)
Definition _get_category_weight (category : string) : Q :=
  match get category scoring_criteria with
  | Some config => weight config
  | None => 0.33
  end.

Definition _determine_compliance_level (overall_score : Q) : string :=
  if Qle_bool 90 overall_score then "excellent"
  else if Qle_bool 80 overall_score then "good"
  else if Qle_bool 70 overall_score then "satisfactory"
  else if Qle_bool 60 overall_score then "needs_improvement"
  else "poor".

(** *** Risk levels *)

(** The loop of [_get_risk_level] over [thresholds.items()]. *)
Fixpoint first_level (thresholds : dict Q) (score : Q) : string :=
  match thresholds with
  | [] => "very_high"
  | (level, threshold) :: rest =>
      if Qle_bool threshold score then level else first_level rest score
  end.

(** [self.risk_thresholds.get(risk_type, self.risk_thresholds["overall_risk"])] *)
Definition thresholds_for (risk_type : string) : dict Q :=
  get_default risk_type (get_default "overall_risk" [] risk_thresholds)
    risk_thresholds.

Definition _get_risk_level (risk_type : string) (score : Q) : string :=
  first_level (thresholds_for risk_type) score.

(** [f"{category.split('_')[0]}_risk"] *)
Definition risk_type_of (category : string) : string :=
  (first_token "_" category ++ "_risk")%string.

(** The risk level [_assess_comprehensive_risk] gives a category. *)
Definition category_risk_level (category : string) (score : Q) : string :=
  _get_risk_level (risk_type_of category) score.

Record category_risk : Type := {
  risk_level : string;
  risk_score : Q                  (* "score" *)
}.

Record risk_assessment : Type := {
  overall_risk_level : string;
  category_risks : dict category_risk;
  critical_risks : list (string * string * Q)   (* category, risk_level, score *)
}.

Definition _assess_comprehensive_risk (category_scores : dict category_score)
    (overall_score : Q) : risk_assessment :=
  let step (acc : dict category_risk * list (string * string * Q))
           (entry : string * category_score) :=
    let category := fst entry in
    let score := score (snd entry) in
    let risk_level := category_risk_level category score in
    (set category {| risk_level := risk_level; risk_score := score |} (fst acc),
     if str_in risk_level ["high"; "very_high"]
     then snd acc ++ [(category, risk_level, score)]
     else snd acc) in
  let risks := fold_left step category_scores ([], []) in
  {| overall_risk_level := _get_risk_level "overall_risk" overall_score;
     category_risks := fst risks;
     critical_risks := snd risks |}.

(** *** Confidence in the scoring *)

Definition _calculate_scoring_confidence (document_analysis : pyval)
    (frameworks_applied : list string) : exc Q :=
  classification <- py_get document_analysis "document_classification" (PyDict []) ;;
  classification_confidence <- py_get classification "confidence" (PyFloat 0.5) ;;
  let framework_coverage := of_nat (List.length frameworks_applied) / 3 in
  content_indicators <- py_get document_analysis "indian_legal_indicators" (PyDict []) ;;
  values <- match content_indicators with
            | PyDict d => ret (map snd d)
            | _ => raise
            end ;;
  let content_richness := of_nat (List.length (filter truthy values)) / 8 in
  first <- py_number classification_confidence ;;
  ret ((0 + first + py_min 1.0 framework_coverage + py_min 1.0 content_richness) / 3).

(** *** The comprehensive score *)

(** The state of the framework loop: [total_weighted_score],
    [total_weight] and [scoring_results["category_scores"]]. *)
Record totals : Type := {
  total_weighted_score : Q;
  total_weight : Q;
  scored_categories : dict category_score
}.

Definition score_framework (document_analysis : pyval) (acc : totals)
    (framework : string) : totals :=
  match _score_framework_category framework document_analysis with
  | Some category_score =>
      let category_name := _map_framework_to_category framework in
      let category_weight := _get_category_weight category_name in
      {| total_weighted_score :=
           total_weighted_score acc + score category_score * category_weight;
         total_weight := total_weight acc + category_weight;
         scored_categories := set category_name category_score (scored_categories acc) |}
  | None => acc
  end.

Definition score_frameworks (document_analysis : pyval)
    (frameworks_applied : list string) : totals :=
  fold_left (score_framework document_analysis) frameworks_applied
    {| total_weighted_score := 0.0; total_weight := 0.0; scored_categories := [] |}.

Record scoring_results : Type := {
  overall_score : Q;
  category_scores : dict category_score;
  risks : risk_assessment;        (* "risk_assessment" *)
  compliance_level : string;
  confidence_level : Q
}.

(** [calculate_comprehensive_score(document_analysis, frameworks_applied)];
    [None] when [_calculate_scoring_confidence] raises. *)
Definition calculate_comprehensive_score (document_analysis : pyval)
    (frameworks_applied : list string) : exc scoring_results :=
  let t := score_frameworks document_analysis frameworks_applied in
  let overall :=
    if Qlt_bool 0 (total_weight t)
    then total_weighted_score t / total_weight t
    else 0.0 in
  confidence <- _calculate_scoring_confidence document_analysis frameworks_applied ;;
  ret {| overall_score := overall;
         category_scores := scored_categories t;
         risks := _assess_comprehensive_risk (scored_categories t) overall;
         compliance_level := _determine_compliance_level overall;
         confidence_level := confidence |}.

End Scoring.


(** ** Definitions that follow the specification's wording

    These are compared with the code's results; they are not part of the
    embedding. *)

Module Spec.
Import Dict Scoring.
Local Open Scope Q_scope.

(** The sum of a list of numbers. *)
Definition total (l : list Q) : Q := fold_right Qplus 0 l.

(** "weighted mean of category scores using each category's configured
    weight, restricted to categories actually touched": every entry of the
    category score map counts once. *)
Definition weighted_mean_of_categories (category_scores : dict category_score) : Q :=
  let weighted := total (map (fun e => score (snd e) * _get_category_weight (fst e)) category_scores) in
  let weights := total (map (fun e => _get_category_weight (fst e)) category_scores) in
  if Qlt_bool 0 weights then weighted / weights else 0.

(** "clamped to [0,1]" *)
Definition clamp01 (x : Q) : Q := py_max 0 (py_min 1 x).

(** "Raw score = keyword_score×weight_keyword + pattern_score×weight_pattern
    + structure_score×weight_structure + bonus×0.1" *)
Definition raw_score (text : string) (c : Classifier.criteria) : Q :=
  Classifier._calculate_keyword_score (lower text) (Classifier.keywords c) * Classifier.weight_keyword c +
  Classifier._calculate_pattern_score text (Classifier.patterns c) * Classifier.weight_pattern c +
  Classifier._calculate_structure_score (lower text) (Classifier.structure c) * Classifier.weight_structure c +
  Classifier._calculate_indian_legal_bonus text * 0.1.

(** "min(1.0, word_count/100)" *)
Definition length_factor (text : string) : Q :=
  py_min 1.0 (ratio (List.length (split text)) 100).

(** "then clamped to [0,1]" and then "multiply raw score by
    min(1.0, word_count/100)". *)
Definition clamped_then_normalized (text : string) (c : Classifier.criteria) : Q :=
  clamp01 (raw_score text c) * length_factor text.

End Spec.

(** ** Notions used in the statements *)

Module Notions.
Import Dict Py.
Local Open Scope Q_scope.

(** *** Risk tables *)

Section Risk.
Import Scoring.

(** A table is scanned from its highest threshold to its lowest. *)
Definition descending (thresholds : dict Q) : Prop :=
  StronglySorted (fun a b : string * Q => snd b < snd a) thresholds.

(** [level] is the first entry of [thresholds] that [score] reaches. *)
Definition first_reached (thresholds : dict Q) (score : Q) (level : string) : Prop :=
  exists before threshold after,
    thresholds = before ++ (level, threshold) :: after /\
    threshold <= score /\
    Forall (fun entry : string * Q => score < snd entry) before.

End Risk.

(** *** The framework loop *)

Section Loop.
Import Scoring.

(** The category score a framework is given, and the weight it adds. *)
Definition framework_score (da : pyval) (f : string) : Q :=
  match _score_framework_category f da with
  | Some cs => score cs
  | None => 0
  end.

Definition framework_weight (f : string) : Q :=
  _get_category_weight (_map_framework_to_category f).

(** The number of entries of [frameworks_applied] mapped to a category. *)
Definition multiplicity (frameworks_applied : list string) (category : string) : nat :=
  List.length
    (filter (fun f => String.eqb (_map_framework_to_category f) category)
       frameworks_applied).

(** The weighted mean of the category scores in which a category's weight
    counts once for every framework mapped to it. *)
Definition weighted_mean_per_framework (frameworks_applied : list string)
    (category_scores : dict category_score) : Q :=
  let times (e : string * category_score) := of_nat (multiplicity frameworks_applied (fst e)) in
  let weighted :=
    Spec.total (map (fun e => times e * (score (snd e) * _get_category_weight (fst e)))
                  category_scores) in
  let weights :=
    Spec.total (map (fun e => times e * _get_category_weight (fst e)) category_scores) in
  if Qlt_bool 0 weights then weighted / weights else 0.

(** The entry of ["category_risks"] for a scored category. *)
Definition assessed (entry : string * category_score) : category_risk :=
  {| risk_level := category_risk_level (fst entry) (score (snd entry));
     risk_score := score (snd entry) |}.

(** A framework standing for each category. *)
Definition representative (category : string) : string :=
  if String.eqb category "privacy_compliance" then "privacy_rights_analysis"
  else if String.eqb category "dpdpa_compliance" then "dpdpa_compliance"
  else "constitutional_analysis".

(** What holds of the totals after the loop has run over [fs]. *)
Record loop_invariant (da : pyval) (fs : list string) (t : totals) : Prop := {
  inv_nodup : NoDup (keys (scored_categories t));
  inv_keys : forall c, In c (keys (scored_categories t)) <->
                       In c (map _map_framework_to_category fs);
  inv_scores : forall c cs, In (c, cs) (scored_categories t) ->
                 forall g, _map_framework_to_category g = c -> score cs = framework_score da g;
  inv_weighted : total_weighted_score t ==
                 Spec.total (map (fun f => framework_score da f * framework_weight f) fs);
  inv_weight : total_weight t == Spec.total (map framework_weight fs)
}.

End Loop.

(** *** Sorting *)

(** Ascending order of a key. *)
Definition key_le (key : string -> Z) (a b : string) : Prop := (key a <= key b)%Z.

(** The items of [l] whose key is [p], in their order. *)
Definition with_key (key : string -> Z) (p : Z) (l : list string) : list string :=
  filter (fun y => Z.eqb (key y) p) l.

(** *** Classification *)

Section Classification.
Import Classifier.

(** [best] is the first entry of [d] with the largest value. *)
Definition first_maximum (d : dict Q) (best : string) (value : Q) : Prop :=
  exists before after,
    d = before ++ (best, value) :: after /\
    Forall (fun e : string * Q => snd e < value) before /\
    Forall (fun e : string * Q => snd e <= value) after.

(** The weights of a type are non-negative and add up to 1. *)
Definition weights_ok (c : criteria) : bool :=
  Qle_bool 0 (weight_keyword c) && Qle_bool 0 (weight_pattern c)
  && Qle_bool 0 (weight_structure c)
  && Qeq_bool (weight_keyword c + weight_pattern c + weight_structure c) 1.

(** Five words, forty-one characters. *)
Definition five_words : string := "Government of India Ministry Notification".

(** Fifteen words that hit every keyword, pattern and structure term of
    general_legal_document and all four indicator categories. *)
Definition dense_general : string :=
  "Legal law agreement contract terms parties obligations whereas Contract Act Government of India Article 21".

(** Fifty words that hit every keyword, pattern and structure term of
    government_notification. *)
Definition short_notification : string :=
  "Government of India Ministry of Law and Justice Department of Legal Affairs notification published in the gazette by the central government bharat sarkar office memorandum No. A-123 dated the 5 day of March with preamble signature and seal for all officers and staff posted at New Delhi on this matter".

End Classification.

Section ScoringExtraNotions.
Import Scoring.

(** The classification confidence read by [_calculate_scoring_confidence]. *)
Definition classification_confidence_of (da : pyval) : exc Q :=
  bind (py_get da "document_classification" (PyDict []))
    (fun classification =>
       bind (py_get classification "confidence" (PyFloat 0.5)) py_number).

(** The weighted sum of the criterion scores recorded for a category. *)
Definition criteria_total (config : category_config) (cs : category_score) : Q :=
  Spec.total
    (map (fun e : string * criterion_config =>
            get_default (fst e) 0 (criterion_scores cs) * criterion_weight (snd e))
         (criteria config)).
(** The medium threshold of the table a category is assessed with. *)
Definition critical_below (category : string) : Q :=
  get_default "medium" 0 (thresholds_for (risk_type_of category)).
(** Is a risk level one of those listed as critical? *)
Definition is_critical (level : string) : bool := str_in level ["high"; "very_high"].

(** The entry of ["critical_risks"] for a scored category. *)
Definition critical_entry (entry : string * category_score) : string * string * Q :=
  (fst entry, category_risk_level (fst entry) (score (snd entry)), score (snd entry)).

(** The lowest score a scoring method can give: 70 - 10 for the rights
    analysis, 60 - 15 for the privacy assessment, 65 otherwise. *)
Definition lowest_criterion_score (method : string) : Q :=
  if String.eqb method "rights_protection_analysis" then 60
  else if String.eqb method "puttaswamy_framework_assessment" then 45
  else 65.

(** The weighted sum of the lowest criterion scores of a category. *)
Definition lowest_category_score (category : string) : Q :=
  match get category scoring_criteria with
  | Some config =>
      Spec.total
        (map (fun e : string * criterion_config =>
                lowest_criterion_score (scoring_method (snd e)) * criterion_weight (snd e))
           (criteria config))
  | None => 0
  end.

End ScoringExtraNotions.

Section FrameworkExtraNotions.
Import Frameworks.

(** The names a selection can contain: the registry and the one framework
    that only a combination rule names. *)
Definition selectable : list string :=
  keys framework_registry ++ ["case_law_analysis"].

(** The frameworks whose priority is 1 or 2. *)
Definition high_priority : list string :=
  ["constitutional_analysis"; "privacy_rights_analysis"; "dpdpa_compliance";
   "administrative_law"].

End FrameworkExtraNotions.

Section ClassifierExtraNotions.
Import Classifier.

(** The threshold [classify_with_confidence] compares a type's score with. *)
Definition threshold_of (doc_type : string) : Q :=
  get_default doc_type default_threshold confidence_thresholds.

(** The number of words of a text. *)
Definition word_count (text : string) : nat := List.length (split text).

(** The position of a confidence level, from "very_low" up. *)
Definition level_rank (level : string) : nat :=
  if String.eqb level "very_high" then 4
  else if String.eqb level "high" then 3
  else if String.eqb level "medium" then 2
  else if String.eqb level "low" then 1
  else 0.
(** The alternative made of an entry of the sorted scores. *)
Definition as_alternative (entry : string * Q) : alternative :=
  {| alternative_type := fst entry;
     alternative_confidence := snd entry;
     alternative_level := get_classification_confidence_level (snd entry) |}.

(** Descending order of the values. *)
Definition value_ge (a b : string * Q) : Prop := snd b <= snd a.

End ClassifierExtraNotions.

Section DetailsExtraNotions.
Import Frameworks.

(** The title, part and chapter of an article, as the framework details
    give them. *)
Definition details_of (a : Articles.article) : article_details :=
  {| title := Articles.title a;
     part := Articles.part a;
     chapter := Articles.chapter a |}.

(** The details of the articles of [numbers] that [articles] stores. *)
Definition stored_details (articles : dict Articles.article) (numbers : list nat)
  : list (nat * article_details) :=
  flat_map
    (fun n => match get (Articles.article_key n) articles with
              | Some a => [(n, details_of a)]
              | None => []
              end)
    numbers.

End DetailsExtraNotions.

End Notions.

(** * Properties *)

(** ** Numbers and dictionaries *)

Section NumFacts.
Local Open Scope Q_scope.

Lemma Qlt_bool_iff (x y : Q) : Qlt_bool x y = true <-> x < y.
Proof.
  unfold Qlt_bool. rewrite negb_true_iff.
  split; intros H.
  - apply Qnot_le_lt. intros Hle. apply Qle_bool_iff in Hle. congruence.
  - destruct (Qle_bool y x) eqn:E; [|reflexivity].
    apply Qle_bool_iff in E. exfalso. exact (Qlt_not_le _ _ H E).
Qed.

Lemma Qlt_bool_false_iff (x y : Q) : Qlt_bool x y = false <-> y <= x.
Proof.
  unfold Qlt_bool. rewrite negb_false_iff. apply Qle_bool_iff.
Qed.

Lemma Qle_bool_false_iff (x y : Q) : Qle_bool x y = false <-> y < x.
Proof.
  rewrite <- Qlt_bool_iff. unfold Qlt_bool.
  destruct (Qle_bool x y); simpl; split; congruence.
Qed.

Lemma py_min_le_l (a b : Q) : py_min a b <= a.
Proof.
  unfold py_min. destruct (Qlt_bool b a) eqn:E.
  - apply Qlt_bool_iff in E. apply Qlt_le_weak, E.
  - apply Qle_refl.
Qed.

Lemma py_min_le_r (a b : Q) : py_min a b <= b.
Proof.
  unfold py_min. destruct (Qlt_bool b a) eqn:E.
  - apply Qle_refl.
  - apply Qlt_bool_false_iff in E. exact E.
Qed.

Lemma py_min_glb (a b c : Q) : c <= a -> c <= b -> c <= py_min a b.
Proof. intros Ha Hb. unfold py_min. destruct (Qlt_bool b a); assumption. Qed.

Lemma of_nat_nonneg (n : nat) : 0 <= of_nat n.
Proof.
  unfold of_nat, Qle. simpl. lia.
Qed.

Lemma of_nat_le (m n : nat) : (m <= n)%nat -> of_nat m <= of_nat n.
Proof.
  intros H. unfold of_nat, Qle. simpl. lia.
Qed.

Lemma ratio_bounds (m n : nat) : (m <= n)%nat -> 0 <= ratio m n <= 1.
Proof.
  intros H. unfold ratio.
  destruct n as [|n].
  - assert (m = 0)%nat by lia. subst. split; [apply Qle_refl | discriminate].
  - assert (Hpos : 0 < of_nat (S n)) by (unfold of_nat, Qlt; simpl; lia).
    split.
    + apply Qle_shift_div_l; [exact Hpos|]. rewrite Qmult_0_l. apply of_nat_nonneg.
    + apply Qle_shift_div_r; [exact Hpos|]. rewrite Qmult_1_l. apply of_nat_le, H.
Qed.

End NumFacts.

Section DictFacts.
Import Dict.
Context {V : Type}.

Lemma get_not_in (k : string) (d : dict V) : ~ In k (keys d) -> get k d = None.
Proof.
  induction d as [|[k' v] d IH]; simpl; intros H; [reflexivity|].
  destruct (String.eqb_spec k k') as [->|Hne].
  - exfalso. apply H. now left.
  - apply IH. intros Hin. apply H. now right.
Qed.

Lemma get_in (k : string) (v : V) (d : dict V) : get k d = Some v -> In (k, v) d.
Proof.
  induction d as [|[k' v'] d IH]; simpl; [discriminate|].
  destruct (String.eqb_spec k k') as [->|Hne].
  - intros [= ->]. now left.
  - intros H. right. now apply IH.
Qed.

Lemma get_set_same (k : string) (v : V) (d : dict V) : get k (set k v d) = Some v.
Proof.
  induction d as [|[k' v'] d IH]; simpl.
  - now rewrite String.eqb_refl.
  - destruct (String.eqb k k') eqn:E; simpl.
    + now rewrite String.eqb_refl.
    + now rewrite E.
Qed.

Lemma set_fresh (k : string) (v : V) (d : dict V) :
  ~ In k (keys d) -> set k v d = d ++ [(k, v)].
Proof.
  induction d as [|[k' v'] d IH]; simpl; intros H; [reflexivity|].
  destruct (String.eqb_spec k k') as [->|Hne].
  - exfalso. apply H. now left.
  - f_equal. apply IH. intros Hin. apply H. now right.
Qed.

(** Filling a dictionary from a table with distinct keys lists the table's
    keys in order. *)
Lemma fill_distinct {A : Type} (f : string * A -> V) (table : dict A) (acc : dict V) :
  NoDup (keys acc ++ keys table) ->
  fold_left (fun d (e : string * A) => set (fst e) (f e) d) table acc =
  acc ++ map (fun e => (fst e, f e)) table.
Proof.
  revert acc. induction table as [|[k a] table IH]; simpl; intros acc Hnd.
  - now rewrite app_nil_r.
  - assert (Hk : ~ In k (keys acc)).
    { apply NoDup_remove_2 in Hnd. intros Hin. apply Hnd, in_or_app. now left. }
    rewrite (set_fresh _ _ _ Hk), IH.
    + now rewrite <- app_assoc.
    + unfold keys in *. rewrite map_app, <- app_assoc. exact Hnd.
Qed.

Lemma get_map_in {A : Type} (f : string * A -> V) (table : dict A) (k : string) (a : A) :
  NoDup (keys table) -> In (k, a) table ->
  get k (map (fun e => (fst e, f e)) table) = Some (f (k, a)).
Proof.
  induction table as [|[k' a'] table IH]; simpl; intros Hnd Hin; [contradiction|].
  inversion Hnd as [|? ? Hk Hnd']; subst.
  destruct Hin as [[= -> ->]|Hin].
  - now rewrite String.eqb_refl.
  - destruct (String.eqb_spec k k') as [->|Hne].
    + exfalso. apply Hk. apply (in_map fst) in Hin. exact Hin.
    + now apply IH.
Qed.

End DictFacts.

Lemma str_in_iff (x : string) (l : list string) : str_in x l = true <-> In x l.
Proof.
  unfold str_in. rewrite existsb_exists. split.
  - intros [y [Hin Heq]]. apply String.eqb_eq in Heq. now subst.
  - intros Hin. exists x. split; [exact Hin|apply String.eqb_refl].
Qed.

(** ** The comprehensive score *)

Module ScoringProps.
Import Notions Dict Py Scoring.
Local Open Scope Q_scope.

Lemma map_framework_cases (f : string) :
  In (_map_framework_to_category f) (keys scoring_criteria).
Proof.
  unfold _map_framework_to_category, get_default, mapping. simpl.
  repeat match goal with
         | |- context [String.eqb ?a ?b] => destruct (String.eqb a b)
         end; simpl; tauto.
Qed.

Lemma map_framework_unmapped (f : string) :
  ~ In f (keys mapping) -> _map_framework_to_category f = "constitutional_compliance".
Proof.
  intros H. unfold _map_framework_to_category, get_default.
  now rewrite (get_not_in _ _ H).
Qed.

Lemma category_weight_positive (c : string) : 0 < _get_category_weight c.
Proof.
  unfold _get_category_weight, scoring_criteria, _initialize_scoring_criteria. simpl.
  repeat match goal with
         | |- context [String.eqb ?a ?b] => destruct (String.eqb a b)
         end; reflexivity.
Qed.

(** Every framework is scored: the mapped category is always configured. *)
Lemma score_framework_category_some (f : string) (da : pyval) :
  exists cs, _score_framework_category f da = Some cs /\
             category cs = _map_framework_to_category f /\ framework cs = f.
Proof.
  unfold _score_framework_category.
  pose proof (map_framework_cases f) as Hc.
  destruct (get (_map_framework_to_category f) scoring_criteria) as [cfg|] eqn:E.
  - eexists. split; [reflexivity|]. split; reflexivity.
  - exfalso. simpl in Hc.
    destruct Hc as [Hc|[Hc|[Hc|[]]]]; rewrite <- Hc in E; discriminate.
Qed.

(** The score depends on the framework only through its category. *)
Lemma framework_score_same_category (da : pyval) (f g : string) :
  _map_framework_to_category f = _map_framework_to_category g ->
  framework_score da f = framework_score da g.
Proof.
  intros H. unfold framework_score, _score_framework_category. rewrite H.
  destruct (get (_map_framework_to_category g) scoring_criteria); reflexivity.
Qed.

Lemma score_framework_step (da : pyval) (acc : totals) (f : string) :
  exists cs,
    _score_framework_category f da = Some cs /\
    score_framework da acc f =
      {| total_weighted_score := total_weighted_score acc + score cs * framework_weight f;
         total_weight := total_weight acc + framework_weight f;
         scored_categories :=
           set (_map_framework_to_category f) cs (scored_categories acc) |}.
Proof.
  destruct (score_framework_category_some f da) as (cs & Hcs & _ & _).
  exists cs. split; [exact Hcs|].
  unfold score_framework. now rewrite Hcs.
Qed.

Lemma score_frameworks_snoc (da : pyval) (fs : list string) (f : string) :
  score_frameworks da (fs ++ [f]) = score_framework da (score_frameworks da fs) f.
Proof. unfold score_frameworks. now rewrite fold_left_app. Qed.

(** *** Sums over the frameworks and over the categories *)

Lemma total_app (l1 l2 : list Q) : Spec.total (l1 ++ l2) == Spec.total l1 + Spec.total l2.
Proof.
  induction l1 as [|x l1 IH]; simpl.
  - ring.
  - rewrite IH. ring.
Qed.

Lemma total_ext {A : Type} (f g : A -> Q) (l : list A) :
  (forall x, In x l -> f x == g x) ->
  Spec.total (map f l) == Spec.total (map g l).
Proof.
  induction l as [|x l IH]; simpl; intros H.
  - reflexivity.
  - rewrite (H x (or_introl eq_refl)), IH; [reflexivity|].
    intros y Hy. apply H. now right.
Qed.

Lemma total_plus {A : Type} (f g : A -> Q) (l : list A) :
  Spec.total (map (fun x => f x + g x) l) == Spec.total (map f l) + Spec.total (map g l).
Proof.
  induction l as [|x l IH]; simpl.
  - ring.
  - rewrite IH. ring.
Qed.

Lemma total_zero {A : Type} (f : A -> Q) (l : list A) :
  (forall x, In x l -> f x == 0) -> Spec.total (map f l) == 0.
Proof.
  induction l as [|x l IH]; simpl; intros H.
  - reflexivity.
  - rewrite (H x (or_introl eq_refl)), IH; [ring|].
    intros y Hy. apply H. now right.
Qed.

(** Picking one key out of a duplicate-free list of keys. *)
Lemma total_indicator (g : string -> Q) (c : string) (ks : list string) :
  NoDup ks -> In c ks ->
  Spec.total (map (fun k => (if String.eqb c k then 1 else 0) * g k) ks) == g c.
Proof.
  induction ks as [|k ks IH]; simpl; intros Hnd Hin; [contradiction|].
  inversion Hnd as [|? ? Hk Hnd']; subst.
  destruct (String.eqb_spec c k) as [->|Hne].
  - rewrite total_zero; [ring|].
    intros x Hx. destruct (String.eqb_spec k x) as [->|_]; [contradiction|ring].
  - destruct Hin as [->|Hin]; [contradiction|].
    rewrite (IH Hnd' Hin). ring.
Qed.

Lemma multiplicity_cons (f : string) (fs : list string) (k : string) :
  of_nat (multiplicity (f :: fs) k) ==
  (if String.eqb (_map_framework_to_category f) k then 1 else 0) + of_nat (multiplicity fs k).
Proof.
  unfold multiplicity. simpl.
  destruct (String.eqb (_map_framework_to_category f) k); simpl List.length.
  - unfold of_nat. rewrite Nat2Z.inj_succ, <- Z.add_1_l, inject_Z_plus. reflexivity.
  - ring.
Qed.

(** A sum over the frameworks, grouped by category. *)
Lemma total_by_category (g : string -> Q) (fs ks : list string) :
  NoDup ks ->
  (forall f, In f fs -> In (_map_framework_to_category f) ks) ->
  Spec.total (map (fun f => g (_map_framework_to_category f)) fs) ==
  Spec.total (map (fun k => of_nat (multiplicity fs k) * g k) ks).
Proof.
  intros Hnd. induction fs as [|f fs IH]; intros Hin.
  - simpl. symmetry. apply total_zero. intros x _. unfold multiplicity, of_nat, inject_Z. simpl. ring.
  - change (Spec.total (map (fun f0 => g (_map_framework_to_category f0)) (f :: fs)))
      with (g (_map_framework_to_category f) +
            Spec.total (map (fun f0 => g (_map_framework_to_category f0)) fs)).
    rewrite IH by (intros x Hx; apply Hin; now right).
    rewrite <- (total_indicator g (_map_framework_to_category f) ks Hnd)
      by (apply Hin; now left).
    rewrite <- total_plus.
    apply total_ext. intros k _. rewrite multiplicity_cons. ring.
Qed.

(** *** The state of the framework loop *)

Lemma In_keys_set {V : Type} (c k : string) (v : V) (d : dict V) :
  In c (keys (set k v d)) <-> c = k \/ In c (keys d).
Proof.
  induction d as [|[k' v'] d IH]; simpl.
  - intuition congruence.
  - destruct (String.eqb_spec k k') as [->|Hne]; simpl.
    + intuition congruence.
    + rewrite IH. intuition congruence.
Qed.

Lemma NoDup_keys_set {V : Type} (k : string) (v : V) (d : dict V) :
  NoDup (keys d) -> NoDup (keys (set k v d)).
Proof.
  induction d as [|[k' v'] d IH]; simpl; intros Hnd.
  - constructor; [intros []|constructor].
  - inversion Hnd as [|? ? Hk Hnd']; subst.
    destruct (String.eqb_spec k k') as [->|Hne]; simpl.
    + now constructor.
    + constructor; [|now apply IH].
      intros Hin. apply In_keys_set in Hin. destruct Hin as [->|Hin]; contradiction.
Qed.

Lemma In_set_inv {V : Type} (c k : string) (x v : V) (d : dict V) :
  In (c, x) (set k v d) -> (c = k /\ x = v) \/ In (c, x) d.
Proof.
  induction d as [|[k' v'] d IH]; simpl.
  - intros [[= <- <-]|[]]. now left.
  - destruct (String.eqb_spec k k') as [->|Hne]; simpl.
    + intros [[= <- <-]|Hin]; [now left|right; now right].
    + intros [Heq|Hin]; [right; now left|].
      destruct (IH Hin) as [Hl|Hr]; [now left|right; now right].
Qed.

Lemma score_frameworks_invariant (da : pyval) (fs : list string) :
  loop_invariant da fs (score_frameworks da fs).
Proof.
  induction fs as [|f fs IH] using rev_ind.
  - constructor; simpl; try reflexivity.
    + constructor.
    + intros c cs [].
  - rewrite score_frameworks_snoc.
    destruct (score_framework_step da (score_frameworks da fs) f) as (cs & Hcs & ->).
    destruct IH as [Hnd Hkeys Hscores Hws Hw].
    assert (Hscore : score cs = framework_score da f)
      by (unfold framework_score; now rewrite Hcs).
    constructor; simpl.
    + now apply NoDup_keys_set.
    + intros c. rewrite In_keys_set, Hkeys, map_app, in_app_iff. simpl. intuition.
    + intros c x Hin g Hg.
      destruct (In_set_inv _ _ _ _ _ Hin) as [[-> ->]|Hold].
      * rewrite Hscore. now apply framework_score_same_category.
      * now apply (Hscores c x Hold).
    + rewrite map_app, total_app, Hws, Hscore. simpl. ring.
    + rewrite map_app, total_app, Hw. simpl. ring.
Qed.

Lemma representative_category (f : string) :
  _map_framework_to_category (representative (_map_framework_to_category f)) =
  _map_framework_to_category f.
Proof.
  pose proof (map_framework_cases f) as H. simpl in H.
  destruct H as [H|[H|[H|[]]]]; rewrite <- H; reflexivity.
Qed.

(** The totals of the loop, grouped by the entries of the category map. *)
Lemma totals_by_category (da : pyval) (fs : list string) :
  let t := score_frameworks da fs in
  let times (e : string * category_score) := of_nat (multiplicity fs (fst e)) in
  total_weighted_score t ==
    Spec.total (map (fun e => times e * (score (snd e) * _get_category_weight (fst e)))
                  (scored_categories t)) /\
  total_weight t ==
    Spec.total (map (fun e => times e * _get_category_weight (fst e)) (scored_categories t)).
Proof.
  intros t times. subst times.
  destruct (score_frameworks_invariant da fs) as [Hnd Hkeys Hscores Hws Hw].
  fold t in Hnd, Hkeys, Hscores, Hws, Hw.
  assert (Hcover : forall f, In f fs ->
            In (_map_framework_to_category f) (keys (scored_categories t))).
  { intros f Hf. apply Hkeys. now apply in_map. }
  split.
  - rewrite Hws.
    set (g := fun c => framework_score da (representative c) * _get_category_weight c).
    rewrite (total_ext _ (fun f => g (_map_framework_to_category f))).
    + rewrite (total_by_category g fs _ Hnd Hcover).
      unfold keys. rewrite map_map.
      apply total_ext. intros [c cs] Hin. simpl. unfold g.
      rewrite (Hscores c cs Hin (representative c)); [reflexivity|].
      assert (Hc : In c (keys (scored_categories t))) by (apply (in_map fst) in Hin; exact Hin).
      apply Hkeys in Hc. apply in_map_iff in Hc. destruct Hc as (f & <- & _).
      apply representative_category.
    + intros f _. unfold g, framework_weight.
      rewrite (framework_score_same_category da f
                 (representative (_map_framework_to_category f)));
        [reflexivity|].
      symmetry. apply representative_category.
  - rewrite Hw.
    rewrite (total_by_category _get_category_weight fs _ Hnd Hcover).
    unfold keys. rewrite map_map. reflexivity.
Qed.

Lemma multiplicity_one (fs : list string) (k : string) :
  NoDup (map _map_framework_to_category fs) ->
  In k (map _map_framework_to_category fs) ->
  multiplicity fs k = 1%nat.
Proof.
  unfold multiplicity.
  induction fs as [|f fs IH]; simpl; intros Hnd Hin; [contradiction|].
  inversion Hnd as [|? ? Hf Hnd']; subst.
  destruct (String.eqb_spec (_map_framework_to_category f) k) as [<-|Hne].
  - simpl. f_equal.
    assert (Hnone : forall l, ~ In (_map_framework_to_category f) (map _map_framework_to_category l) ->
              filter (fun f0 => String.eqb (_map_framework_to_category f0)
                                  (_map_framework_to_category f)) l = []).
    { induction l as [|x l IHl]; simpl; intros Hx; [reflexivity|].
      destruct (String.eqb_spec (_map_framework_to_category x) (_map_framework_to_category f))
        as [E|_].
      - exfalso. apply Hx. left. exact E.
      - apply IHl. intros Hl. apply Hx. now right. }
    now rewrite Hnone.
  - destruct Hin as [E|Hin]; [contradiction|]. now apply IH.
Qed.

Lemma overall_score_eq (da : pyval) (fs : list string) (r : scoring_results) :
  calculate_comprehensive_score da fs = Some r ->
  let t := score_frameworks da fs in
  category_scores r = scored_categories t /\
  overall_score r =
    if Qlt_bool 0 (total_weight t) then total_weighted_score t / total_weight t else 0.0.
Proof.
  unfold calculate_comprehensive_score, bind, ret.
  destruct (_calculate_scoring_confidence da fs); [|discriminate].
  intros [= <-]. simpl. split; reflexivity.
Qed.

(** *** The risk assessment of the scored categories *)

Lemma assess_category_risks (scores : dict category_score) (overall : Q) :
  NoDup (keys scores) ->
  category_risks (_assess_comprehensive_risk scores overall) =
  map (fun e => (fst e, assessed e)) scores.
Proof.
  intros Hnd. unfold _assess_comprehensive_risk. cbn [category_risks].
  match goal with
  | |- fst (fold_left ?step _ _) = _ =>
      assert (Hfst : forall l acc,
                fst (fold_left step l acc) =
                fold_left (fun d (e : string * category_score) => set (fst e) (assessed e) d)
                  l (fst acc))
  end.
  { induction l as [|e l IH]; intros acc; [reflexivity|].
    cbn [fold_left]. rewrite IH. reflexivity. }
  rewrite Hfst. cbn [fst].
  exact (fill_distinct assessed scores [] Hnd).
Qed.

(** Every scored category is given the risk level of its own score, looked
    up under the risk type derived from its name. *)
Lemma assessed_risk (da : pyval) (fs : list string) (r : scoring_results)
    (c : string) (cs : category_score) :
  calculate_comprehensive_score da fs = Some r ->
  get c (category_scores r) = Some cs ->
  get c (category_risks (risks r)) = Some (assessed (c, cs)).
Proof.
  intros Hr Hget.
  assert (Hrisks : risks r =
            _assess_comprehensive_risk (category_scores r) (overall_score r)).
  { revert Hr. unfold calculate_comprehensive_score, bind, ret.
    destruct (_calculate_scoring_confidence da fs); [|discriminate].
    intros [= <-]. reflexivity. }
  assert (Hnd : NoDup (keys (category_scores r))).
  { destruct (overall_score_eq da fs r Hr) as [-> _].
    exact (inv_nodup _ _ _ (score_frameworks_invariant da fs)). }
  rewrite Hrisks, (assess_category_risks _ _ Hnd).
  exact (get_map_in assessed (category_scores r) c cs Hnd (get_in _ _ _ Hget)).
Qed.

(** The guarded quotient respects the equality of rationals. *)
Lemma guarded_quotient_eq (a b z a' b' z' : Q) :
  a == a' -> b == b' -> z == z' ->
  (if Qlt_bool 0 b then a / b else z) == (if Qlt_bool 0 b' then a' / b' else z').
Proof.
  intros Ha Hb Hz.
  destruct (Qlt_bool 0 b) eqn:E, (Qlt_bool 0 b') eqn:E'.
  - now rewrite Ha, Hb.
  - apply Qlt_bool_iff in E. apply Qlt_bool_false_iff in E'.
    rewrite Hb in E. exfalso. exact (Qlt_not_le _ _ E E').
  - apply Qlt_bool_iff in E'. apply Qlt_bool_false_iff in E.
    rewrite Hb in E. exfalso. exact (Qlt_not_le _ _ E' E).
  - exact Hz.
Qed.

Lemma framework_weight_positive (f : string) : 0 < framework_weight f.
Proof. apply category_weight_positive. Qed.

Lemma total_weight_positive (fs : list string) :
  fs <> [] -> 0 < Spec.total (map framework_weight fs).
Proof.
  assert (Hnn : forall l, 0 <= Spec.total (map framework_weight l)).
  { induction l as [|x l IH]; simpl; [apply Qle_refl|].
    pose proof (framework_weight_positive x). lra. }
  destruct fs as [|f fs]; [congruence|]. intros _. simpl.
  pose proof (framework_weight_positive f).
  pose proof (Hnn fs). lra.
Qed.

(** C1, as the code computes it: the overall score is the weighted mean of
    the scores in the category map in which a category's weight counts once
    for every entry of [frameworks_applied] mapped to it, in numerator and
    denominator; equivalently every framework adds its category's score
    times its weight, and its weight.  It is 0 for an empty list, and it is
    the mean with every category counted once when no two frameworks share
    a category. *)
Theorem C1_overall_score_counts_weight_per_framework
    (da : pyval) (fs : list string) (r : scoring_results)
    (H : calculate_comprehensive_score da fs = Some r) :
  overall_score r == weighted_mean_per_framework fs (category_scores r) /\
  (fs = [] -> overall_score r == 0) /\
  (fs <> [] ->
   overall_score r ==
     Spec.total (map (fun f => framework_score da f * framework_weight f) fs) /
     Spec.total (map framework_weight fs)) /\
  (NoDup (map _map_framework_to_category fs) ->
   overall_score r == Spec.weighted_mean_of_categories (category_scores r)).
Proof.
  destruct (overall_score_eq da fs r H) as [Hcs Hov].
  destruct (totals_by_category da fs) as [Hws Hw].
  destruct (score_frameworks_invariant da fs) as [Hnd Hkeys Hscores Hws' Hw'].
  assert (Hmean : overall_score r == weighted_mean_per_framework fs (category_scores r)).
  { rewrite Hov, Hcs. unfold weighted_mean_per_framework.
    apply guarded_quotient_eq; [assumption|assumption|reflexivity]. }
  split; [exact Hmean|]. split; [|split].
  - intros ->. rewrite Hov. reflexivity.
  - intros Hne. rewrite Hov.
    pose proof (total_weight_positive fs Hne) as Hpos.
    rewrite <- Hw' in Hpos. apply Qlt_bool_iff in Hpos. rewrite Hpos.
    now rewrite Hws', Hw'.
  - intros Hdistinct. rewrite Hmean.
    unfold weighted_mean_per_framework, Spec.weighted_mean_of_categories.
    assert (Hone : forall e, In e (category_scores r) ->
               of_nat (multiplicity fs (fst e)) == 1).
    { intros e He. rewrite multiplicity_one; [reflexivity|exact Hdistinct|].
      apply Hkeys. rewrite <- Hcs. now apply in_map. }
    apply guarded_quotient_eq; [| |reflexivity].
    + apply total_ext. intros e He. rewrite (Hone e He). ring.
    + apply total_ext. intros e He. rewrite (Hone e He). ring.
Qed.

(** [calculate_comprehensive_score] returns whenever the confidence of the
    scoring can be computed. *)
Lemma calculate_returns (da : pyval) (fs : list string) (confidence : Q) :
  _calculate_scoring_confidence da fs = Some confidence ->
  exists r, calculate_comprehensive_score da fs = Some r /\ confidence_level r = confidence.
Proof.
  intros Hc. unfold calculate_comprehensive_score, bind, ret. rewrite Hc.
  eexists. split; reflexivity.
Qed.

(** Two frameworks of one category and one of another, on an analysis
    without indicators. *)
Lemma C1_witness :
  exists r,
    calculate_comprehensive_score (PyDict [])
      ["constitutional_analysis"; "administrative_law"; "privacy_rights_analysis"] = Some r /\
    overall_score r ==
      weighted_mean_per_framework
        ["constitutional_analysis"; "administrative_law"; "privacy_rights_analysis"]
        (category_scores r).
Proof.
  eexists. split; [reflexivity|].
  exact (proj1 (C1_overall_score_counts_weight_per_framework
                  (PyDict [])
                  ["constitutional_analysis"; "administrative_law"; "privacy_rights_analysis"]
                  _ eq_refl)).
Defined.

(** C1 as stated fails when two frameworks collapse onto one category:
    for constitutional_analysis, administrative_law and
    privacy_rights_analysis on an analysis without indicators the category
    scores are 63.5 and 57, the code returns (63.5*0.4 + 63.5*0.4 + 57*0.3)
    / 1.1 = 679/11, and the mean with every category counted once is
    (63.5*0.4 + 57*0.3) / 0.7 = 425/7. *)
Lemma C1_counterexample :
  let da := PyDict [] in
  let fs := ["constitutional_analysis"; "administrative_law"; "privacy_rights_analysis"] in
  exists r,
    calculate_comprehensive_score da fs = Some r /\
    keys (category_scores r) = ["constitutional_compliance"; "privacy_compliance"] /\
    overall_score r == 679 # 11 /\
    Spec.weighted_mean_of_categories (category_scores r) == 425 # 7 /\
    ~ overall_score r == Spec.weighted_mean_of_categories (category_scores r).
Proof.
  eexists. split; [reflexivity|].
  split; [reflexivity|]. split; [reflexivity|]. split; [reflexivity|].
  vm_compute. discriminate.
Qed.

Lemma get_of_key {V : Type} (k : string) (d : dict V) :
  In k (keys d) -> exists v, get k d = Some v.
Proof.
  induction d as [|[k' v'] d IH]; cbn [keys map fst get]; intros Hin; [contradiction|].
  destruct (String.eqb_spec k k') as [->|Hne]; [now exists v'|].
  destruct Hin as [E|Hin]; [now elim Hne|]. exact (IH Hin).
Qed.

Lemma get_set_distinct {V : Type} (k k' : string) (v : V) (d : dict V) :
  k <> k' -> get k (set k' v d) = get k d.
Proof.
  intros Hne. induction d as [|[j w] d IH]; cbn [set get].
  - destruct (String.eqb_spec k k') as [E|_]; [now elim Hne|reflexivity].
  - destruct (String.eqb_spec k' j) as [->|Hj]; cbn [get].
    + destruct (String.eqb_spec k j) as [E|_]; [now elim Hne|reflexivity].
    + destruct (String.eqb_spec k j); [reflexivity|exact IH].
Qed.

(** The frameworks after the last one mapped to a category leave its entry. *)
Lemma later_frameworks_keep_entry (da : pyval) (c : string) (after : list string)
    (t : totals) :
  Forall (fun g => _map_framework_to_category g <> c) after ->
  get c (scored_categories (fold_left (score_framework da) after t)) =
  get c (scored_categories t).
Proof.
  intros Hall. revert t. induction Hall as [|g after Hg _ IH]; intros t; [reflexivity|].
  cbn [fold_left]. rewrite IH.
  destruct (score_framework_step da t g) as (cs & _ & ->). cbn [scored_categories].
  apply get_set_distinct. intros E. apply Hg. now symmetry.
Qed.

Lemma total_insert {A : Type} (g : A -> Q) (before after : list A) (x : A) :
  Spec.total (map g (before ++ x :: after)) == Spec.total (map g (before ++ after)) + g x.
Proof.
  rewrite !map_app, !total_app. cbn [map Spec.total fold_right].
  fold (Spec.total (map g after)). ring.
Qed.

(** C9: a framework name outside the fixed mapping is mapped to
    constitutional_compliance and scored there on all three criteria, as
    constitutional_analysis is; in the framework loop it adds that category's
    score times its weight 0.4 to the weighted total and 0.4 to the total
    weight, and its result becomes the category's entry.  In the result of
    [calculate_comprehensive_score], wherever the name stands in
    [frameworks_applied], the overall score is the weighted total of the
    other frameworks plus that score times 0.4, divided by their total
    weight plus 0.4, where leaving the name out gives the quotient of the
    two totals alone; constitutional_compliance is a scored category with
    that score, and the name's own result is its entry when no later
    framework maps to the category. *)
Theorem C9_unmapped_framework_counts_as_constitutional
    (f : string) (H : ~ In f (keys mapping)) :
  _map_framework_to_category f = "constitutional_compliance" /\
  _get_category_weight (_map_framework_to_category f) = 0.4 /\
  forall da, exists base,
    _score_framework_category "constitutional_analysis" da = Some base /\
    keys (criterion_scores base) =
      ["fundamental_rights_adherence"; "constitutional_validity"; "procedural_compliance"] /\
    let scored :=
      {| score := score base; criterion_scores := criterion_scores base;
         category := "constitutional_compliance"; framework := f |} in
    _score_framework_category f da = Some scored /\
    (forall fs,
      let before := score_frameworks da fs in
      let after := score_frameworks da (fs ++ [f]) in
      total_weighted_score after = total_weighted_score before + score base * 0.4 /\
      total_weight after = total_weight before + 0.4 /\
      get "constitutional_compliance" (scored_categories after) = Some scored) /\
    forall before after r,
      calculate_comprehensive_score da (before ++ f :: after) = Some r ->
      let others := before ++ after in
      let weighted :=
        Spec.total (map (fun g => framework_score da g * framework_weight g) others) in
      let weights := Spec.total (map framework_weight others) in
      0 <= weights /\
      overall_score r == (weighted + score base * 0.4) / (weights + 0.4) /\
      (others = [] -> overall_score r == score base) /\
      (forall r', calculate_comprehensive_score da others = Some r' ->
                  overall_score r' == if Qlt_bool 0 weights then weighted / weights else 0) /\
      (exists entry,
          get "constitutional_compliance" (category_scores r) = Some entry /\
          score entry = score base) /\
      (Forall (fun g => _map_framework_to_category g <> "constitutional_compliance") after ->
       get "constitutional_compliance" (category_scores r) = Some scored).
Proof.
  pose proof (map_framework_unmapped f H) as Hmap.
  split; [exact Hmap|]. split; [now rewrite Hmap|].
  intros da.
  destruct (score_framework_category_some "constitutional_analysis" da) as (base & Hbase & _ & _).
  exists base. split; [exact Hbase|].
  assert (Hf : _score_framework_category f da =
               Some {| score := score base; criterion_scores := criterion_scores base;
                       category := "constitutional_compliance"; framework := f |}).
  { revert Hbase. unfold _score_framework_category. rewrite Hmap.
    change (_map_framework_to_category "constitutional_analysis")
      with "constitutional_compliance".
    destruct (get "constitutional_compliance" scoring_criteria); [|discriminate].
    intros [= <-]. reflexivity. }
  split.
  { revert Hbase. unfold _score_framework_category.
    change (_map_framework_to_category "constitutional_analysis")
      with "constitutional_compliance".
    simpl. intros [= <-]. reflexivity. }
  split; [exact Hf|].
  assert (Hstep : forall t,
            score_framework da t f =
            {| total_weighted_score := total_weighted_score t + score base * 0.4;
               total_weight := total_weight t + 0.4;
               scored_categories :=
                 set "constitutional_compliance"
                   {| score := score base; criterion_scores := criterion_scores base;
                      category := "constitutional_compliance"; framework := f |}
                   (scored_categories t) |}).
  { intros t. unfold score_framework. rewrite Hf, Hmap. reflexivity. }
  split.
  { intros fs before after. subst before after.
    rewrite score_frameworks_snoc, Hstep. cbn [total_weighted_score total_weight scored_categories].
    split; [reflexivity|]. split; [reflexivity|].
    apply get_set_same. }
  assert (Hscore : framework_score da f = score base)
    by (unfold framework_score; rewrite Hf; reflexivity).
  assert (Hweight : framework_weight f = 0.4)
    by (unfold framework_weight; rewrite Hmap; reflexivity).
  intros before after r Hr others weighted weights.
  destruct (overall_score_eq da _ r Hr) as [Hcs Hoverall].
  destruct (score_frameworks_invariant da (before ++ f :: after))
    as [_ Hkeys Hscores Hws Hw].
  assert (Hnonneg : 0 <= weights).
  { unfold weights. clear. induction others as [|g l IH]; [apply Qle_refl|].
    cbn [map Spec.total fold_right]. fold (Spec.total (map framework_weight l)).
    pose proof (framework_weight_positive g) as Hg.
    set (w := framework_weight g) in *. set (s := Spec.total _) in *. clearbody w s. lra. }
  assert (Hws' : total_weighted_score (score_frameworks da (before ++ f :: after)) ==
                 weighted + score base * 0.4).
  { rewrite Hws, (total_insert (fun g => framework_score da g * framework_weight g)).
    rewrite Hscore, Hweight. reflexivity. }
  assert (Hw' : total_weight (score_frameworks da (before ++ f :: after)) == weights + 0.4).
  { rewrite Hw, (total_insert framework_weight), Hweight. reflexivity. }
  assert (Hov : overall_score r == (weighted + score base * 0.4) / (weights + 0.4)).
  { rewrite Hoverall.
    set (t := score_frameworks da (before ++ f :: after)) in *. clearbody t.
    assert (E : Qlt_bool 0 (total_weight t) = true).
    { apply Qlt_bool_iff. rewrite Hw'. set (w := weights) in *. clearbody w. lra. }
    rewrite E, Hws', Hw'. reflexivity. }
  split; [exact Hnonneg|]. split; [exact Hov|]. split; [|split; [|split]].
  - intros Hnil. rewrite Hov. unfold weighted, weights. rewrite Hnil.
    cbn [map Spec.total fold_right].
    set (s := score base). clearbody s. field.
  - intros r' Hr'.
    destruct (overall_score_eq da _ r' Hr') as [_ Ho'].
    destruct (score_frameworks_invariant da others) as [_ _ _ Hws2 Hw2].
    rewrite Ho'. apply guarded_quotient_eq; [exact Hws2|exact Hw2|reflexivity].
  - assert (Hk : In "constitutional_compliance"
                    (keys (scored_categories (score_frameworks da (before ++ f :: after))))).
    { apply Hkeys. rewrite <- Hmap. apply in_map, in_or_app. right. now left. }
    destruct (get_of_key _ _ Hk) as (entry & Hentry).
    exists entry. split; [rewrite Hcs; exact Hentry|].
    rewrite (Hscores _ entry (get_in _ _ _ Hentry) f Hmap). exact Hscore.
  - intros Hall. rewrite Hcs. unfold score_frameworks.
    rewrite fold_left_app. cbn [fold_left].
    rewrite (later_frameworks_keep_entry da _ after _ Hall).
    fold (score_frameworks da before). rewrite Hstep. cbn [scored_categories].
    apply get_set_same.
Qed.

(** A framework of the registry that the scoring table does not list:
    alone it gives the document the constitutional score, and beside
    privacy_rights_analysis it moves the overall score from 57 to 425/7. *)
Lemma C9_witness :
  _map_framework_to_category "contract_law_analysis" = "constitutional_compliance" /\
  _get_category_weight (_map_framework_to_category "contract_law_analysis") = 0.4 /\
  exists r r',
    calculate_comprehensive_score (PyDict [])
      ["privacy_rights_analysis"; "contract_law_analysis"] = Some r /\
    calculate_comprehensive_score (PyDict []) ["privacy_rights_analysis"] = Some r' /\
    overall_score r == 425 / 7 /\
    overall_score r' == 57.
Proof.
  assert (H : ~ In "contract_law_analysis" (keys mapping)).
  { simpl. intros [E|[E|[E|[E|[E|[]]]]]]; discriminate E. }
  destruct (C9_unmapped_framework_counts_as_constitutional "contract_law_analysis" H)
    as (H1 & H2 & Hall).
  split; [exact H1|]. split; [exact H2|].
  destruct (Hall (PyDict [])) as (base & Hbase & _ & _ & _ & Hres).
  injection Hbase as <-.
  eexists. eexists. split; [reflexivity|]. split; [reflexivity|].
  destruct (Hres ["privacy_rights_analysis"] [] _ eq_refl) as (_ & Hov & _ & Hskip & _).
  split.
  - rewrite Hov. reflexivity.
  - rewrite (Hskip _ eq_refl). reflexivity.
Defined.

End ScoringProps.

(** ** Risk levels *)

Module RiskProps.
Import Notions Dict Py Scoring.
Local Open Scope Q_scope.

Lemma first_level_spec (thresholds : dict Q) (score : Q) :
  first_reached thresholds score (first_level thresholds score) \/
  (first_level thresholds score = "very_high" /\
   Forall (fun entry : string * Q => score < snd entry) thresholds).
Proof.
  induction thresholds as [|[level threshold] rest IH]; simpl.
  - right. split; [reflexivity|constructor].
  - destruct (Qle_bool threshold score) eqn:E.
    + left. exists [], threshold, rest. split; [reflexivity|split].
      * now apply Qle_bool_iff.
      * constructor.
    + apply Qle_bool_false_iff in E.
      destruct IH as [(before & th & after & Heq & Hle & Hall) | [Hvh Hall]].
      * left. exists ((level, threshold) :: before), th, after.
        split; [simpl; f_equal; exact Heq | split; [exact Hle | now constructor]].
      * right. split; [exact Hvh | now constructor].
Qed.

Lemma tables_descending :
  Forall (fun table : string * dict Q => descending (snd table)) risk_thresholds.
Proof.
  unfold risk_thresholds, _initialize_risk_thresholds, descending.
  repeat (apply Forall_cons || apply Forall_nil || apply SSorted_cons || apply SSorted_nil);
    reflexivity.
Qed.

(** C8: the risk level of a score is the first level, in the table's
    order, whose threshold the score meets or exceeds; every table of
    [risk_thresholds] lists its thresholds from the highest to the lowest;
    when no threshold is met the level is "very_high".  Every scored
    category is assessed this way under the risk type derived from its
    name.  A constitutional_compliance score of exactly 90 is "very_low"
    and one of 89.9 is "low". *)
Theorem C8_risk_level_first_threshold_met :
  (forall risk_type thresholds,
      In (risk_type, thresholds) risk_thresholds -> descending thresholds) /\
  (forall risk_type score,
      descending (thresholds_for risk_type) /\
      (first_reached (thresholds_for risk_type) score (_get_risk_level risk_type score) \/
       (_get_risk_level risk_type score = "very_high" /\
        Forall (fun entry : string * Q => score < snd entry) (thresholds_for risk_type)))) /\
  (forall da fs r c cs,
      calculate_comprehensive_score da fs = Some r ->
      get c (category_scores r) = Some cs ->
      exists cr, get c (category_risks (risks r)) = Some cr /\
                 risk_level cr = _get_risk_level (risk_type_of c) (score cs)) /\
  risk_type_of "constitutional_compliance" = "constitutional_risk" /\
  thresholds_for "constitutional_risk" =
    [("very_low", 90); ("low", 75); ("medium", 60); ("high", 40); ("very_high", 0)] /\
  category_risk_level "constitutional_compliance" 90 = "very_low" /\
  category_risk_level "constitutional_compliance" 89.9 = "low".
Proof.
  split; [|split; [|split; [|repeat split]]].
  - intros risk_type thresholds Hin.
    pose proof tables_descending as H. rewrite Forall_forall in H.
    exact (H _ Hin).
  - intros risk_type score. split.
    + pose proof tables_descending as H. rewrite Forall_forall in H.
      unfold thresholds_for, get_default.
      destruct (get risk_type _) as [t|] eqn:E.
      * apply get_in in E. exact (H _ E).
      * apply (H ("overall_risk", _)). simpl. tauto.
    + apply first_level_spec.
  - intros da fs r c cs Hr Hget. eexists. split.
    + exact (ScoringProps.assessed_risk da fs r c cs Hr Hget).
    + reflexivity.
Qed.

(** C10: the risk type derived from "dpdpa_compliance" is "dpdpa_risk",
    which has no table, so the category is bucketed with the overall_risk
    thresholds 87, 72, 57, 37, also in the assessment of a scored document;
    a score of 87 is "very_low" there although the compliance_risk table
    would give "low". *)
Theorem C10_dpdpa_uses_overall_risk_table :
  risk_type_of "dpdpa_compliance" = "dpdpa_risk" /\
  get "dpdpa_risk" risk_thresholds = None /\
  thresholds_for (risk_type_of "dpdpa_compliance") =
    [("very_low", 87); ("low", 72); ("medium", 57); ("high", 37); ("very_high", 0)] /\
  (forall score,
      category_risk_level "dpdpa_compliance" score = _get_risk_level "overall_risk" score) /\
  (forall score,
      category_risk_level "dpdpa_compliance" score =
        if Qle_bool 87 score then "very_low"
        else if Qle_bool 72 score then "low"
        else if Qle_bool 57 score then "medium"
        else if Qle_bool 37 score then "high"
        else "very_high") /\
  (forall da fs r cs,
      calculate_comprehensive_score da fs = Some r ->
      get "dpdpa_compliance" (category_scores r) = Some cs ->
      exists cr, get "dpdpa_compliance" (category_risks (risks r)) = Some cr /\
                 risk_level cr = _get_risk_level "overall_risk" (score cs)) /\
  category_risk_level "dpdpa_compliance" 87 = "very_low" /\
  _get_risk_level "compliance_risk" 87 = "low".
Proof.
  split; [reflexivity|]. split; [reflexivity|]. split; [reflexivity|].
  split; [reflexivity|]. split; [|split; [|split; reflexivity]].
  - intros score. unfold category_risk_level, _get_risk_level.
    change (thresholds_for (risk_type_of "dpdpa_compliance"))
      with [("very_low", 87); ("low", 72); ("medium", 57); ("high", 37); ("very_high", 0)].
    simpl.
    destruct (Qle_bool 87 score), (Qle_bool 72 score), (Qle_bool 57 score),
      (Qle_bool 37 score), (Qle_bool 0 score); reflexivity.
  - intros da fs r cs Hr Hget. eexists. split.
    + exact (ScoringProps.assessed_risk da fs r "dpdpa_compliance" cs Hr Hget).
    + reflexivity.
Qed.

(** A document whose chunks mention consent and a lawful basis, scored for
    dpdpa_compliance: the category scores 73.75, which is "low" in the
    overall_risk table. *)
Lemma dpdpa_assessment_example :
  let da :=
    PyDict [("enhanced_chunks",
             PyList [PyDict [("text", PyString "Consent is the lawful basis of processing")]])] in
  exists r cs cr,
    calculate_comprehensive_score da ["dpdpa_compliance"] = Some r /\
    get "dpdpa_compliance" (category_scores r) = Some cs /\
    score cs == 73.75 /\
    get "dpdpa_compliance" (category_risks (risks r)) = Some cr /\
    risk_level cr = "low".
Proof.
  eexists. eexists. eexists.
  split; [reflexivity|]. split; [reflexivity|]. split; [reflexivity|].
  split; reflexivity.
Qed.

End RiskProps.

(** ** Framework selection *)

Module FrameworkProps.
Import Notions Dict Py Frameworks.

Section StableSort.
Variable key : string -> Z.

Lemma insert_by_key_perm (x : string) (l : list string) :
  Permutation (insert_by_key key x l) (x :: l).
Proof.
  induction l as [|y l IH]; simpl.
  - apply Permutation_refl.
  - destruct (key x <=? key y)%Z.
    + apply Permutation_refl.
    + eapply perm_trans; [apply perm_skip, IH|apply perm_swap].
Qed.

Lemma sort_by_key_perm (l : list string) : Permutation (sort_by_key key l) l.
Proof.
  induction l as [|x l IH]; simpl.
  - constructor.
  - eapply perm_trans; [apply insert_by_key_perm|apply perm_skip, IH].
Qed.

Lemma insert_by_key_sorted (x : string) (l : list string) :
  StronglySorted (key_le key) l -> StronglySorted (key_le key) (insert_by_key key x l).
Proof.
  induction l as [|y l IH]; simpl; intros Hs.
  - repeat constructor.
  - inversion Hs as [|? ? Hs' Hall]; subst.
    destruct (key x <=? key y)%Z eqn:E.
    + apply Z.leb_le in E. constructor; [exact Hs|].
      constructor; [exact E|].
      eapply Forall_impl; [|exact Hall].
      intros z Hz. unfold key_le in *. lia.
    + apply Z.leb_gt in E. constructor; [now apply IH|].
      eapply Permutation_Forall; [apply Permutation_sym, insert_by_key_perm|].
      constructor; [unfold key_le; lia|exact Hall].
Qed.

Lemma sort_by_key_sorted (l : list string) : StronglySorted (key_le key) (sort_by_key key l).
Proof.
  induction l as [|x l IH]; simpl.
  - constructor.
  - now apply insert_by_key_sorted.
Qed.

(** Inserting an item does not reorder the items of any one key. *)
Lemma insert_by_key_stable (p : Z) (x : string) (l : list string) :
  with_key key p (insert_by_key key x l) = with_key key p (x :: l).
Proof.
  unfold with_key.
  induction l as [|y l IH]; simpl; [reflexivity|].
  destruct (key x <=? key y)%Z eqn:E; [reflexivity|].
  apply Z.leb_gt in E. simpl. rewrite IH. simpl.
  destruct (Z.eqb_spec (key x) p), (Z.eqb_spec (key y) p); try reflexivity. lia.
Qed.

Lemma sort_by_key_stable (p : Z) (l : list string) :
  with_key key p (sort_by_key key l) = with_key key p l.
Proof.
  induction l as [|x l IH]; simpl; [reflexivity|].
  rewrite insert_by_key_stable. unfold with_key in *. simpl. now rewrite IH.
Qed.

Lemma sort_by_key_length (l : list string) :
  List.length (sort_by_key key l) = List.length l.
Proof. apply Permutation_length, sort_by_key_perm. Qed.

(** An item whose key is below all the other keys is sorted first. *)
Lemma sort_by_key_head (x : string) (l : list string) :
  In x l ->
  (forall y, In y l -> y <> x -> (key x < key y)%Z) ->
  exists rest, sort_by_key key l = x :: rest.
Proof.
  induction l as [|a l IH]; simpl; intros Hin Hmin; [contradiction|].
  destruct (string_dec a x) as [->|Hne].
  - destruct (sort_by_key key l) as [|y t] eqn:E; simpl.
    + now exists [].
    + destruct (key x <=? key y)%Z eqn:Ele; [now eexists|].
      apply Z.leb_gt in Ele.
      assert (Hy : In y l).
      { apply (Permutation_in y (sort_by_key_perm l)). rewrite E. now left. }
      destruct (string_dec y x) as [->|Hyx]; [lia|].
      specialize (Hmin y (or_intror Hy) Hyx). lia.
  - destruct Hin as [Heq|Hin]; [contradiction|].
    destruct (IH Hin) as [rest Hrest].
    { intros y Hy. apply Hmin. now right. }
    rewrite Hrest. simpl.
    specialize (Hmin a (or_introl eq_refl) Hne).
    destruct (key a <=? key x)%Z eqn:Ele; [apply Z.leb_le in Ele; lia|].
    now eexists.
Qed.

End StableSort.

Lemma StronglySorted_firstn {A : Type} (R : A -> A -> Prop) (n : nat) (l : list A) :
  StronglySorted R l -> StronglySorted R (firstn n l).
Proof.
  revert l. induction n as [|n IH]; intros l Hs; simpl; [constructor|].
  destruct l as [|x l]; [constructor|].
  inversion Hs as [|? ? Hs' Hall]; subst.
  constructor; [now apply IH|].
  rewrite Forall_forall in *. intros y Hy. apply Hall.
  rewrite <- (firstn_skipn n l). apply in_or_app. now left.
Qed.

Lemma append_new_incl (l extra : list string) (x : string) :
  In x l -> In x (append_new l extra).
Proof.
  unfold append_new. revert l.
  induction extra as [|e extra IH]; simpl; intros l Hin; [exact Hin|].
  apply IH. destruct (str_in e l); [exact Hin|].
  apply in_or_app. now left.
Qed.

(** The limits applied to a list that is already sorted. *)
Lemma prioritize_eq (frameworks : list string) :
  _prioritize_and_limit_frameworks frameworks =
    match frameworks with
    | [] => ["general_legal_analysis"]
    | _ => firstn 4 (sort_by_key priority_of frameworks)
    end.
Proof.
  unfold _prioritize_and_limit_frameworks.
  rewrite sort_by_key_length.
  destruct frameworks as [|x l]; [reflexivity|]. reflexivity.
Qed.

(** C6: the selected list has between 1 and 4 frameworks and is in
    ascending order of priority; it is ["general_legal_analysis"] when
    nothing was selected, and otherwise the first four items of the
    selection sorted by priority, a sort that keeps the insertion order of
    frameworks of equal priority. *)
Theorem C6_selection_bounded_and_stably_sorted
    (document_type : string) (confidence : Q) (content_indicators : option (dict pyval)) :
  let sel := select_frameworks document_type confidence content_indicators in
  let combined :=
    combined_frameworks document_type confidence (indicators content_indicators) in
  let result := selected_frameworks sel in
  (1 <= List.length result <= 4)%nat /\
  framework_count sel = List.length result /\
  StronglySorted (key_le priority_of) result /\
  (combined = [] -> result = ["general_legal_analysis"]) /\
  (combined <> [] ->
   exists sorted,
     Permutation sorted combined /\
     StronglySorted (key_le priority_of) sorted /\
     (forall p, with_key priority_of p sorted = with_key priority_of p combined) /\
     result = firstn 4 sorted).
Proof.
  intros sel combined result.
  assert (Hres : result = _prioritize_and_limit_frameworks combined).
  { unfold result, sel, select_frameworks, combined, indicators.
    destruct content_indicators; reflexivity. }
  rewrite prioritize_eq in Hres.
  pose proof (sort_by_key_length priority_of combined) as Hlen.
  pose proof (sort_by_key_sorted priority_of combined) as Hsorted.
  split; [|split; [reflexivity|split; [|split]]]; rewrite Hres; clear Hres;
    clearbody combined; clear sel result.
  - destruct combined as [|x l]; [simpl; lia|].
    rewrite length_firstn, Hlen. simpl List.length. lia.
  - destruct combined as [|x l].
    + repeat constructor.
    + now apply StronglySorted_firstn.
  - intros ->. reflexivity.
  - intros Hne. exists (sort_by_key priority_of combined).
    split; [apply sort_by_key_perm|]. split; [exact Hsorted|].
    split; [intros p; apply sort_by_key_stable|].
    destruct combined; [congruence|reflexivity].
Qed.

Lemma priority_constitutional : priority_of "constitutional_analysis" = 1%Z.
Proof. reflexivity. Qed.

Lemma priority_others (y : string) :
  y <> "constitutional_analysis" -> (1 < priority_of y)%Z.
Proof.
  intros Hne. unfold priority_of, framework_registry, _initialize_framework_registry.
  simpl.
  destruct (String.eqb_spec y "constitutional_analysis"); [contradiction|].
  repeat match goal with
         | |- context [String.eqb ?a ?b] => destruct (String.eqb a b)
         end; simpl; lia.
Qed.

Lemma combined_has_constitutional (document_type : string) (confidence : Q)
    (content_indicators : dict pyval) :
  (0.5 <= confidence)%Q ->
  In "constitutional_analysis"
     (combined_frameworks document_type confidence content_indicators).
Proof.
  intros Hc. apply Qle_bool_iff in Hc.
  unfold combined_frameworks, _apply_combination_rules.
  apply append_new_incl. rewrite Hc. simpl.
  destruct (str_in "constitutional_analysis" _) eqn:E; simpl.
  - now apply str_in_iff.
  - apply in_or_app. right. now left.
Qed.

(** C7: with a confidence of at least 0.5 the selected list contains
    "constitutional_analysis", whatever the document type and the content
    indicators: it is in the selection before the limits, and having the
    lowest priority number it is sorted first and survives the cut to
    four. *)
Theorem C7_confident_selection_has_constitutional_analysis
    (document_type : string) (confidence : Q) (content_indicators : option (dict pyval))
    (H : (0.5 <= confidence)%Q) :
  In "constitutional_analysis"
     (selected_frameworks (select_frameworks document_type confidence content_indicators)) /\
  hd_error (selected_frameworks (select_frameworks document_type confidence content_indicators))
    = Some "constitutional_analysis".
Proof.
  set (combined := combined_frameworks document_type confidence (indicators content_indicators)).
  assert (Hres : selected_frameworks (select_frameworks document_type confidence content_indicators)
                 = _prioritize_and_limit_frameworks combined).
  { unfold select_frameworks, combined, indicators.
    destruct content_indicators; reflexivity. }
  rewrite Hres, prioritize_eq.
  pose proof (combined_has_constitutional document_type confidence
                (indicators content_indicators) H) as Hin.
  fold combined in Hin.
  destruct (sort_by_key_head priority_of "constitutional_analysis" combined Hin)
    as [rest Hrest].
  { intros y _ Hy. rewrite priority_constitutional. now apply priority_others. }
  destruct combined as [|x l]; [contradiction|].
  rewrite Hrest. simpl. split; [now left|reflexivity].
Qed.

(** A document type no framework applies to, classified with confidence 0.5. *)
Lemma C7_witness :
  In "constitutional_analysis"
     (selected_frameworks (select_frameworks "lease_deed" 0.5 None)).
Proof.
  assert (H : (0.5 <= 0.5)%Q) by (unfold Qle; simpl; lia).
  exact (proj1 (C7_confident_selection_has_constitutional_analysis "lease_deed" 0.5 None H)).
Defined.

End FrameworkProps.

(** ** Classification *)

Module ClassifierProps.
Import Notions Dict Classifier.
Local Open Scope Q_scope.

(** *** The score table *)

Lemma document_patterns_distinct : NoDup (keys document_patterns).
Proof.
  unfold document_patterns, _initialize_document_patterns, keys. simpl.
  repeat (constructor;
          [simpl; intros H;
           repeat (destruct H as [H|H]; [discriminate H|]); exact H|]).
  constructor.
Qed.

Lemma classification_scores_eq (text : string) :
  classification_scores text =
  map (fun e => (fst e, type_score text (snd e))) document_patterns.
Proof.
  unfold classification_scores.
  exact (fill_distinct (fun e : string * criteria => type_score text (snd e))
           document_patterns [] document_patterns_distinct).
Qed.

(** *** The best type *)

Lemma max_key_from_spec (d : dict Q) (best : string) (best_value : Q) :
  let result := max_key_from best best_value d in
  (result = (best, best_value) /\
   Forall (fun e : string * Q => snd e <= best_value) d) \/
  (best_value < snd result /\ first_maximum d (fst result) (snd result)).
Proof.
  revert best best_value.
  induction d as [|[k v] d IH]; simpl; intros best best_value.
  - left. split; [reflexivity|constructor].
  - destruct (Qlt_bool best_value v) eqn:E.
    + apply Qlt_bool_iff in E.
      destruct (IH k v) as [[Heq Hall]|[Hlt (before & after & Hd & Hb & Ha)]].
      * right. rewrite Heq. simpl. split; [exact E|].
        exists [], d. split; [reflexivity|]. split; [constructor|exact Hall].
      * right. split; [lra|].
        exists ((k, v) :: before), after.
        split; [simpl; now f_equal|]. split; [|exact Ha].
        constructor; [exact Hlt|exact Hb].
    + apply Qlt_bool_false_iff in E.
      destruct (IH best best_value) as [[Heq Hall]|[Hlt (before & after & Hd & Hb & Ha)]].
      * left. split; [exact Heq|]. constructor; [exact E|exact Hall].
      * right. split; [exact Hlt|].
        exists ((k, v) :: before), after.
        split; [simpl; now f_equal|]. split; [|exact Ha].
        constructor; [simpl; lra|exact Hb].
Qed.

Lemma max_key_spec (d : dict Q) :
  match max_key d with
  | None => d = []
  | Some (best, value) => first_maximum d best value
  end.
Proof.
  destruct d as [|[k v] d]; simpl; [reflexivity|].
  pose proof (max_key_from_spec d k v) as H. simpl in H.
  destruct (max_key_from k v d) as [best value]. simpl in H.
  destruct H as [[[= -> ->] Hall]|[Hlt (before & after & Hd & Hb & Ha)]].
  - exists [], d. split; [reflexivity|]. split; [constructor|exact Hall].
  - exists ((k, v) :: before), after.
    split; [simpl; now f_equal|]. split; [|exact Ha].
    constructor; [exact Hlt|exact Hb].
Qed.

Lemma classify_long (text : string) :
  too_short text = false ->
  exists best_type best_confidence,
    max_key (classification_scores text) = Some (best_type, best_confidence) /\
    classify_with_confidence text =
      (apply_threshold best_type best_confidence, best_confidence,
       classification_scores text).
Proof.
  intros H. unfold classify_with_confidence. rewrite H.
  destruct (max_key (classification_scores text)) as [[best value]|] eqn:E.
  - exists best, value. split; reflexivity.
  - pose proof (max_key_spec (classification_scores text)) as Hs. rewrite E in Hs.
    rewrite classification_scores_eq in Hs. discriminate Hs.
Qed.

(** C5: a text whose stripped length is below 10 is answered
    ("unknown", 0.0, {}) by the guard; no score is in the result. *)
Theorem C5_short_text_returns_unknown
    (text : string) (H : (String.length (strip text) < 10)%nat) :
  classify_with_confidence text = ("unknown", 0.0, []).
Proof.
  unfold classify_with_confidence, too_short.
  apply Nat.ltb_lt in H. rewrite H, orb_true_r. reflexivity.
Qed.

(** The empty string, a blank string and a nine-character word. *)
Lemma C5_witness :
  classify_with_confidence EmptyString = ("unknown", 0.0, []) /\
  classify_with_confidence "   " = ("unknown", 0.0, []) /\
  classify_with_confidence "  agreement  " = ("unknown", 0.0, []).
Proof.
  split; [|split]; apply C5_short_text_returns_unknown; simpl; lia.
Defined.

(** C2: for a text that passes the guard the returned confidence is the
    largest score of [all_scores], that of the first type reaching it; when
    it is below that type's threshold (0.4 for a type without one) the
    returned type is "general_legal_document" if the confidence exceeds 0.2
    and "unknown" otherwise, and the confidence is still that score. *)
Theorem C2_threshold_fallback_keeps_winning_score
    (text : string) (H : too_short text = false) :
  exists document_type confidence all_scores best_type,
    classify_with_confidence text = (document_type, confidence, all_scores) /\
    first_maximum all_scores best_type confidence /\
    let threshold :=
      match get best_type confidence_thresholds with
      | Some configured => configured
      | None => 0.4
      end in
    (confidence < threshold ->
     document_type =
       if Qlt_bool 0.2 confidence then "general_legal_document" else "unknown") /\
    (threshold <= confidence -> document_type = best_type).
Proof.
  destruct (classify_long text H) as (best_type & best_confidence & Hmax & Hres).
  exists (apply_threshold best_type best_confidence), best_confidence,
    (classification_scores text), best_type.
  split; [exact Hres|]. split.
  - pose proof (max_key_spec (classification_scores text)) as Hs.
    now rewrite Hmax in Hs.
  - unfold apply_threshold, get_default.
    change default_threshold with 0.4.
    destruct (get best_type confidence_thresholds) as [configured|]; simpl; split; intros Hc.
    + apply Qlt_bool_iff in Hc. now rewrite Hc.
    + apply Qlt_bool_false_iff in Hc. now rewrite Hc.
    + apply Qlt_bool_iff in Hc. now rewrite Hc.
    + apply Qlt_bool_false_iff in Hc. now rewrite Hc.
Qed.

(** *** Bounds on the scores *)

Lemma count_ratio_bounds {A : Type} (p : A -> bool) (l : list A) :
  0 <= ratio (count p l) (List.length l) <= 1.
Proof. apply ratio_bounds. unfold count. apply filter_length_le. Qed.

Lemma keyword_score_bounds (text_lower : string) (l : list string) :
  0 <= _calculate_keyword_score text_lower l <= 1.
Proof.
  unfold _calculate_keyword_score. destruct l as [|k l].
  - split; discriminate.
  - apply count_ratio_bounds.
Qed.

Lemma pattern_score_bounds (text : string) (l : list string) :
  0 <= _calculate_pattern_score text l <= 1.
Proof.
  unfold _calculate_pattern_score. destruct l as [|k l].
  - split; discriminate.
  - apply count_ratio_bounds.
Qed.

Lemma structure_score_bounds (text_lower : string) (l : list string) :
  0 <= _calculate_structure_score text_lower l <= 1.
Proof.
  unfold _calculate_structure_score. destruct l as [|k l].
  - split; discriminate.
  - apply count_ratio_bounds.
Qed.

Lemma bonus_bounds (text : string) : 0 <= _calculate_indian_legal_bonus text <= 0.5.
Proof.
  unfold _calculate_indian_legal_bonus. split; [|apply py_min_le_l].
  apply py_min_glb; [discriminate|].
  assert (Hfold : forall (l : dict (list string)) (b : Q), 0 <= b ->
            0 <= fold_left
                   (fun bonus (entry : string * list string) =>
                      if existsb (pattern_found text) (snd entry)
                      then bonus + 0.1 else bonus) l b).
  { induction l as [|e l IH]; intros b Hb; [exact Hb|].
    cbn [fold_left]. apply IH.
    destruct (existsb (pattern_found text) (snd e)); [lra|exact Hb]. }
  apply Hfold. discriminate.
Qed.

(** The three weights of every registered type are non-negative and add
    up to 1. *)
Lemma registry_weights (doc_type : string) (c : criteria) :
  In (doc_type, c) document_patterns ->
  0 <= weight_keyword c /\ 0 <= weight_pattern c /\ 0 <= weight_structure c /\
  weight_keyword c + weight_pattern c + weight_structure c == 1.
Proof.
  intros Hin.
  assert (Hall : forallb (fun e : string * criteria => weights_ok (snd e)) document_patterns = true)
    by (vm_compute; reflexivity).
  rewrite forallb_forall in Hall. specialize (Hall _ Hin).
  cbn [snd] in Hall. unfold weights_ok in Hall.
  repeat rewrite andb_true_iff in Hall.
  destruct Hall as [[[Hk Hp] Hs] Hsum].
  apply Qle_bool_iff in Hk, Hp, Hs. apply Qeq_bool_iff in Hsum. tauto.
Qed.

Lemma raw_score_bounds (text doc_type : string) (c : criteria) :
  In (doc_type, c) document_patterns -> 0 <= Spec.raw_score text c <= 1.05.
Proof.
  intros Hin. destruct (registry_weights _ _ Hin) as (Hk & Hp & Hs & Hsum).
  unfold Spec.raw_score.
  pose proof (keyword_score_bounds (lower text) (keywords c)) as Bk.
  pose proof (pattern_score_bounds text (patterns c)) as Bp.
  pose proof (structure_score_bounds (lower text) (structure c)) as Bs.
  pose proof (bonus_bounds text) as Bb.
  set (k := _calculate_keyword_score _ _) in *.
  set (p := _calculate_pattern_score _ _) in *.
  set (s := _calculate_structure_score _ _) in *.
  set (b := _calculate_indian_legal_bonus _) in *.
  set (wk := weight_keyword c) in *.
  set (wp := weight_pattern c) in *.
  set (ws := weight_structure c) in *.
  clearbody k p s b wk wp ws.
  assert (0 <= k * wk <= wk) by nra.
  assert (0 <= p * wp <= wp) by nra.
  assert (0 <= s * ws <= ws) by nra.
  lra.
Qed.

Lemma length_factor_bounds (text : string) : 0 <= Spec.length_factor text <= 1.
Proof.
  unfold Spec.length_factor. split.
  - apply py_min_glb; [discriminate|].
    unfold ratio. apply Qle_shift_div_l; [reflexivity|].
    rewrite Qmult_0_l. apply of_nat_nonneg.
  - eapply Qle_trans; [apply py_min_le_l|discriminate].
Qed.

Lemma type_score_eq (text : string) (c : criteria) :
  type_score text c = py_min 1.0 (Spec.raw_score text c * Spec.length_factor text).
Proof. reflexivity. Qed.

Lemma type_score_bounds (text doc_type : string) (c : criteria) :
  In (doc_type, c) document_patterns -> 0 <= type_score text c <= 1.
Proof.
  intros Hin. rewrite type_score_eq.
  pose proof (raw_score_bounds text _ _ Hin) as Br.
  pose proof (length_factor_bounds text) as Bl.
  set (raw := Spec.raw_score text c) in *.
  set (lf := Spec.length_factor text) in *.
  clearbody raw lf.
  split.
  - apply py_min_glb; [discriminate|nra].
  - eapply Qle_trans; [apply py_min_le_l|discriminate].
Qed.

(** C3, as the code computes it: for a text that passes the guard, the
    score recorded for a registered type is the weighted sum multiplied by
    the length factor and then capped at 1.0; it lies in [0,1].  It is the
    weighted sum clamped first and multiplied afterwards whenever the
    weighted sum does not exceed 1. *)
Theorem C3_score_is_normalized_then_capped
    (text doc_type : string) (c : criteria)
    (H : too_short text = false) (Hin : In (doc_type, c) document_patterns) :
  exists document_type confidence all_scores value,
    classify_with_confidence text = (document_type, confidence, all_scores) /\
    get doc_type all_scores = Some value /\
    value = py_min 1.0 (Spec.raw_score text c * Spec.length_factor text) /\
    0 <= value <= 1 /\
    (Spec.raw_score text c <= 1 -> value == Spec.clamped_then_normalized text c).
Proof.
  destruct (classify_long text H) as (best_type & best_confidence & _ & Hres).
  exists (apply_threshold best_type best_confidence), best_confidence,
    (classification_scores text), (type_score text c).
  split; [exact Hres|]. split.
  { rewrite classification_scores_eq.
    exact (get_map_in (fun e : string * criteria => type_score text (snd e))
             document_patterns doc_type c document_patterns_distinct Hin). }
  split; [apply type_score_eq|]. split; [exact (type_score_bounds text _ _ Hin)|].
  intros Hraw. rewrite type_score_eq. unfold Spec.clamped_then_normalized, Spec.clamp01.
  pose proof (raw_score_bounds text _ _ Hin) as Br.
  pose proof (length_factor_bounds text) as Bl.
  set (raw := Spec.raw_score text c) in *.
  set (lf := Spec.length_factor text) in *.
  clearbody raw lf.
  assert (Hprod : raw * lf <= 1) by nra.
  assert (Hmin : py_min 1.0 (raw * lf) == raw * lf).
  { unfold py_min. destruct (Qlt_bool (raw * lf) 1.0) eqn:E; [reflexivity|].
    apply Qlt_bool_false_iff in E. apply Qle_antisym; lra. }
  assert (Hclamp : py_max 0 (py_min 1 raw) == raw).
  { assert (Hm : py_min 1 raw == raw).
    { unfold py_min. destruct (Qlt_bool raw 1) eqn:E; [reflexivity|].
      apply Qlt_bool_false_iff in E. apply Qle_antisym; lra. }
    unfold py_max. destruct (Qlt_bool 0 (py_min 1 raw)) eqn:E; [exact Hm|].
    apply Qlt_bool_false_iff in E. rewrite Hm in E. apply Qle_antisym; lra. }
  now rewrite Hmin, Hclamp.
Qed.

(** *** Concrete texts *)

(** Every pattern of the tables is accepted by [Re.parse]. *)
Lemma patterns_compile :
  forallb (fun e : string * criteria =>
             forallb (fun p => match Re.parse p with Some _ => true | None => false end)
                     (patterns (snd e)))
          document_patterns = true /\
  forallb (fun e : string * list string =>
             forallb (fun p => match Re.parse p with Some _ => true | None => false end)
                     (snd e))
          indian_legal_indicators = true.
Proof. split; vm_compute; reflexivity. Qed.

(** The parts of the government_notification score of [five_words]: three
    of seven keywords, one of five patterns, one of four structure terms,
    one indicator category. *)
Lemma five_words_trace :
  split five_words = ["Government"; "of"; "India"; "Ministry"; "Notification"] /\
  map (fun k => contains (lower k) (lower five_words))
      ["government of india"; "notification"; "ministry"; "gazette";
       "office memorandum"; "central government"; "bharat sarkar"]
    = [true; true; true; false; false; false; false] /\
  map (pattern_found five_words)
      ["No\.\s+[A-Z]-\d+"; "dated\s+the\s+\d+"; "Government\s+of\s+India";
       "Ministry\s+of"; "Department\s+of"]
    = [false; false; true; false; false] /\
  map (fun e => contains (lower e) (lower five_words))
      ["preamble"; "notification"; "signature"; "seal"]
    = [false; true; false; false] /\
  _calculate_indian_legal_bonus five_words == 0.1 /\
  Spec.length_factor five_words == 0.05.
Proof. repeat split; vm_compute; reflexivity. Qed.

(** The parts of the general_legal_document score of [dense_general]:
    every keyword, pattern and structure term, and all four indicator
    categories. *)
Lemma dense_general_trace :
  List.length (split dense_general) = 15%nat /\
  _calculate_keyword_score (lower dense_general)
    ["legal"; "law"; "agreement"; "contract"; "terms"] == 1 /\
  _calculate_pattern_score dense_general
    ["Agreement"; "Contract"; "Terms"; "Legal"] == 1 /\
  _calculate_structure_score (lower dense_general)
    ["parties"; "terms"; "obligations"] == 1 /\
  map (fun e : string * list string => existsb (pattern_found dense_general) (snd e))
      indian_legal_indicators = [true; true; true; true] /\
  _calculate_indian_legal_bonus dense_general == 0.4.
Proof. repeat split; vm_compute; reflexivity. Qed.

(** The fallback on a text of fifty words. *)
Lemma C2_witness :
  exists document_type confidence all_scores best_type,
    classify_with_confidence short_notification = (document_type, confidence, all_scores) /\
    first_maximum all_scores best_type confidence.
Proof.
  assert (Hguard : too_short short_notification = false) by (vm_compute; reflexivity).
  destruct (C2_threshold_fallback_keeps_winning_score short_notification Hguard)
    as (document_type & confidence & all_scores & best_type & Hres & Hmax & _).
  exists document_type, confidence, all_scores, best_type.
  split; [exact Hres|exact Hmax].
Defined.

(** On [short_notification], government_notification wins with 0.505, below
    its threshold 0.7 and above 0.2: the result is relabelled
    "general_legal_document" and keeps the confidence 0.505. *)
Lemma fallback_relabels_short_notification :
  exists confidence all_scores,
    classify_with_confidence short_notification =
      ("general_legal_document", confidence, all_scores) /\
    max_key all_scores = Some ("government_notification", confidence) /\
    confidence == 0.505 /\
    get "government_notification" confidence_thresholds = Some 0.7.
Proof.
  eexists. eexists.
  split; [vm_compute; reflexivity|].
  split; [vm_compute; reflexivity|].
  split; [vm_compute; reflexivity|reflexivity].
Qed.

(** The recorded score of a registered type on a text that passes the guard. *)
Lemma C3_witness :
  exists value,
    get "general_legal_document" (snd (classify_with_confidence dense_general)) = Some value /\
    0 <= value <= 1.
Proof.
  assert (Hguard : too_short dense_general = false) by (vm_compute; reflexivity).
  assert (Hin : In ("general_legal_document",
                    {| keywords := ["legal"; "law"; "agreement"; "contract"; "terms"];
                       patterns := ["Agreement"; "Contract"; "Terms"; "Legal"];
                       structure := ["parties"; "terms"; "obligations"];
                       weight_keyword := 0.3; weight_pattern := 0.3;
                       weight_structure := 0.4 |}) document_patterns).
  { unfold document_patterns, _initialize_document_patterns.
    do 11 right. left. reflexivity. }
  destruct (C3_score_is_normalized_then_capped dense_general _ _ Hguard Hin)
    as (document_type & confidence & all_scores & value & Hres & Hget & _ & Hb & _).
  exists value. rewrite Hres. split; [exact Hget|exact Hb].
Defined.

(** C3 as stated fails on a short text whose weighted sum exceeds 1: on
    [dense_general] the sum for general_legal_document is 1.04 and the
    length factor 0.15; the code records 1.04 * 0.15 = 0.156, the sum
    clamped first gives 1 * 0.15 = 0.15. *)
Lemma C3_counterexample :
  exists c value,
    too_short dense_general = false /\
    get "general_legal_document" document_patterns = Some c /\
    get "general_legal_document" (snd (classify_with_confidence dense_general)) = Some value /\
    Spec.raw_score dense_general c == 1.04 /\
    Spec.length_factor dense_general == 0.15 /\
    value == 0.156 /\
    Spec.clamped_then_normalized dense_general c == 0.15 /\
    ~ value == Spec.clamped_then_normalized dense_general c.
Proof.
  eexists. eexists.
  split; [vm_compute; reflexivity|].
  split; [vm_compute; reflexivity|].
  split; [vm_compute; reflexivity|].
  split; [vm_compute; reflexivity|].
  split; [vm_compute; reflexivity|].
  split; [vm_compute; reflexivity|].
  split; [vm_compute; reflexivity|].
  vm_compute. discriminate.
Qed.

(** *** Five-word texts *)

Lemma threshold_at_least (doc_type : string) :
  0.4 <= get_default doc_type default_threshold confidence_thresholds.
Proof.
  unfold get_default, confidence_thresholds, _initialize_confidence_thresholds.
  change default_threshold with 0.4. cbn [get].
  repeat match goal with
         | |- context [String.eqb ?a ?b] => destruct (String.eqb a b)
         end; discriminate.
Qed.

(** A confidence of at most 0.2 is never accepted nor relabelled as a
    general legal document. *)
Lemma apply_threshold_low (best_type : string) (best_confidence : Q) :
  best_confidence <= 0.2 -> apply_threshold best_type best_confidence = "unknown".
Proof.
  intros Hc. unfold apply_threshold.
  pose proof (threshold_at_least best_type) as Ht.
  set (threshold := get_default best_type default_threshold confidence_thresholds) in *.
  clearbody threshold.
  assert (H1 : Qlt_bool best_confidence threshold = true) by (apply Qlt_bool_iff; lra).
  assert (H2 : Qlt_bool 0.2 best_confidence = false) by (apply Qlt_bool_false_iff; exact Hc).
  rewrite H1, H2. reflexivity.
Qed.

Lemma five_word_score_bound (text doc_type : string) (c : criteria) :
  List.length (split text) = 5%nat ->
  In (doc_type, c) document_patterns ->
  0 <= type_score text c <= 0.0525.
Proof.
  intros Hwords Hin. split; [exact (proj1 (type_score_bounds text _ _ Hin))|].
  rewrite type_score_eq.
  pose proof (raw_score_bounds text _ _ Hin) as Br.
  assert (Hlf : Spec.length_factor text == 0.05).
  { unfold Spec.length_factor. rewrite Hwords. reflexivity. }
  set (raw := Spec.raw_score text c) in *.
  set (lf := Spec.length_factor text) in *.
  clearbody raw lf.
  eapply Qle_trans; [apply py_min_le_r|].
  rewrite Hlf. lra.
Qed.

(** C4, as the code computes it: a text of five words is classified
    "unknown".  The guard, which counts characters, answers with confidence
    0.0 and no scores only when the stripped text is shorter than 10
    characters; otherwise every type is scored with the length factor 0.05
    and the confidence is the largest of these scores, between 0 and
    0.0525. *)
Theorem C4_five_words_classify_unknown
    (text : string) (H : List.length (split text) = 5%nat) :
  exists confidence all_scores,
    classify_with_confidence text = ("unknown", confidence, all_scores) /\
    0 <= confidence <= 0.0525 /\
    (too_short text = true -> confidence = 0.0 /\ all_scores = []) /\
    (too_short text = false ->
     keys all_scores = keys document_patterns /\
     exists best_type, first_maximum all_scores best_type confidence).
Proof.
  destruct (too_short text) eqn:Hguard.
  - exists 0.0, []. split.
    + unfold classify_with_confidence. rewrite Hguard. reflexivity.
    + split; [split; discriminate|]. split; [tauto|discriminate].
  - destruct (classify_long text Hguard) as (best_type & best_confidence & Hmax & Hres).
    pose proof (max_key_spec (classification_scores text)) as Hs. rewrite Hmax in Hs.
    assert (Hbound : 0 <= best_confidence <= 0.0525).
    { destruct Hs as (before & after & Hd & _ & _).
      rewrite classification_scores_eq in Hd.
      assert (Hmem : In (best_type, best_confidence)
                        (map (fun e : string * criteria => (fst e, type_score text (snd e)))
                             document_patterns)).
      { rewrite Hd. apply in_or_app. right. left. reflexivity. }
      apply in_map_iff in Hmem. destruct Hmem as ([doc_type c] & Heq & Hin).
      cbn [fst snd] in Heq. injection Heq as _ <-.
      exact (five_word_score_bound text doc_type c H Hin). }
    exists best_confidence, (classification_scores text). split.
    + rewrite Hres. rewrite apply_threshold_low; [reflexivity|].
      destruct Hbound as [_ Hb]. eapply Qle_trans; [exact Hb|discriminate].
    + split; [exact Hbound|]. split; [discriminate|]. intros _. split.
      * rewrite classification_scores_eq. unfold keys. rewrite map_map. reflexivity.
      * exists best_type. exact Hs.
Qed.

(** A five-word text that passes the guard. *)
Lemma C4_witness :
  exists confidence all_scores,
    classify_with_confidence five_words = ("unknown", confidence, all_scores) /\
    0 <= confidence <= 0.0525.
Proof.
  assert (Hwords : List.length (split five_words) = 5%nat) by (vm_compute; reflexivity).
  destruct (C4_five_words_classify_unknown five_words Hwords)
    as (confidence & all_scores & Hres & Hbound & _).
  exists confidence, all_scores. split; [exact Hres|exact Hbound].
Defined.

(** C4 as stated fails on a five-word text of ten characters or more:
    [five_words] passes the guard, all twelve types are scored, and the
    confidence is the score 443/28000 of government_notification, not
    0.0. *)
Lemma C4_counterexample :
  exists confidence all_scores,
    List.length (split five_words) = 5%nat /\
    String.length (strip five_words) = 41%nat /\
    too_short five_words = false /\
    classify_with_confidence five_words = ("unknown", confidence, all_scores) /\
    keys all_scores = keys document_patterns /\
    get "government_notification" all_scores = Some confidence /\
    confidence == 443 # 28000 /\
    ~ confidence == 0.0.
Proof.
  eexists. eexists.
  split; [vm_compute; reflexivity|].
  split; [vm_compute; reflexivity|].
  split; [vm_compute; reflexivity|].
  split; [vm_compute; reflexivity|].
  split; [vm_compute; reflexivity|].
  split; [vm_compute; reflexivity|].
  split; [vm_compute; reflexivity|].
  vm_compute. discriminate.
Qed.

End ClassifierProps.

(** ** More on the scoring engine *)

Module ScoringExtra.
Import Notions Dict Py Scoring ScoringProps.
Local Open Scope Q_scope.

(** *** Ranges of the scores *)

Lemma py_max_ge_l (a b : Q) : a <= py_max a b.
Proof.
  unfold py_max. destruct (Qlt_bool a b) eqn:E.
  - apply Qlt_bool_iff in E. apply Qlt_le_weak, E.
  - apply Qle_refl.
Qed.

Lemma clamp_bounds (x : Q) : 0 <= py_min 100 (py_max 0 x) <= 100.
Proof.
  split; [|apply py_min_le_l].
  apply py_min_glb; [discriminate|apply py_max_ge_l].
Qed.

Lemma clamp_inactive (x : Q) : 0 <= x <= 100 -> py_min 100 (py_max 0 x) == x.
Proof.
  intros [H0 H100].
  assert (Hmax : py_max 0 x == x).
  { unfold py_max. destruct (Qlt_bool 0 x) eqn:E; [reflexivity|].
    apply Qlt_bool_false_iff in E. apply Qle_antisym; assumption. }
  unfold py_min. destruct (Qlt_bool (py_max 0 x) 100) eqn:E; [exact Hmax|].
  apply Qlt_bool_false_iff in E. rewrite Hmax in E. apply Qle_antisym; assumption.
Qed.

Ltac run_method H :=
  unfold bind, ret, raise in H;
  repeat match type of H with
         | match ?x with _ => _ end = Some _ => destruct x eqn:?; try discriminate H
         | (if ?x then _ else _) = Some _ => destruct x eqn:?; try discriminate H
         end.

Lemma rights_method_bounds (da : pyval) (v : Q) :
  _score_fundamental_rights_protection da = Some v -> 0 <= v <= 100.
Proof.
  unfold _score_fundamental_rights_protection. intros H. run_method H;
    injection H as <-; apply clamp_bounds.
Qed.

Lemma privacy_method_bounds (da : pyval) (v : Q) :
  _score_privacy_rights_compliance da = Some v -> 0 <= v <= 100.
Proof.
  unfold _score_privacy_rights_compliance. intros H. run_method H;
    injection H as <-; apply clamp_bounds.
Qed.

Lemma lawful_basis_method_bounds (da : pyval) (v : Q) :
  _score_dpdpa_lawful_basis da = Some v -> 0 <= v <= 100.
Proof.
  unfold _score_dpdpa_lawful_basis. intros H. run_method H;
    injection H as <-; apply clamp_bounds.
Qed.

Lemma score_criterion_bounds (config : criterion_config) (da : pyval) :
  0 <= _score_criterion config da <= 100.
Proof.
  unfold _score_criterion.
  destruct (String.eqb _ "rights_protection_analysis").
  { destruct (_score_fundamental_rights_protection da) eqn:E;
      [exact (rights_method_bounds _ _ E)|split; discriminate]. }
  destruct (String.eqb _ "puttaswamy_framework_assessment").
  { destruct (_score_privacy_rights_compliance da) eqn:E;
      [exact (privacy_method_bounds _ _ E)|split; discriminate]. }
  destruct (String.eqb _ "lawful_processing_assessment").
  { destruct (_score_dpdpa_lawful_basis da) eqn:E;
      [exact (lawful_basis_method_bounds _ _ E)|split; discriminate]. }
  split; discriminate.
Qed.

Lemma framework_score_bounds (da : pyval) (f : string) :
  0 <= framework_score da f <= 100.
Proof.
  unfold framework_score, _score_framework_category.
  destruct (get (_map_framework_to_category f) scoring_criteria);
    [apply clamp_bounds|split; discriminate].
Qed.

Lemma weighted_total_bounds (da : pyval) (fs : list string) :
  0 <= Spec.total (map (fun f => framework_score da f * framework_weight f) fs)
    <= 100 * Spec.total (map framework_weight fs).
Proof.
  induction fs as [|f fs IH]; simpl.
  - split; [apply Qle_refl|discriminate].
  - pose proof (framework_score_bounds da f) as Hs.
    pose proof (framework_weight_positive f) as Hw.
    set (s := framework_score da f) in *. set (w := framework_weight f) in *.
    clearbody s w.
    set (a := Spec.total _) in *. set (b := Spec.total _) in IH |- *.
    clearbody a b. nra.
Qed.

Lemma overall_range (da : pyval) (fs : list string) (r : scoring_results) :
  calculate_comprehensive_score da fs = Some r -> 0 <= overall_score r <= 100.
Proof.
  intros H. destruct (overall_score_eq da fs r H) as [_ ->].
  destruct (score_frameworks_invariant da fs) as [_ _ _ Hws Hw].
  pose proof (weighted_total_bounds da fs) as Hb.
  rewrite <- Hws, <- Hw in Hb.
  set (t := score_frameworks da fs) in *. clearbody t.
  destruct (Qlt_bool 0 (total_weight t)) eqn:E; [|split; discriminate].
  apply Qlt_bool_iff in E. split.
  - apply Qle_shift_div_l; [exact E|]. rewrite Qmult_0_l. tauto.
  - apply Qle_shift_div_r; [exact E|]. tauto.
Qed.

Lemma scored_entry_origin (da : pyval) (fs : list string) (c : string) (cs : category_score) :
  In (c, cs) (scored_categories (score_frameworks da fs)) ->
  exists f, In f fs /\ _map_framework_to_category f = c /\
            _score_framework_category f da = Some cs.
Proof.
  induction fs as [|f fs IH] using rev_ind; [intros []|].
  rewrite score_frameworks_snoc.
  destruct (score_framework_step da (score_frameworks da fs) f) as (x & Hx & ->).
  cbn [scored_categories]. intros Hin.
  destruct (In_set_inv _ _ _ _ _ Hin) as [[-> ->]|Hold].
  - exists f. split; [apply in_or_app; right; now left|]. split; [reflexivity|exact Hx].
  - destruct (IH Hold) as (g & Hg & Hc & Hs).
    exists g. split; [apply in_or_app; now left|]. split; assumption.
Qed.

(** The score of a configured category is the weighted sum of its
    criterion scores: the weights add up to 1, so the clamp changes
    nothing. *)
Lemma category_score_is_weighted_sum (f : string) (da : pyval) (cs : category_score) :
  _score_framework_category f da = Some cs ->
  exists config,
    get (category cs) scoring_criteria = Some config /\
    keys (criterion_scores cs) = keys (criteria config) /\
    score cs == criteria_total config cs /\
    0 <= score cs <= 100 /\
    Forall (fun e : string * Q => 0 <= snd e <= 100) (criterion_scores cs).
Proof.
  unfold _score_framework_category.
  pose proof (map_framework_cases f) as Hc. simpl in Hc.
  destruct Hc as [Hc|[Hc|[Hc|[]]]]; rewrite <- Hc; cbn [get String.eqb Ascii.eqb Bool.eqb];
    intros [= <-]; eexists; (split; [reflexivity|]); (split; [reflexivity|]);
    cbn [score criterion_scores criteria map fst snd fold_left criterion_weight];
    unfold criteria_total;
    cbn [score criterion_scores criteria map fst snd fold_left criterion_weight Spec.total
         fold_right set get get_default String.eqb Ascii.eqb Bool.eqb];
    match goal with
    | |- context [py_min 100 (py_max 0 (0.0 + ?a * _ + ?b * _ + ?c * _))] =>
        assert (Ha : 0 <= a <= 100) by apply score_criterion_bounds;
        assert (Hb : 0 <= b <= 100) by apply score_criterion_bounds;
        assert (Hc' : 0 <= c <= 100) by apply score_criterion_bounds;
        set (x := a) in *; set (y := b) in *; set (z := c) in *; clearbody x y z
    end;
    (split; [rewrite clamp_inactive; lra|]);
    (split; [apply clamp_bounds|repeat constructor; cbn [snd]; tauto]).
Qed.

(** X1: every score of a result is within [0, 100], and a category score is
    the weighted sum of its criterion scores. *)
Theorem scores_within_range
    (da : pyval) (fs : list string) (r : scoring_results)
    (H : calculate_comprehensive_score da fs = Some r) :
  0 <= overall_score r <= 100 /\
  forall c cs,
    get c (category_scores r) = Some cs ->
    category cs = c /\
    exists config,
      get c scoring_criteria = Some config /\
      keys (criterion_scores cs) = keys (criteria config) /\
      score cs == criteria_total config cs /\
      0 <= score cs <= 100 /\
      Forall (fun e : string * Q => 0 <= snd e <= 100) (criterion_scores cs).
Proof.
  split; [exact (overall_range da fs r H)|].
  intros c cs Hget.
  destruct (overall_score_eq da fs r H) as [Hcs _]. rewrite Hcs in Hget.
  apply get_in in Hget.
  destruct (scored_entry_origin da fs c cs Hget) as (f & _ & Hc & Hs).
  destruct (score_framework_category_some f da) as (cs' & Hs' & Hcat & _).
  rewrite Hs in Hs'. injection Hs' as <-.
  split; [now rewrite Hcat|].
  destruct (category_score_is_weighted_sum f da cs Hs) as (config & Hcfg & Hrest).
  exists config. split; [|exact Hrest].
  now rewrite <- Hc, <- Hcat.
Qed.

Lemma scores_within_range_witness :
  exists r,
    calculate_comprehensive_score
      (PyDict [("indian_legal_indicators",
                PyDict [("privacy_terms", PyList [PyString "personal data"; PyString "consent"]);
                        ("dpdpa_relevance", PyBool true)])])
      ["privacy_rights_analysis"; "dpdpa_compliance"] = Some r /\
    0 <= overall_score r <= 100.
Proof.
  eexists. split; [reflexivity|].
  exact (proj1 (scores_within_range
                  (PyDict [("indian_legal_indicators",
                            PyDict [("privacy_terms",
                                     PyList [PyString "personal data"; PyString "consent"]);
                                    ("dpdpa_relevance", PyBool true)])])
                  ["privacy_rights_analysis"; "dpdpa_compliance"] _ eq_refl)).
Defined.

(** X2: [category_scores] has at most three entries, one for each category
    that an applied framework maps to. *)
Theorem category_scores_shape
    (da : pyval) (fs : list string) (r : scoring_results)
    (H : calculate_comprehensive_score da fs = Some r) :
  NoDup (keys (category_scores r)) /\
  (List.length (category_scores r) <= 3)%nat /\
  (forall c, In c (keys (category_scores r)) <->
             exists f, In f fs /\ _map_framework_to_category f = c) /\
  (forall c, In c (keys (category_scores r)) -> In c (keys scoring_criteria)) /\
  (category_scores r = [] <-> fs = []).
Proof.
  destruct (overall_score_eq da fs r H) as [Hcs _]. rewrite Hcs.
  destruct (score_frameworks_invariant da fs) as [Hnd Hkeys _ _ _].
  assert (Hincl : forall c, In c (keys (scored_categories (score_frameworks da fs))) ->
                            In c (keys scoring_criteria)).
  { intros c Hc. apply Hkeys, in_map_iff in Hc. destruct Hc as (f & <- & _).
    apply map_framework_cases. }
  split; [exact Hnd|]. split; [|split; [|split; [exact Hincl|]]].
  - change 3%nat with (List.length (keys scoring_criteria)).
    unfold keys at 1 in Hnd. rewrite <- (length_map fst).
    apply NoDup_incl_length; [exact Hnd|exact Hincl].
  - intros c. rewrite Hkeys, in_map_iff. split; intros (f & H1 & H2); exists f; tauto.
  - split.
    + intros Hnil. destruct fs as [|f fs]; [reflexivity|]. exfalso.
      assert (Hin : In (_map_framework_to_category f)
                       (keys (scored_categories (score_frameworks da (f :: fs)))))
        by (apply Hkeys; now left).
      rewrite Hnil in Hin. exact Hin.
    + intros ->. reflexivity.
Qed.

Lemma category_scores_shape_witness :
  exists r,
    calculate_comprehensive_score (PyDict [])
      ["constitutional_analysis"; "contract_law_analysis"; "administrative_law";
       "general_legal_analysis"; "case_law_analysis"] = Some r /\
    (List.length (category_scores r) <= 3)%nat.
Proof.
  eexists. split; [reflexivity|].
  exact (proj1 (proj2 (category_scores_shape (PyDict [])
                         ["constitutional_analysis"; "contract_law_analysis";
                          "administrative_law"; "general_legal_analysis";
                          "case_law_analysis"] _ eq_refl))).
Defined.

Lemma get_set_other {V : Type} (k k' : string) (v : V) (d : dict V) :
  k <> k' -> get k (set k' v d) = get k d.
Proof.
  intros Hne. induction d as [|[k0 v0] d IH]; simpl.
  - destruct (String.eqb_spec k k'); [contradiction|reflexivity].
  - destruct (String.eqb_spec k' k0) as [->|Hne0]; simpl.
    + destruct (String.eqb_spec k k0); [contradiction|reflexivity].
    + destruct (String.eqb_spec k k0); [reflexivity|exact IH].
Qed.

(** The last framework mapped to a category wrote its entry. *)
Lemma last_write_loop (da : pyval) (fs : list string) (c : string) (cs : category_score) :
  get c (scored_categories (score_frameworks da fs)) = Some cs ->
  exists before after,
    fs = before ++ framework cs :: after /\
    _map_framework_to_category (framework cs) = c /\
    _score_framework_category (framework cs) da = Some cs /\
    Forall (fun g => _map_framework_to_category g <> c) after.
Proof.
  induction fs as [|f fs IH] using rev_ind; [discriminate|].
  rewrite score_frameworks_snoc.
  destruct (score_framework_step da (score_frameworks da fs) f) as (x & Hx & ->).
  cbn [scored_categories].
  destruct (string_dec c (_map_framework_to_category f)) as [->|Hne].
  - rewrite get_set_same. intros [= <-].
    destruct (score_framework_category_some f da) as (x' & Hx' & _ & Hfw).
    rewrite Hx in Hx'. injection Hx' as <-.
    exists fs, []. rewrite Hfw. repeat split; [exact Hx|constructor].
  - rewrite get_set_other by exact Hne. intros Hget.
    destruct (IH Hget) as (before & after & -> & Hc & Hs & Hall).
    exists before, (after ++ [f]). split; [now rewrite <- app_assoc|].
    split; [exact Hc|]. split; [exact Hs|].
    apply Forall_app. split; [exact Hall|]. constructor; [|constructor].
    intros E. apply Hne. now symmetry.
Qed.

(** X3: the entry kept for a category is the one of the last framework
    mapped to it, and all frameworks of a category have its score. *)
Theorem category_entry_is_last_framework
    (da : pyval) (fs : list string) (r : scoring_results)
    (c : string) (cs : category_score)
    (H : calculate_comprehensive_score da fs = Some r)
    (Hget : get c (category_scores r) = Some cs) :
  exists before after,
    fs = before ++ framework cs :: after /\
    _map_framework_to_category (framework cs) = c /\
    Forall (fun g => _map_framework_to_category g <> c) after /\
    forall g, In g fs -> _map_framework_to_category g = c ->
              framework_score da g = score cs.
Proof.
  destruct (overall_score_eq da fs r H) as [Hcs _]. rewrite Hcs in Hget.
  destruct (last_write_loop da fs c cs Hget) as (before & after & Hfs & Hc & Hs & Hall).
  exists before, after. split; [exact Hfs|]. split; [exact Hc|]. split; [exact Hall|].
  intros g _ Hg.
  rewrite (framework_score_same_category da g (framework cs)) by congruence.
  unfold framework_score. now rewrite Hs.
Qed.

Lemma category_entry_is_last_framework_witness :
  exists r cs before after,
    calculate_comprehensive_score (PyDict [])
      ["constitutional_analysis"; "privacy_rights_analysis"; "administrative_law"] = Some r /\
    get "constitutional_compliance" (category_scores r) = Some cs /\
    ["constitutional_analysis"; "privacy_rights_analysis"; "administrative_law"] =
      before ++ framework cs :: after.
Proof.
  eexists. eexists.
  destruct (category_entry_is_last_framework (PyDict [])
              ["constitutional_analysis"; "privacy_rights_analysis"; "administrative_law"]
              _ "constitutional_compliance" _ eq_refl eq_refl)
    as (before & after & Hfs & _).
  exists before, after. split; [reflexivity|]. split; [reflexivity|exact Hfs].
Defined.

Lemma risk_result (da : pyval) (fs : list string) (r : scoring_results) :
  calculate_comprehensive_score da fs = Some r ->
  risks r = _assess_comprehensive_risk (category_scores r) (overall_score r) /\
  compliance_level r = _determine_compliance_level (overall_score r) /\
  _calculate_scoring_confidence da fs = Some (confidence_level r).
Proof.
  unfold calculate_comprehensive_score, bind, ret.
  destruct (_calculate_scoring_confidence da fs); [|discriminate].
  intros [= <-]. repeat split.
Qed.

(** The two bucketings of a score agree. *)
Lemma risk_and_compliance (s : Q) :
  let risk := _get_risk_level "overall_risk" s in
  let level := _determine_compliance_level s in
  (level = "excellent" -> risk = "very_low") /\
  (level = "good" -> risk = "very_low" \/ risk = "low") /\
  (level = "satisfactory" -> risk = "low" \/ risk = "medium") /\
  (level = "needs_improvement" -> risk = "medium") /\
  (risk = "high" \/ risk = "very_high" -> level = "poor").
Proof.
  unfold _get_risk_level, _determine_compliance_level.
  change (thresholds_for "overall_risk")
    with [("very_low", 87); ("low", 72); ("medium", 57); ("high", 37); ("very_high", 0)].
  cbn [first_level].
  destruct (Qle_bool 90 s) eqn:E90, (Qle_bool 80 s) eqn:E80, (Qle_bool 70 s) eqn:E70,
           (Qle_bool 60 s) eqn:E60, (Qle_bool 87 s) eqn:E87, (Qle_bool 72 s) eqn:E72,
           (Qle_bool 57 s) eqn:E57, (Qle_bool 37 s) eqn:E37, (Qle_bool 0 s) eqn:E0;
    repeat match goal with
           | H : Qle_bool _ _ = true |- _ => apply Qle_bool_iff in H
           | H : Qle_bool _ _ = false |- _ => apply Qle_bool_false_iff in H
           end;
    try (exfalso; lra);
    repeat split; intros; try discriminate; try tauto;
    repeat match goal with H : _ \/ _ |- _ => destruct H end; try discriminate; tauto.
Qed.

(** X4: the compliance level and the overall risk level of a result agree. *)
Theorem overall_risk_agrees_with_compliance_level
    (da : pyval) (fs : list string) (r : scoring_results)
    (H : calculate_comprehensive_score da fs = Some r) :
  let risk := overall_risk_level (risks r) in
  let level := compliance_level r in
  In level ["excellent"; "good"; "satisfactory"; "needs_improvement"; "poor"] /\
  In risk ["very_low"; "low"; "medium"; "high"; "very_high"] /\
  (level = "excellent" -> risk = "very_low") /\
  (level = "good" -> risk = "very_low" \/ risk = "low") /\
  (level = "satisfactory" -> risk = "low" \/ risk = "medium") /\
  (level = "needs_improvement" -> risk = "medium") /\
  (risk = "high" \/ risk = "very_high" -> level = "poor").
Proof.
  destruct (risk_result da fs r H) as (Hr & Hl & _).
  intros risk level. subst risk level. rewrite Hr, Hl.
  cbn [overall_risk_level _assess_comprehensive_risk].
  split; [|split; [|exact (risk_and_compliance (overall_score r))]].
  - unfold _determine_compliance_level.
    repeat match goal with |- context [if ?b then _ else _] => destruct b end;
      simpl; tauto.
  - unfold _get_risk_level.
    change (thresholds_for "overall_risk")
      with [("very_low", 87); ("low", 72); ("medium", 57); ("high", 37); ("very_high", 0)].
    cbn [first_level].
    repeat match goal with |- context [if ?b then _ else _] => destruct b end;
      simpl; tauto.
Qed.

Lemma overall_risk_agrees_witness :
  exists r,
    calculate_comprehensive_score (PyDict []) ["general_legal_analysis"] = Some r /\
    In (compliance_level r) ["excellent"; "good"; "satisfactory"; "needs_improvement"; "poor"].
Proof.
  eexists. split; [reflexivity|].
  exact (proj1 (overall_risk_agrees_with_compliance_level (PyDict [])
                  ["general_legal_analysis"] _ eq_refl)).
Defined.

Lemma in_get {V : Type} (k : string) (v : V) (d : dict V) :
  NoDup (keys d) -> In (k, v) d -> get k d = Some v.
Proof.
  induction d as [|[k' v'] d IH]; simpl; intros Hnd Hin; [contradiction|].
  inversion Hnd as [|? ? Hk Hnd']; subst.
  destruct Hin as [[= -> ->]|Hin].
  - now rewrite String.eqb_refl.
  - destruct (String.eqb_spec k k') as [->|Hne].
    + exfalso. apply Hk. apply (in_map fst) in Hin. exact Hin.
    + now apply IH.
Qed.


Lemma assess_critical_risks (scores : dict category_score) (overall : Q) :
  critical_risks (_assess_comprehensive_risk scores overall) =
  map critical_entry
    (filter (fun e => is_critical (category_risk_level (fst e) (score (snd e)))) scores).
Proof.
  unfold _assess_comprehensive_risk. cbn [critical_risks].
  match goal with
  | |- snd (fold_left ?step _ _) = _ =>
      assert (Hsnd : forall l acc,
                snd (fold_left step l acc) =
                snd acc ++ map critical_entry
                  (filter (fun e => is_critical (category_risk_level (fst e) (score (snd e)))) l))
  end.
  { induction l as [|e l IH]; intros acc; cbn [fold_left filter].
    - cbn [map]. now rewrite app_nil_r.
    - rewrite IH. cbn [snd]. unfold is_critical at 2.
      destruct (str_in (category_risk_level (fst e) (score (snd e))) ["high"; "very_high"]).
      + cbn [map]. rewrite <- app_assoc. reflexivity.
      + reflexivity. }
  rewrite Hsnd. reflexivity.
Qed.

(** A configured category is critical exactly below its medium threshold. *)
Lemma critical_iff_below (c : string) (s : Q) :
  In c (keys scoring_criteria) ->
  (is_critical (category_risk_level c s) = true <-> s < critical_below c).
Proof.
  simpl. intros [<-|[<-|[<-|[]]]];
    unfold is_critical, category_risk_level, _get_risk_level, critical_below;
    match goal with
    | |- context [thresholds_for ?x] =>
        let t := eval vm_compute in (thresholds_for x) in
        change (thresholds_for x) with t
    end;
    cbn [first_level get_default get String.eqb Ascii.eqb Bool.eqb];
    repeat match goal with
           | |- context [Qle_bool ?a s] =>
               let E := fresh "E" in destruct (Qle_bool a s) eqn:E;
               [apply Qle_bool_iff in E|apply Qle_bool_false_iff in E]
           end;
    (split; [intros Hc; try discriminate Hc; lra | intros Hlt; try reflexivity; exfalso; lra]).
Qed.

(** *** The lowest scores *)

Lemma py_max_ge_r (a b : Q) : b <= py_max a b.
Proof.
  unfold py_max. destruct (Qlt_bool a b) eqn:E.
  - apply Qle_refl.
  - apply Qlt_bool_false_iff in E. exact E.
Qed.

Lemma clamp_floor (lo x : Q) : lo <= 100 -> lo <= x -> lo <= py_min 100 (py_max 0 x).
Proof.
  intros Hlo Hx. apply py_min_glb; [exact Hlo|].
  eapply Qle_trans; [exact Hx|apply py_max_ge_r].
Qed.

Ltac open_method :=
  repeat match goal with
         | Hx : (if ?b then _ else _) = Some _ |- _ => destruct b; try discriminate Hx
         | Hx : match ?x with _ => _ end = Some _ |- _ =>
             destruct x eqn:?; try discriminate Hx
         | Hx : Some _ = Some _ |- _ => injection Hx as <-
         end;
  repeat match goal with
         | |- context [if ?b then _ else _] => destruct b
         end.

Ltac floor_of_clamp :=
  open_method;
  try (apply clamp_floor; [discriminate|]);
  repeat match goal with
         | |- context [of_nat ?n] =>
             let Hn := fresh "Hn" in
             pose proof (of_nat_nonneg n) as Hn;
             let x := fresh "x" in set (x := of_nat n) in *; clearbody x
         end;
  lra.

Lemma rights_method_floor (da : pyval) (v : Q) :
  _score_fundamental_rights_protection da = Some v -> 60 <= v.
Proof.
  unfold _score_fundamental_rights_protection. intros H. run_method H;
    injection H as <-; floor_of_clamp.
Qed.

Lemma privacy_method_floor (da : pyval) (v : Q) :
  _score_privacy_rights_compliance da = Some v -> 45 <= v.
Proof.
  unfold _score_privacy_rights_compliance. intros H. run_method H;
    injection H as <-; floor_of_clamp.
Qed.

Lemma lawful_basis_method_floor (da : pyval) (v : Q) :
  _score_dpdpa_lawful_basis da = Some v -> 65 <= v.
Proof.
  unfold _score_dpdpa_lawful_basis. intros H. run_method H;
    injection H as <-; floor_of_clamp.
Qed.

Lemma score_criterion_floor (config : criterion_config) (da : pyval) :
  lowest_criterion_score (scoring_method config) <= _score_criterion config da.
Proof.
  unfold _score_criterion, lowest_criterion_score.
  destruct (String.eqb _ "rights_protection_analysis").
  { destruct (_score_fundamental_rights_protection da) eqn:E;
      [exact (rights_method_floor _ _ E)|discriminate]. }
  destruct (String.eqb _ "puttaswamy_framework_assessment").
  { destruct (_score_privacy_rights_compliance da) eqn:E;
      [exact (privacy_method_floor _ _ E)|discriminate]. }
  destruct (String.eqb _ "lawful_processing_assessment").
  { destruct (_score_dpdpa_lawful_basis da) eqn:E;
      [exact (lawful_basis_method_floor _ _ E)|discriminate]. }
  discriminate.
Qed.

Lemma category_score_floor (f : string) (da : pyval) (cs : category_score) :
  _score_framework_category f da = Some cs ->
  lowest_category_score (_map_framework_to_category f) <= score cs.
Proof.
  unfold _score_framework_category.
  pose proof (map_framework_cases f) as Hc. simpl in Hc.
  destruct Hc as [Hc|[Hc|[Hc|[]]]]; rewrite <- Hc; cbn [get String.eqb Ascii.eqb Bool.eqb];
    intros [= <-];
    cbn [score criteria map fst snd fold_left criterion_weight];
    match goal with
    | |- context [py_min 100 (py_max 0 (0.0 + _score_criterion ?ca _ * _
                                        + _score_criterion ?cb _ * _
                                        + _score_criterion ?cc _ * _))] =>
        pose proof (score_criterion_floor ca da) as Ha;
        pose proof (score_criterion_floor cb da) as Hb;
        pose proof (score_criterion_floor cc da) as Hc';
        cbn [scoring_method] in Ha, Hb, Hc';
        set (x := _score_criterion ca da) in *;
        set (y := _score_criterion cb da) in *;
        set (z := _score_criterion cc da) in *; clearbody x y z
    end;
    unfold lowest_criterion_score in Ha, Hb, Hc';
    cbn [String.eqb Ascii.eqb Bool.eqb] in Ha, Hb, Hc';
    match goal with
    | |- lowest_category_score ?c <= _ =>
        let v := eval vm_compute in (lowest_category_score c) in
        change (lowest_category_score c) with v
    end;
    (apply clamp_floor; [discriminate|lra]).
Qed.

Lemma floor_above_medium (c : string) :
  In c (keys scoring_criteria) -> critical_below c < lowest_category_score c.
Proof.
  simpl. intros [<-|[<-|[<-|[]]]]; reflexivity.
Qed.

(** At or above the medium threshold the level is medium or better. *)
Lemma level_from_medium (c : string) (s : Q) :
  In c (keys scoring_criteria) -> critical_below c <= s ->
  In (category_risk_level c s) ["very_low"; "low"; "medium"].
Proof.
  simpl. intros [<-|[<-|[<-|[]]]];
    unfold category_risk_level, _get_risk_level, critical_below;
    match goal with
    | |- context [thresholds_for ?x] =>
        let t := eval vm_compute in (thresholds_for x) in
        change (thresholds_for x) with t
    end;
    cbn [first_level get_default get String.eqb Ascii.eqb Bool.eqb];
    intros Hs;
    repeat match goal with
           | |- context [Qle_bool ?a s] =>
               let E := fresh "E" in destruct (Qle_bool a s) eqn:E;
               [apply Qle_bool_iff in E|apply Qle_bool_false_iff in E]
           end;
    try (simpl; tauto); exfalso; lra.
Qed.

(** X5: no scored category is ever a critical risk: the score of a category
    is at least 63.5, 57 or 65, above the medium threshold 60, 55 or 57 of
    the table it is assessed with. *)
Theorem scored_categories_are_never_critical
    (da : pyval) (fs : list string) (r : scoring_results)
    (H : calculate_comprehensive_score da fs = Some r) :
  critical_risks (risks r) = [] /\
  (forall c cs, get c (category_scores r) = Some cs ->
     lowest_category_score c <= score cs /\
     critical_below c < score cs /\
     In (category_risk_level c (score cs)) ["very_low"; "low"; "medium"] /\
     get c (category_risks (risks r)) =
       Some {| risk_level := category_risk_level c (score cs);
               risk_score := score cs |}) /\
  lowest_category_score "constitutional_compliance" == 63.5 /\
  lowest_category_score "privacy_compliance" == 57 /\
  lowest_category_score "dpdpa_compliance" == 65 /\
  critical_below "constitutional_compliance" = 60 /\
  critical_below "privacy_compliance" = 55 /\
  critical_below "dpdpa_compliance" = 57.
Proof.
  destruct (risk_result da fs r H) as (Hr & _ & _).
  destruct (overall_score_eq da fs r H) as [Hcs _].
  assert (Hfloor : forall c cs, In (c, cs) (category_scores r) ->
            In c (keys scoring_criteria) /\ critical_below c < score cs /\
            lowest_category_score c <= score cs).
  { intros c cs Hin. rewrite Hcs in Hin.
    destruct (scored_entry_origin da fs c cs Hin) as (f & _ & <- & Hs).
    pose proof (map_framework_cases f) as Hc.
    pose proof (category_score_floor f da cs Hs) as Hlow.
    pose proof (floor_above_medium _ Hc) as Hmed.
    split; [exact Hc|]. split; [|exact Hlow].
    set (s := score cs) in *. set (a := critical_below _) in *.
    set (b := lowest_category_score _) in *. clearbody s a b. lra. }
  assert (Hsafe : forall c cs, In (c, cs) (category_scores r) ->
            is_critical (category_risk_level c (score cs)) = false).
  { intros c cs Hin. destruct (Hfloor c cs Hin) as (Hc & Hmed & _).
    destruct (is_critical _) eqn:E; [|reflexivity].
    apply (critical_iff_below c (score cs) Hc) in E.
    set (s := score cs) in *. set (a := critical_below c) in *.
    clearbody s a. exfalso. lra. }
  split; [|split; [|repeat split]].
  - rewrite Hr, assess_critical_risks.
    assert (Hnone : forall l : dict category_score,
              (forall c cs, In (c, cs) l ->
                 is_critical (category_risk_level c (score cs)) = false) ->
              filter (fun e => is_critical (category_risk_level (fst e) (score (snd e)))) l
              = []).
    { induction l as [|[c cs] l IH]; intros Hl; [reflexivity|].
      cbn [filter fst snd]. rewrite (Hl c cs (or_introl eq_refl)).
      apply IH. intros c' cs' Hin. apply Hl. now right. }
    rewrite (Hnone _ Hsafe). reflexivity.
  - intros c cs Hget. pose proof (get_in _ _ _ Hget) as Hin.
    destruct (Hfloor c cs Hin) as (Hc & Hmed & Hlow).
    split; [exact Hlow|]. split; [exact Hmed|]. split.
    + apply (level_from_medium c (score cs) Hc). apply Qlt_le_weak, Hmed.
    + exact (assessed_risk da fs r c cs H Hget).
Qed.

(** On an empty analysis the constitutional and the privacy category get
    their lowest scores. *)
Lemma scored_categories_are_never_critical_witness :
  exists r cs,
    calculate_comprehensive_score (PyDict [])
      ["constitutional_analysis"; "privacy_rights_analysis"] = Some r /\
    get "privacy_compliance" (category_scores r) = Some cs /\
    score cs == 57 /\
    category_risk_level "privacy_compliance" (score cs) = "medium" /\
    critical_risks (risks r) = [].
Proof.
  eexists. eexists. split; [reflexivity|]. split; [reflexivity|].
  split; [reflexivity|]. split; [reflexivity|].
  exact (proj1 (scored_categories_are_never_critical (PyDict [])
                  ["constitutional_analysis"; "privacy_rights_analysis"] _ eq_refl)).
Defined.

(** X6: without frameworks the score is 0.0, the level poor and the risk
    very_high. *)
Theorem empty_frameworks_score_zero
    (da : pyval) (r : scoring_results)
    (H : calculate_comprehensive_score da [] = Some r) :
  overall_score r = 0.0 /\
  category_scores r = [] /\
  compliance_level r = "poor" /\
  overall_risk_level (risks r) = "very_high" /\
  category_risks (risks r) = [] /\
  critical_risks (risks r) = [].
Proof.
  revert H. unfold calculate_comprehensive_score, bind, ret.
  destruct (_calculate_scoring_confidence da []); [|discriminate].
  intros [= <-]. repeat split.
Qed.

Lemma empty_frameworks_witness :
  exists r, calculate_comprehensive_score (PyDict []) [] = Some r /\
            overall_score r = 0.0 /\ compliance_level r = "poor".
Proof.
  eexists. split; [reflexivity|].
  destruct (empty_frameworks_score_zero (PyDict []) _ eq_refl) as (H1 & _ & H3 & _).
  exact (conj H1 H3).
Defined.

Lemma confidence_formula (da : pyval) (fs : list string) (c : Q) :
  _calculate_scoring_confidence da fs = Some c ->
  exists x d indicators,
    classification_confidence_of da = Some x /\
    da = PyDict d /\
    get_default "indian_legal_indicators" (PyDict []) d = PyDict indicators /\
    c = (0 + x + py_min 1.0 (of_nat (List.length fs) / 3)
           + py_min 1.0 (of_nat (List.length (filter truthy (map snd indicators))) / 8)) / 3.
Proof.
  unfold _calculate_scoring_confidence, classification_confidence_of, bind, ret, raise.
  destruct da as [| | | | | |d]; try discriminate. cbn [py_get ret].
  destruct (get_default "document_classification" (PyDict []) d) as [| | | | | |cd];
    try discriminate.
  cbn [py_get ret].
  destruct (get_default "indian_legal_indicators" (PyDict []) d) as [| | | | | |ind] eqn:Hind;
    try discriminate.
  destruct (py_number (get_default "confidence" (PyFloat 0.5) cd)) as [x|]; [|discriminate].
  intros [= <-]. exists x, d, ind.
  split; [reflexivity|]. split; [reflexivity|]. split; [exact Hind|reflexivity].
Qed.

Lemma min_one_bounds (x : Q) : 0 <= x -> 0 <= py_min 1.0 x <= 1.
Proof.
  intros Hx. split.
  - apply py_min_glb; [discriminate|exact Hx].
  - eapply Qle_trans; [apply py_min_le_l|discriminate].
Qed.

Lemma ratio_nonneg (n : nat) (d : Q) : 0 < d -> 0 <= of_nat n / d.
Proof.
  intros Hd. apply Qle_shift_div_l; [exact Hd|]. rewrite Qmult_0_l. apply of_nat_nonneg.
Qed.

Lemma coverage_saturates (n : nat) : (3 <= n)%nat -> py_min 1.0 (of_nat n / 3) = 1.0.
Proof.
  intros Hn. unfold py_min.
  destruct (Qlt_bool (of_nat n / 3) 1.0) eqn:E; [|reflexivity].
  apply Qlt_bool_iff in E. exfalso.
  assert (H3 : 1.0 <= of_nat n / 3).
  { apply Qle_shift_div_l; [reflexivity|].
    unfold of_nat, Qle. simpl. lia. }
  lra.
Qed.

(** X7: the scoring confidence lies within [x/3, (x+2)/3] for the
    classification confidence [x], and is the same for any three or more
    frameworks. *)
Theorem scoring_confidence_bounds
    (da : pyval) (fs : list string) (r : scoring_results)
    (H : calculate_comprehensive_score da fs = Some r) :
  exists x,
    classification_confidence_of da = Some x /\
    x / 3 <= confidence_level r <= (x + 2) / 3 /\
    (0 <= x <= 1 -> 0 <= confidence_level r <= 1) /\
    (forall fs' r',
        (3 <= List.length fs)%nat -> (3 <= List.length fs')%nat ->
        calculate_comprehensive_score da fs' = Some r' ->
        confidence_level r' = confidence_level r).
Proof.
  destruct (risk_result da fs r H) as (_ & _ & Hc).
  destruct (confidence_formula da fs _ Hc) as (x & d & ind & Hx & Hda & Hind & Heq).
  exists x. split; [exact Hx|].
  pose proof (min_one_bounds _ (ratio_nonneg (List.length fs) 3 eq_refl)) as Ha.
  pose proof (min_one_bounds _
                (ratio_nonneg (List.length (filter truthy (map snd ind))) 8 eq_refl)) as Hb.
  assert (Hrange : x / 3 <= confidence_level r <= (x + 2) / 3).
  { rewrite Heq.
    set (a := py_min 1.0 (of_nat (List.length fs) / 3)) in *.
    set (b := py_min 1.0 _) in Hb |- *. clearbody a b.
    split; (apply Qle_shift_div_l; [reflexivity|]); field_simplify; lra. }
  split; [exact Hrange|]. split.
  - intros Hx01. destruct Hrange as [Hlo Hhi]. split.
    + eapply Qle_trans; [|exact Hlo]. apply Qle_shift_div_l; [reflexivity|]. lra.
    + eapply Qle_trans; [exact Hhi|]. apply Qle_shift_div_r; [reflexivity|]. lra.
  - intros fs' r' Hn Hn' H'.
    destruct (risk_result da fs' r' H') as (_ & _ & Hc').
    destruct (confidence_formula da fs' _ Hc') as (x' & d' & ind' & Hx' & Hda' & Hind' & Heq').
    rewrite Hx in Hx'. injection Hx' as <-.
    rewrite Hda in Hda'. injection Hda' as <-.
    rewrite Hind in Hind'. injection Hind' as <-.
    rewrite Heq, Heq'. now rewrite !coverage_saturates.
Qed.

Lemma scoring_confidence_witness :
  exists r x,
    calculate_comprehensive_score
      (PyDict [("document_classification", PyDict [("confidence", PyFloat 0.8)])])
      ["constitutional_analysis"] = Some r /\
    classification_confidence_of
      (PyDict [("document_classification", PyDict [("confidence", PyFloat 0.8)])]) = Some x /\
    x / 3 <= confidence_level r <= (x + 2) / 3.
Proof.
  eexists.
  destruct (scoring_confidence_bounds
              (PyDict [("document_classification", PyDict [("confidence", PyFloat 0.8)])])
              ["constitutional_analysis"] _ eq_refl) as (x & Hx & Hr & _).
  exists x. split; [reflexivity|]. split; [exact Hx|exact Hr].
Defined.

(** X8: whether [calculate_comprehensive_score] raises depends on
    [document_analysis] only, through [_calculate_scoring_confidence]. *)
Theorem scoring_fails_only_in_confidence :
  (forall da fs fs',
      calculate_comprehensive_score da fs = None <->
      calculate_comprehensive_score da fs' = None) /\
  (forall da fs,
      (forall d, da <> PyDict d) ->
      calculate_comprehensive_score da fs = None /\
      forall f, framework_score da f == 65) /\
  (forall d fs,
      get "document_classification" d = None ->
      get "indian_legal_indicators" d = None ->
      exists r, calculate_comprehensive_score (PyDict d) fs = Some r /\
                confidence_level r ==
                  (0.5 + py_min 1.0 (of_nat (List.length fs) / 3)) / 3) /\
  (forall d fs chunks,
      calculate_comprehensive_score (PyDict (("enhanced_chunks", chunks) :: d)) fs = None <->
      calculate_comprehensive_score (PyDict d) fs = None).
Proof.
  assert (Hnone : forall da fs,
            calculate_comprehensive_score da fs = None <->
            classification_confidence_of da = None \/
            (forall d, da <> PyDict d) \/
            (exists d, da = PyDict d /\
               forall ind, get_default "indian_legal_indicators" (PyDict []) d <> PyDict ind)).
  { intros da fs. unfold calculate_comprehensive_score, bind, ret.
    destruct (_calculate_scoring_confidence da fs) as [c|] eqn:E.
    - split; [discriminate|]. intros H. exfalso.
      destruct (confidence_formula da fs c E) as (x & d & ind & Hx & Hda & Hind & _).
      destruct H as [H|[H|(d' & Hd' & H)]].
      + congruence.
      + exact (H d Hda).
      + rewrite Hda in Hd'. injection Hd' as <-. exact (H ind Hind).
    - split; [|reflexivity]. intros _.
      revert E. unfold _calculate_scoring_confidence, classification_confidence_of,
        bind, ret, raise.
      destruct da as [| | | | | |d]; try (intros _; right; left; intros d; discriminate).
      cbn [py_get ret].
      destruct (get_default "document_classification" (PyDict []) d) as [| | | | | |cd];
        try (intros _; left; reflexivity).
      cbn [py_get ret].
      destruct (get_default "indian_legal_indicators" (PyDict []) d) as [| | | | | |ind] eqn:Hind;
        try (intros _; right; right; exists d; split;
             [reflexivity|intros ind' Hc; rewrite Hind in Hc; discriminate Hc]).
      destruct (py_number (get_default "confidence" (PyFloat 0.5) cd)); [discriminate|].
      intros _. left. reflexivity. }
  split; [|split; [|split]].
  - intros da fs fs'. now rewrite (Hnone da fs), (Hnone da fs').
  - intros da fs Hnd. split.
    + apply Hnone. right. left. exact Hnd.
    + intros f. unfold framework_score, _score_framework_category.
      pose proof (map_framework_cases f) as Hc. simpl in Hc.
      destruct da as [| | | | | |d]; [| | | | | |exfalso; exact (Hnd d eq_refl)];
        destruct Hc as [Hc|[Hc|[Hc|[]]]]; rewrite <- Hc; reflexivity.
  - intros d fs Hc Hi.
    unfold calculate_comprehensive_score, _calculate_scoring_confidence, bind, ret.
    cbn [py_get ret]. unfold get_default. rewrite Hc, Hi. cbn [py_get ret get_default get py_number map filter List.length].
    eexists. split; [reflexivity|]. cbn [confidence_level].
    set (a := py_min 1.0 _). clearbody a.
    change (py_min 1.0 (of_nat 0 / 8)) with (0 # 8). field.
  - intros d fs chunks. rewrite !Hnone. unfold classification_confidence_of.
    cbn [py_get get_default get String.eqb Ascii.eqb Bool.eqb].
    split; intros [H|[H|(d' & Hd' & H)]]; try (left; exact H);
      try (exfalso; eapply H; reflexivity);
      right; right; eexists; (split; [reflexivity|]);
      injection Hd' as <-; exact H.
Qed.

End ScoringExtra.

(** ** More on framework selection *)

Module FrameworkExtra.
Import Notions Dict Py Frameworks FrameworkProps.
Local Open Scope Q_scope.

(** *** Membership in the selection *)

Lemma append_new_inv (l extra : list string) (x : string) :
  In x (append_new l extra) -> In x l \/ In x extra.
Proof.
  unfold append_new. revert l.
  induction extra as [|e extra IH]; simpl; intros l Hin; [now left|].
  destruct (IH _ Hin) as [Hl|He]; [|right; now right].
  destruct (str_in e l); [now left|].
  apply in_app_or in Hl. destruct Hl as [Hl|[<-|[]]]; [now left|right; now left].
Qed.

Lemma append_new_extra (l extra : list string) (x : string) :
  In x extra -> In x (append_new l extra).
Proof.
  unfold append_new. revert l.
  induction extra as [|e extra IH]; simpl; intros l Hin; [contradiction|].
  destruct Hin as [->|Hin]; [|now apply IH].
  apply (append_new_incl _ extra x).
  destruct (str_in x l) eqn:E; [now apply str_in_iff|].
  apply in_or_app. right. now left.
Qed.

Lemma append_new_nodup (l extra : list string) :
  NoDup l -> NoDup (append_new l extra).
Proof.
  unfold append_new. revert l.
  induction extra as [|e extra IH]; simpl; intros l Hnd; [exact Hnd|].
  apply IH. destruct (str_in e l) eqn:E; [exact Hnd|].
  apply NoDup_app; [exact Hnd|repeat constructor; intros []|].
  intros x Hx [<-|[]]. apply str_in_iff in Hx. congruence.
Qed.

Lemma primary_nodup (document_type : string) (confidence : Q) :
  NoDup (_get_primary_frameworks document_type confidence).
Proof.
  unfold _get_primary_frameworks, framework_registry, _initialize_framework_registry.
  cbn [filter snd applicable_documents].
  repeat match goal with
         | |- context [str_in document_type ?l] => destruct (str_in document_type l)
         end;
    cbn [map fst];
    repeat (constructor; [simpl; intuition discriminate|]); constructor.
Qed.

Lemma firstn_nodup {A : Type} (n : nat) (l : list A) : NoDup l -> NoDup (firstn n l).
Proof.
  intros Hnd. rewrite <- (firstn_skipn n l) in Hnd.
  exact (NoDup_app_remove_r _ _ Hnd).
Qed.

Lemma combined_nodup (document_type : string) (confidence : Q) (ci : dict pyval) :
  NoDup (combined_frameworks document_type confidence ci).
Proof.
  unfold combined_frameworks, _apply_combination_rules.
  apply append_new_nodup.
  pose proof (append_new_nodup _ (_get_content_based_frameworks ci)
                (primary_nodup document_type confidence)) as Hnd.
  set (selected := append_new _ _) in *. clearbody selected.
  destruct (Qle_bool 0.5 confidence); cbn [andb]; [|exact Hnd].
  destruct (str_in "constitutional_analysis" selected) eqn:E; cbn [negb]; [exact Hnd|].
  apply NoDup_app; [exact Hnd|repeat constructor; intros []|].
  intros x Hx [<-|[]]. apply str_in_iff in Hx. congruence.
Qed.

Lemma selected_eq (document_type : string) (confidence : Q)
    (content_indicators : option (dict pyval)) :
  selected_frameworks (select_frameworks document_type confidence content_indicators) =
  match combined_frameworks document_type confidence (indicators content_indicators) with
  | [] => ["general_legal_analysis"]
  | _ => firstn 4 (sort_by_key priority_of
                     (combined_frameworks document_type confidence
                        (indicators content_indicators)))
  end.
Proof.
  unfold select_frameworks. cbn [selected_frameworks]. apply prioritize_eq.
Qed.

Lemma selected_in_combined (document_type : string) (confidence : Q)
    (content_indicators : option (dict pyval)) (f : string) :
  In f (selected_frameworks (select_frameworks document_type confidence content_indicators)) ->
  In f (combined_frameworks document_type confidence (indicators content_indicators)) \/
  (combined_frameworks document_type confidence (indicators content_indicators) = [] /\
   f = "general_legal_analysis").
Proof.
  rewrite selected_eq.
  destruct (combined_frameworks _ _ _) as [|x l] eqn:E.
  - intros [<-|[]]. right. split; reflexivity.
  - intros Hin. left.
    assert (Hs : In f (sort_by_key priority_of (x :: l))).
    { rewrite <- (firstn_skipn 4). apply in_or_app. left. exact Hin. }
    exact (Permutation_in f (sort_by_key_perm priority_of (x :: l)) Hs).
Qed.

Lemma selected_nodup
    (document_type : string) (confidence : Q) (content_indicators : option (dict pyval)) :
  NoDup (selected_frameworks (select_frameworks document_type confidence content_indicators)).
Proof.
  rewrite selected_eq.
  pose proof (combined_nodup document_type confidence (indicators content_indicators)) as Hnd.
  destruct (combined_frameworks _ _ _) as [|x l].
  - repeat constructor. intros [].
  - apply firstn_nodup.
    exact (Permutation_NoDup (Permutation_sym (sort_by_key_perm priority_of (x :: l))) Hnd).
Qed.

(** X9: no framework is selected twice. *)
Theorem selection_has_no_duplicates
    (document_type : string) (confidence : Q) (content_indicators : option (dict pyval)) :
  NoDup (selected_frameworks (select_frameworks document_type confidence content_indicators)).
Proof. exact (selected_nodup document_type confidence content_indicators). Qed.

(** *** What the cut to four frameworks can drop *)

Lemma high_priority_iff (f : string) :
  (priority_of f <= 2)%Z <-> In f high_priority.
Proof.
  unfold priority_of, framework_registry, _initialize_framework_registry, high_priority.
  cbn [get].
  split.
  - repeat match goal with
           | |- context [String.eqb f ?b] =>
               destruct (String.eqb_spec f b); [subst; cbn [priority]; simpl; try lia; tauto|]
           end.
    lia.
  - simpl. intros [<-|[<-|[<-|[<-|[]]]]]; cbn; lia.
Qed.

Lemma sorted_before (key : string -> Z) (a b : list string) (x y : string) :
  StronglySorted (key_le key) (a ++ x :: b) -> In y a -> (key y <= key x)%Z.
Proof.
  induction a as [|z a IH]; cbn [app]; intros Hs Hy; [contradiction|].
  inversion Hs as [|? ? Hs' Hall]; subst.
  destruct Hy as [->|Hy]; [|exact (IH Hs' Hy)].
  rewrite Forall_forall in Hall.
  apply (Hall x). apply in_or_app. right. now left.
Qed.

(** In a sorted list without duplicates, an item whose key only the
    [names] can reach is among the first [length names]. *)
Lemma sorted_prefix_keeps (key : string -> Z) (bound : Z) (names s : list string)
    (x : string) :
  StronglySorted (key_le key) s -> NoDup s ->
  (forall y, (key y <= bound)%Z -> In y names) ->
  In x s -> (key x <= bound)%Z ->
  In x (firstn (List.length names) s).
Proof.
  intros Hs Hnd Hnames Hin Hx.
  destruct (in_split x s Hin) as (a & b & ->).
  assert (Hlow : forall y, In y (a ++ [x]) -> In y names).
  { intros y Hy. apply Hnames. apply in_app_or in Hy.
    destruct Hy as [Hy|[<-|[]]]; [|exact Hx].
    pose proof (sorted_before key a b x y Hs Hy). lia. }
  assert (Hnd' : NoDup (a ++ [x])).
  { replace (a ++ x :: b) with ((a ++ [x]) ++ b) in Hnd by now rewrite <- app_assoc.
    exact (NoDup_app_remove_r _ _ Hnd). }
  pose proof (NoDup_incl_length Hnd' Hlow) as Hlen.
  rewrite length_app in Hlen. cbn [List.length] in Hlen.
  assert (Hsplit : firstn (List.length names) (a ++ x :: b) =
                   a ++ firstn (List.length names - List.length a) (x :: b)).
  { rewrite firstn_app. f_equal. apply firstn_all2. lia. }
  rewrite Hsplit. apply in_or_app. right.
  destruct (List.length names - List.length a)%nat as [|k] eqn:E; [lia|]. now left.
Qed.

Lemma content_in_combined (document_type : string) (confidence : Q) (ci : dict pyval)
    (f : string) :
  In f (_get_content_based_frameworks ci) ->
  In f (combined_frameworks document_type confidence ci).
Proof.
  intros Hin. unfold combined_frameworks, _apply_combination_rules.
  apply append_new_incl.
  assert (Hs : In f (append_new (_get_primary_frameworks document_type confidence)
                       (_get_content_based_frameworks ci)))
    by (apply append_new_extra; exact Hin).
  destruct (_ && _); [apply in_or_app; now left|exact Hs].
Qed.

Lemma primary_in_combined (document_type : string) (confidence : Q) (ci : dict pyval)
    (f : string) :
  In f (_get_primary_frameworks document_type confidence) ->
  In f (combined_frameworks document_type confidence ci).
Proof.
  intros Hin. unfold combined_frameworks, _apply_combination_rules.
  apply append_new_incl.
  assert (Hs : In f (append_new (_get_primary_frameworks document_type confidence)
                       (_get_content_based_frameworks ci)))
    by (apply append_new_incl; exact Hin).
  destruct (_ && _); [apply in_or_app; now left|exact Hs].
Qed.

(** X10: the cut to four frameworks only drops frameworks of priority 3 or
    more. *)
Theorem cut_keeps_priorities_one_and_two
    (document_type : string) (confidence : Q) (content_indicators : option (dict pyval)) :
  let ci := indicators content_indicators in
  let combined := combined_frameworks document_type confidence ci in
  let result :=
    selected_frameworks (select_frameworks document_type confidence content_indicators) in
  (forall f, In f combined -> (priority_of f <= 2)%Z -> In f result) /\
  (forall f, In f combined -> ~ In f result ->
             (3 <= priority_of f)%Z /\ (4 < List.length combined)%nat) /\
  (forall f, In f (_get_primary_frameworks document_type confidence) ->
             (priority_of f <= 2)%Z -> In f result) /\
  (flag ci "constitutional_relevance" (PyBool false) = true ->
   In "constitutional_analysis" result) /\
  (flag ci "dpdpa_relevance" (PyBool false) = true \/
   flag ci "privacy_terms" (PyList []) = true ->
   In "privacy_rights_analysis" result /\ In "dpdpa_compliance" result) /\
  (flag ci "government_terms" (PyList []) = true -> In "administrative_law" result).
Proof.
  intros ci combined result.
  assert (Hkeep : forall f, In f combined -> (priority_of f <= 2)%Z -> In f result).
  { intros f Hin Hp. unfold result. rewrite selected_eq. fold ci. fold combined.
    destruct combined as [|x l] eqn:E; [contradiction|].
    change 4%nat with (List.length high_priority).
    apply (sorted_prefix_keeps priority_of 2).
    - apply sort_by_key_sorted.
    - apply (Permutation_NoDup (Permutation_sym (sort_by_key_perm priority_of (x :: l)))).
      rewrite <- E. apply combined_nodup.
    - intros y. apply high_priority_iff.
    - exact (Permutation_in f (Permutation_sym (sort_by_key_perm priority_of (x :: l))) Hin).
    - exact Hp. }
  assert (Hcontent : forall f, In f (_get_content_based_frameworks ci) ->
                               (priority_of f <= 2)%Z -> In f result).
  { intros f Hin. apply Hkeep. apply content_in_combined. exact Hin. }
  split; [exact Hkeep|]. split; [|split; [|split; [|split]]].
  - intros f Hin Hout. split.
    + destruct (Z_le_gt_dec (priority_of f) 2) as [Hle|Hgt]; [|lia].
      exfalso. exact (Hout (Hkeep f Hin Hle)).
    + destruct (le_lt_dec (List.length combined) 4) as [Hle|Hlt]; [|exact Hlt].
      exfalso. apply Hout. unfold result. rewrite selected_eq. fold ci. fold combined.
      destruct combined as [|x l] eqn:E; [contradiction|].
      rewrite firstn_all2 by (rewrite sort_by_key_length; exact Hle).
      exact (Permutation_in f (Permutation_sym (sort_by_key_perm priority_of (x :: l))) Hin).
  - intros f Hin. apply Hkeep. apply primary_in_combined. exact Hin.
  - intros Hflag. apply Hcontent; [|cbn; lia].
    unfold _get_content_based_frameworks. rewrite Hflag. now left.
  - intros Hflag.
    assert (Hor : flag ci "dpdpa_relevance" (PyBool false)
                  || flag ci "privacy_terms" (PyList []) = true)
      by (apply orb_true_iff; exact Hflag).
    split; (apply Hcontent; [|cbn; lia]); unfold _get_content_based_frameworks;
      rewrite Hor; apply in_or_app; right; apply in_or_app; left; simpl; tauto.
  - intros Hflag. apply Hcontent; [|cbn; lia].
    unfold _get_content_based_frameworks. rewrite Hflag.
    apply in_or_app; right; apply in_or_app; right. now left.
Qed.

(** *** The names that can be selected *)

Lemma categorize_cases (document_type : string) :
  In (_categorize_document_type document_type)
     ["government_documents"; "privacy_documents"; "commercial_contracts";
      "judicial_documents"; "general_documents"].
Proof.
  unfold _categorize_document_type.
  destruct (str_in document_type
              ["government_notification"; "office_memorandum"; "recruitment_rules"]);
    [simpl; tauto|].
  destruct (str_in document_type ["privacy_policy"; "dpdpa_compliance_document"]);
    [simpl; tauto|].
  destruct (str_in document_type ["service_agreement"; "employment_contract"]) eqn:E.
  { simpl; tauto. }
  assert (Hemp : str_in document_type ["employment_contract"] = false).
  { unfold str_in in *. cbn [existsb] in *.
    apply orb_false_iff in E. destruct E as [_ E]. exact E. }
  rewrite Hemp.
  destruct (str_in document_type ["supreme_court_judgment"; "high_court_judgment"]);
    simpl; tauto.
Qed.

Lemma combined_names (document_type : string) (confidence : Q) (ci : dict pyval)
    (f : string) :
  In f (combined_frameworks document_type confidence ci) -> In f selectable.
Proof.
  unfold combined_frameworks, _apply_combination_rules. intros Hin.
  apply append_new_inv in Hin. destruct Hin as [Hin|Hrule].
  - assert (Hsel : In f (append_new (_get_primary_frameworks document_type confidence)
                           (_get_content_based_frameworks ci)) \/
                   f = "constitutional_analysis").
    { destruct (_ && _); [|now left].
      apply in_app_or in Hin. destruct Hin as [Hin|[<-|[]]]; [now left|now right]. }
    destruct Hsel as [Hsel| ->]; [|simpl; tauto].
    apply append_new_inv in Hsel. destruct Hsel as [Hp|Hc].
    + unfold _get_primary_frameworks in Hp. apply in_map_iff in Hp.
      destruct Hp as (e & <- & He). apply filter_In in He. destruct He as [He _].
      unfold selectable. apply in_or_app. left. apply in_map. exact He.
    + unfold _get_content_based_frameworks in Hc.
      repeat match type of Hc with
             | context [if ?b then _ else _] => destruct b
             end; simpl in Hc; simpl; intuition (subst; tauto).
  - pose proof (categorize_cases document_type) as Hcat.
    simpl in Hcat.
    destruct Hcat as [E|[E|[E|[E|[E|[]]]]]]; rewrite <- E in Hrule;
      simpl in Hrule; simpl; intuition (subst; tauto).
Qed.

(** X11: a selection holds registry frameworks and, for judgments only,
    case_law_analysis; labor_law_analysis is never selected. *)
Theorem selection_names
    (document_type : string) (confidence : Q) (content_indicators : option (dict pyval)) :
  let result :=
    selected_frameworks (select_frameworks document_type confidence content_indicators) in
  (forall f, In f result -> In f selectable) /\
  ~ In "labor_law_analysis" result /\
  _categorize_document_type document_type <> "employment_matters" /\
  (forall f, In f result -> priority_of f = 5%Z -> f = "case_law_analysis") /\
  (In "case_law_analysis" result ->
   str_in document_type ["supreme_court_judgment"; "high_court_judgment"] = true).
Proof.
  intros result.
  assert (Hnames : forall f, In f result -> In f selectable).
  { intros f Hin. apply selected_in_combined in Hin.
    destruct Hin as [Hin|[_ ->]]; [exact (combined_names _ _ _ _ Hin)|simpl; tauto]. }
  split; [exact Hnames|]. split; [|split; [|split]].
  - intros Hin. apply Hnames in Hin. simpl in Hin. intuition discriminate.
  - pose proof (categorize_cases document_type) as Hcat. simpl in Hcat.
    intros E. rewrite E in Hcat. intuition discriminate.
  - intros f Hin Hp. apply Hnames in Hin. simpl in Hin.
    destruct Hin as [<-|[<-|[<-|[<-|[<-|[<-|[<-|[]]]]]]]]; try discriminate Hp. reflexivity.
  - intros Hin. apply selected_in_combined in Hin.
    destruct Hin as [Hin|[_ Hin]]; [|discriminate Hin].
    unfold combined_frameworks, _apply_combination_rules in Hin.
    apply append_new_inv in Hin. destruct Hin as [Hin|Hrule].
    + exfalso.
      assert (Hsel : In "case_law_analysis"
                       (append_new (_get_primary_frameworks document_type confidence)
                          (_get_content_based_frameworks (indicators content_indicators)))).
      { destruct (_ && _); [|exact Hin].
        apply in_app_or in Hin. destruct Hin as [Hin|[Hin|[]]]; [exact Hin|discriminate Hin]. }
      apply append_new_inv in Hsel. destruct Hsel as [Hp|Hc].
      * unfold _get_primary_frameworks in Hp. apply in_map_iff in Hp.
        destruct Hp as (e & He1 & He). apply filter_In in He. destruct He as [He _].
        simpl in He. intuition (subst; discriminate).
      * unfold _get_content_based_frameworks in Hc.
        repeat match type of Hc with
               | context [if ?b then _ else _] => destruct b
               end; simpl in Hc; intuition discriminate.
    + revert Hrule. unfold _categorize_document_type.
      repeat match goal with
             | |- context [str_in document_type ?l] =>
                 destruct (str_in document_type l) eqn:?
             end; simpl; intuition discriminate.
Qed.

(** X12: general_legal_analysis is selected for general and unknown
    documents, or alone as the fallback. *)
Theorem general_framework_selection
    (document_type : string) (confidence : Q) (content_indicators : option (dict pyval)) :
  let ci := indicators content_indicators in
  let result :=
    selected_frameworks (select_frameworks document_type confidence content_indicators) in
  (In "general_legal_analysis" result ->
   str_in document_type ["general_legal_document"; "unknown"] = true \/
   result = ["general_legal_analysis"]) /\
  (_get_primary_frameworks document_type confidence = [] ->
   _get_content_based_frameworks ci = [] ->
   _categorize_document_type document_type = "general_documents" ->
   (confidence < 0.5)%Q ->
   result = ["general_legal_analysis"]).
Proof.
  intros ci result. split.
  - intros Hin. unfold result in *. rewrite selected_eq in *. fold ci in Hin |- *.
    destruct (combined_frameworks document_type confidence ci) as [|x l] eqn:E;
      [right; reflexivity|left].
    assert (Hc : In "general_legal_analysis" (combined_frameworks document_type confidence ci)).
    { rewrite E.
      apply (Permutation_in _ (sort_by_key_perm priority_of (x :: l))).
      rewrite <- (firstn_skipn 4). apply in_or_app. left. exact Hin. }
    clear E Hin. unfold combined_frameworks, _apply_combination_rules in Hc.
    apply append_new_inv in Hc. destruct Hc as [Hc|Hrule].
    + assert (Hsel : In "general_legal_analysis"
                       (append_new (_get_primary_frameworks document_type confidence)
                          (_get_content_based_frameworks ci))).
      { destruct (_ && _); [|exact Hc].
        apply in_app_or in Hc. destruct Hc as [Hc|[Hc|[]]]; [exact Hc|discriminate Hc]. }
      apply append_new_inv in Hsel. destruct Hsel as [Hp|Hcb].
      * unfold _get_primary_frameworks in Hp. apply in_map_iff in Hp.
        destruct Hp as ([name config] & Hname & He). apply filter_In in He.
        destruct He as [He Happ]. cbn [fst snd] in *. subst name.
        simpl in He.
        destruct He as [He|[He|[He|[He|[He|[He|[]]]]]]]; try discriminate He.
        injection He as <-. exact Happ.
      * exfalso. unfold _get_content_based_frameworks in Hcb.
        repeat match type of Hcb with
               | context [if ?b then _ else _] => destruct b
               end; simpl in Hcb; intuition discriminate.
    + exfalso. pose proof (categorize_cases document_type) as Hcat. simpl in Hcat.
      destruct Hcat as [E|[E|[E|[E|[E|[]]]]]]; rewrite <- E in Hrule;
        simpl in Hrule; intuition discriminate.
  - intros Hp Hc Hcat Hconf. unfold result. rewrite selected_eq. fold ci.
    unfold combined_frameworks, _apply_combination_rules.
    rewrite Hp, Hc, Hcat.
    assert (Hq : Qle_bool 0.5 confidence = false) by (apply Qle_bool_false_iff; exact Hconf).
    rewrite Hq. reflexivity.
Qed.

(** *** The reasons given for a selection *)

Lemma fill_keys {V : Type} (g : string -> V) (l : list string) (acc : dict V) :
  NoDup (keys acc ++ l) ->
  fold_left (fun d f => set f (g f) d) l acc = acc ++ map (fun f => (f, g f)) l.
Proof.
  revert acc. induction l as [|f l IH]; cbn [fold_left map]; intros acc Hnd.
  - now rewrite app_nil_r.
  - assert (Hf : ~ In f (keys acc)).
    { apply NoDup_remove_2 in Hnd. intros Hin. apply Hnd, in_or_app. now left. }
    rewrite (set_fresh _ _ _ Hf), IH.
    + now rewrite <- app_assoc.
    + unfold keys in *. rewrite map_app, <- app_assoc. exact Hnd.
Qed.

Lemma selection_reason_not_empty (f document_type : string) (confidence : Q)
    (ci : dict pyval) :
  _generate_selection_reason f document_type confidence ci <> EmptyString.
Proof.
  unfold _generate_selection_reason.
  repeat match goal with
         | |- context [if ?b then _ else _] =>
             match type of b with bool => destruct b end
         end; cbn [app join String.append]; discriminate.
Qed.

(** X13: the selection reasons are keyed by the selected frameworks, in
    order, and none is empty. *)
Theorem every_selected_framework_has_a_reason
    (document_type : string) (confidence : Q) (content_indicators : option (dict pyval)) :
  let sel := select_frameworks document_type confidence content_indicators in
  keys (selection_reasons sel) = selected_frameworks sel /\
  List.length (selection_reasons sel) = framework_count sel /\
  forall f, In f (selected_frameworks sel) ->
    exists reason,
      get f (selection_reasons sel) = Some reason /\
      reason = _generate_selection_reason f document_type confidence
                 (indicators content_indicators) /\
      reason <> EmptyString.
Proof.
  intros sel.
  pose proof (selected_nodup document_type confidence content_indicators) as Hnd.
  fold sel in Hnd.
  assert (Hreasons : selection_reasons sel =
            map (fun f => (f, _generate_selection_reason f document_type confidence
                                (indicators content_indicators)))
                (selected_frameworks sel)).
  { unfold sel, select_frameworks. cbn [selection_reasons selected_frameworks].
    apply (fill_keys (fun f => _generate_selection_reason f document_type confidence
                                 (indicators content_indicators)) _ []).
    exact Hnd. }
  split; [|split].
  - rewrite Hreasons. unfold keys. rewrite map_map. cbn [fst]. apply map_id.
  - rewrite Hreasons, length_map. reflexivity.
  - intros f Hin. eexists. split; [|split; [reflexivity|apply selection_reason_not_empty]].
    rewrite Hreasons. clear Hreasons.
    induction (selected_frameworks sel) as [|x l IH]; [contradiction|].
    cbn [map get]. destruct (String.eqb_spec f x) as [->|Hne]; [reflexivity|].
    inversion Hnd; subst. destruct Hin as [->|Hin]; [contradiction|]. now apply IH.
Qed.

(** A document type that no framework applies to and no rule names,
    classified with low confidence and without indicators. *)
Lemma general_framework_example :
  selected_frameworks (select_frameworks "lease_deed" 0.3 None) = ["general_legal_analysis"] /\
  selection_reasons (select_frameworks "lease_deed" 0.3 None) =
    [("general_legal_analysis",
      "Selected based on document analysis and legal framework requirements")].
Proof. split; reflexivity. Qed.

(** An unknown document with every content signal: the general framework
    that matches its type is cut. *)
Lemma general_framework_cut_example :
  selected_frameworks
    (select_frameworks "unknown" 0.6
       (Some [("constitutional_relevance", PyBool true);
              ("privacy_terms", PyList [PyString "personal data"]);
              ("government_terms", PyList [PyString "ministry"])])) =
  ["constitutional_analysis"; "privacy_rights_analysis"; "dpdpa_compliance";
   "administrative_law"].
Proof. reflexivity. Qed.

End FrameworkExtra.

(** ** More on classification *)

Module ClassifierExtra.
Import Notions Dict Classifier ClassifierProps.
Local Open Scope Q_scope.

(** *** The result of a classification *)

Lemma classified (text : string) :
  too_short text = false ->
  exists best c,
    In (best, c) document_patterns /\
    first_maximum (classification_scores text) best (type_score text c) /\
    classify_with_confidence text =
      (apply_threshold best (type_score text c), type_score text c,
       classification_scores text).
Proof.
  intros H. destruct (classify_long text H) as (best & value & Hmax & Hres).
  pose proof (max_key_spec (classification_scores text)) as Hs. rewrite Hmax in Hs.
  assert (Hin : In (best, value) (classification_scores text)).
  { destruct Hs as (before & after & -> & _). apply in_or_app. right. now left. }
  rewrite classification_scores_eq in Hin. apply in_map_iff in Hin.
  destruct Hin as ([doc_type c] & [= -> <-] & Hin).
  exists best, c. cbn [snd] in *. split; [exact Hin|]. split; [exact Hs|exact Hres].
Qed.

Lemma apply_threshold_cases (best : string) (value : Q) :
  (apply_threshold best value = "unknown" /\ value <= 0.2 /\ value < threshold_of best) \/
  (apply_threshold best value = "general_legal_document" /\
   0.2 < value /\ value < threshold_of best) \/
  (apply_threshold best value = best /\ threshold_of best <= value).
Proof.
  unfold apply_threshold. fold (threshold_of best).
  destruct (Qlt_bool value (threshold_of best)) eqn:Et.
  - apply Qlt_bool_iff in Et. destruct (Qlt_bool 0.2 value) eqn:E2.
    + apply Qlt_bool_iff in E2. right. left. repeat split; assumption.
    + apply Qlt_bool_false_iff in E2. left. repeat split; assumption.
  - apply Qlt_bool_false_iff in Et. right. right. split; [reflexivity|exact Et].
Qed.

Lemma scores_in_range (text : string) :
  Forall (fun e : string * Q => 0 <= snd e <= 1) (classification_scores text).
Proof.
  rewrite classification_scores_eq. apply Forall_forall. intros e He.
  apply in_map_iff in He. destruct He as ([doc_type c] & <- & Hin).
  cbn [snd]. exact (type_score_bounds text doc_type c Hin).
Qed.

(** X14: the confidence and all scores of a classification are in [0, 1],
    and the scores are keyed by the registered types. *)
Theorem classification_in_unit_interval (text : string) :
  exists document_type confidence all_scores,
    classify_with_confidence text = (document_type, confidence, all_scores) /\
    0 <= confidence <= 1 /\
    Forall (fun e : string * Q => 0 <= snd e <= 1) all_scores /\
    keys all_scores = (if too_short text then [] else keys document_patterns) /\
    (too_short text = false -> get document_type all_scores = Some confidence \/
                               In document_type ["unknown"; "general_legal_document"]).
Proof.
  destruct (too_short text) eqn:Hguard.
  - exists "unknown", 0.0, []. unfold classify_with_confidence. rewrite Hguard.
    split; [reflexivity|]. split; [split; discriminate|].
    split; [constructor|]. split; [reflexivity|discriminate].
  - destruct (classified text Hguard) as (best & c & Hin & Hmax & Hres).
    eexists. eexists. eexists. split; [exact Hres|].
    split; [exact (type_score_bounds text best c Hin)|].
    split; [apply scores_in_range|]. split.
    + rewrite classification_scores_eq. unfold keys. rewrite map_map. reflexivity.
    + intros _.
      destruct (apply_threshold_cases best (type_score text c)) as [[-> _]|[[-> _]|[-> _]]];
        [right; simpl; tauto|right; simpl; tauto|left].
      rewrite classification_scores_eq.
      exact (get_map_in (fun e : string * criteria => type_score text (snd e))
               document_patterns best c document_patterns_distinct Hin).
Qed.

Lemma returned_type_cases
    (text : string) (document_type : string) (confidence : Q) (all_scores : dict Q)
    (H : classify_with_confidence text = (document_type, confidence, all_scores)) :
  (document_type = "unknown" \/ document_type = "general_legal_document" \/
   In document_type (keys document_patterns)) /\
  (document_type = "unknown" <-> confidence <= 0.2) /\
  (document_type <> "unknown" -> document_type <> "general_legal_document" ->
   get document_type all_scores = Some confidence /\
   first_maximum all_scores document_type confidence /\
   threshold_of document_type <= confidence /\ 0.4 <= confidence).
Proof.
  destruct (too_short text) eqn:Hguard.
  - revert H. unfold classify_with_confidence. rewrite Hguard. intros [= <- <- <-].
    split; [now left|]. split; [split; [discriminate|reflexivity]|].
    intros Hne. exfalso. now apply Hne.
  - destruct (classified text Hguard) as (best & c & Hin & Hmax & Hres).
    rewrite Hres in H. injection H as <- <- <-.
    pose proof (threshold_at_least best) as Hth. fold (threshold_of best) in Hth.
    assert (Hkey : In best (keys document_patterns))
      by (apply (in_map fst) in Hin; exact Hin).
    assert (Hnu : best <> "unknown").
    { intros ->. simpl in Hkey. intuition discriminate. }
    destruct (apply_threshold_cases best (type_score text c))
      as [(-> & Hv & Hlt)|[(-> & Hv & Hlt)|(-> & Hge)]].
    + split; [now left|]. split; [tauto|]. intros Hne. exfalso. now apply Hne.
    + split; [right; now left|]. split.
      * split; [discriminate|]. intros Hle. exfalso. lra.
      * intros _ Hne. exfalso. now apply Hne.
    + split; [right; right; exact Hkey|]. split.
      * split; [intros E; contradiction|]. intros Hle. exfalso. lra.
      * intros _ _. split; [|split; [exact Hmax|split; [exact Hge|lra]]].
        rewrite classification_scores_eq.
        exact (get_map_in (fun e : string * criteria => type_score text (snd e))
                 document_patterns best c document_patterns_distinct Hin).
Qed.

(** X15: a returned specific type is the first best-scored type and reaches
    its threshold; unknown means a confidence of at most 0.2. *)
Theorem returned_type_meets_its_threshold
    (text : string) (document_type : string) (confidence : Q) (all_scores : dict Q)
    (H : classify_with_confidence text = (document_type, confidence, all_scores)) :
  (document_type = "unknown" \/ document_type = "general_legal_document" \/
   In document_type (keys document_patterns)) /\
  (document_type = "unknown" <-> confidence <= 0.2) /\
  (document_type <> "unknown" -> document_type <> "general_legal_document" ->
   get document_type all_scores = Some confidence /\
   first_maximum all_scores document_type confidence /\
   threshold_of document_type <= confidence /\ 0.4 <= confidence).
Proof. exact (returned_type_cases text document_type confidence all_scores H). Qed.

Lemma returned_type_witness :
  fst (fst (classify_with_confidence short_notification)) = "unknown" <->
  snd (fst (classify_with_confidence short_notification)) <= 0.2.
Proof.
  assert (H : classify_with_confidence short_notification =
              (fst (fst (classify_with_confidence short_notification)),
               snd (fst (classify_with_confidence short_notification)),
               snd (classify_with_confidence short_notification)))
    by (vm_compute; reflexivity).
  exact (proj1 (proj2 (returned_type_meets_its_threshold short_notification _ _ _ H))).
Defined.

(** *** Short texts *)

Lemma type_score_le_length_factor (text doc_type : string) (c : criteria) :
  In (doc_type, c) document_patterns ->
  type_score text c <= 1.05 * Spec.length_factor text.
Proof.
  intros Hin. rewrite type_score_eq.
  pose proof (raw_score_bounds text _ _ Hin) as Br.
  pose proof (length_factor_bounds text) as Bl.
  set (raw := Spec.raw_score text c) in *.
  set (lf := Spec.length_factor text) in *.
  clearbody raw lf.
  eapply Qle_trans; [apply py_min_le_r|]. nra.
Qed.

Lemma length_factor_le_words (text : string) :
  Spec.length_factor text <= of_nat (word_count text) / 100.
Proof. unfold Spec.length_factor, ratio. apply py_min_le_r. Qed.

Lemma words_ratio_le (n m : nat) : (n <= m)%nat -> of_nat n / 100 <= of_nat m / 100.
Proof.
  intros H. apply Qle_shift_div_l; [reflexivity|].
  unfold Qdiv. rewrite <- Qmult_assoc.
  setoid_replace (/ 100 * 100) with 1 by reflexivity.
  rewrite Qmult_1_r. apply of_nat_le, H.
Qed.

(** X16: the confidence is at most 1.05 times the length factor, so texts
    under 20 words are unknown and texts under 39 words are unknown or
    general. *)
Theorem short_texts_have_low_confidence
    (text : string) (document_type : string) (confidence : Q) (all_scores : dict Q)
    (H : classify_with_confidence text = (document_type, confidence, all_scores)) :
  confidence <= 1.05 * Spec.length_factor text /\
  confidence <= 1.05 * (of_nat (word_count text) / 100) /\
  ((word_count text < 20)%nat -> document_type = "unknown") /\
  ((word_count text < 39)%nat ->
   document_type = "unknown" \/ document_type = "general_legal_document").
Proof.
  assert (Hconf : confidence <= 1.05 * Spec.length_factor text /\
                  (document_type = "unknown" /\ confidence <= 0.2 \/
                   document_type = "general_legal_document" \/
                   0.4 <= confidence)).
  { destruct (too_short text) eqn:Hguard.
    - revert H. unfold classify_with_confidence. rewrite Hguard. intros [= <- <- <-].
      pose proof (length_factor_bounds text) as Bl. split; [|left; split; [reflexivity|discriminate]].
      set (lf := Spec.length_factor text) in *. clearbody lf.
      assert (E : 0.0 == 0) by reflexivity. rewrite E. lra.
    - destruct (classified text Hguard) as (best & c & Hin & _ & Hres).
      rewrite Hres in H. injection H as <- <- <-.
      split; [exact (type_score_le_length_factor text best c Hin)|].
      pose proof (threshold_at_least best) as Hth. fold (threshold_of best) in Hth.
      destruct (apply_threshold_cases best (type_score text c))
        as [(-> & Hv & _)|[(-> & _)|(_ & Hge)]];
        [left; split; [reflexivity|exact Hv]|right; now left|right; right; lra]. }
  destruct Hconf as [Hlf Hcases].
  pose proof (length_factor_le_words text) as Hw.
  assert (Hwords : confidence <= 1.05 * (of_nat (word_count text) / 100)).
  { set (lf := Spec.length_factor text) in *. set (w := of_nat _ / 100) in *.
    clearbody lf w. lra. }
  split; [exact Hlf|]. split; [exact Hwords|]. split.
  - intros Hn.
    assert (Hr : of_nat (word_count text) / 100 <= of_nat 19 / 100)
      by (apply words_ratio_le; lia).
    assert (E : of_nat 19 / 100 == 0.19) by reflexivity. rewrite E in Hr.
    set (w := of_nat _ / 100) in *. clearbody w.
    destruct Hcases as [[-> _]|[->|Hge]]; [reflexivity| |exfalso; lra].
    (* relabelled general: confidence > 0.2 is impossible *)
    exfalso.
    destruct (too_short text) eqn:Hguard.
    + revert H. unfold classify_with_confidence. rewrite Hguard. discriminate.
    + destruct (classified text Hguard) as (best & c & Hin & _ & Hres).
      rewrite Hres in H. injection H as Ht <- _.
      pose proof (threshold_at_least best) as Hth. fold (threshold_of best) in Hth.
      destruct (apply_threshold_cases best (type_score text c))
        as [(Ha & _)|[(_ & Hv & _)|(_ & Hge)]]; [congruence|lra|lra].
  - intros Hn.
    assert (Hr : of_nat (word_count text) / 100 <= of_nat 38 / 100)
      by (apply words_ratio_le; lia).
    assert (E : of_nat 38 / 100 == 0.38) by reflexivity. rewrite E in Hr.
    set (w := of_nat _ / 100) in *. clearbody w.
    destruct Hcases as [[-> _]|[->|Hge]]; [now left|now right|exfalso; lra].
Qed.

Lemma short_texts_witness :
  fst (fst (classify_with_confidence dense_general)) = "unknown".
Proof.
  assert (H : classify_with_confidence dense_general =
              (fst (fst (classify_with_confidence dense_general)),
               snd (fst (classify_with_confidence dense_general)),
               snd (classify_with_confidence dense_general)))
    by (vm_compute; reflexivity).
  assert (Hwords : (word_count dense_general < 20)%nat) by (vm_compute; lia).
  exact (proj1 (proj2 (proj2 (short_texts_have_low_confidence dense_general _ _ _ H)))
           Hwords).
Defined.

(** *** Levels and recommendations *)

Lemma confidence_level_monotone (c1 c2 : Q) :
  c1 <= c2 ->
  (level_rank (get_classification_confidence_level c1) <=
   level_rank (get_classification_confidence_level c2))%nat.
Proof.
  intros Hle. unfold get_classification_confidence_level.
  destruct (Qle_bool 0.9 c1) eqn:A1, (Qle_bool 0.7 c1) eqn:B1, (Qle_bool 0.5 c1) eqn:C1,
           (Qle_bool 0.3 c1) eqn:D1,
           (Qle_bool 0.9 c2) eqn:A2, (Qle_bool 0.7 c2) eqn:B2, (Qle_bool 0.5 c2) eqn:C2,
           (Qle_bool 0.3 c2) eqn:D2;
    repeat match goal with
           | H : Qle_bool _ _ = true |- _ => apply Qle_bool_iff in H
           | H : Qle_bool _ _ = false |- _ => apply Qle_bool_false_iff in H
           end;
    try (exfalso; lra); cbn; lia.
Qed.

(** X17: the confidence level and the recommendations computed for the
    returned type and confidence. *)
Theorem recommendations_follow_the_thresholds
    (text : string) (document_type : string) (confidence : Q) (all_scores : dict Q)
    (H : classify_with_confidence text = (document_type, confidence, all_scores)) :
  let level := get_classification_confidence_level confidence in
  let advice := _generate_recommendations document_type confidence in
  (document_type = "unknown" ->
   level = "very_low" /\
   advice = ["Consider manual review due to low classification confidence"]) /\
  (document_type <> "unknown" -> document_type <> "general_legal_document" ->
   level <> "very_low") /\
  (In document_type ["privacy_policy"; "government_notification";
                     "employment_contract"; "service_agreement"] ->
   List.length advice = 2%nat /\
   ~ In "Consider manual review due to low classification confidence" advice /\
   (1 < level_rank level)%nat) /\
  (In "Consider manual review due to low classification confidence" advice <->
   confidence < 0.5) /\
  (List.length advice <= 3)%nat.
Proof.
  intros level advice. subst level advice.
  destruct (returned_type_cases text _ _ _ H) as (_ & Hunk & Hspec).
  split; [|split; [|split; [|split]]].
  - intros ->. assert (Hc : confidence <= 0.2) by (apply Hunk; reflexivity).
    unfold get_classification_confidence_level, _generate_recommendations.
    assert (E9 : Qle_bool 0.9 confidence = false) by (apply Qle_bool_false_iff; lra).
    assert (E7 : Qle_bool 0.7 confidence = false) by (apply Qle_bool_false_iff; lra).
    assert (E5 : Qle_bool 0.5 confidence = false) by (apply Qle_bool_false_iff; lra).
    assert (E3 : Qle_bool 0.3 confidence = false) by (apply Qle_bool_false_iff; lra).
    assert (El : Qlt_bool confidence 0.5 = true) by (apply Qlt_bool_iff; lra).
    rewrite E9, E7, E5, E3, El. split; reflexivity.
  - intros H1 H2. destruct (Hspec H1 H2) as (_ & _ & _ & Hc).
    unfold get_classification_confidence_level.
    assert (E3 : Qle_bool 0.3 confidence = true) by (apply Qle_bool_iff; lra).
    destruct (Qle_bool 0.9 confidence), (Qle_bool 0.7 confidence), (Qle_bool 0.5 confidence);
      rewrite ?E3; discriminate.
  - intros Hin.
    assert (Hth : 0.5 <= threshold_of document_type /\
                  document_type <> "unknown" /\ document_type <> "general_legal_document").
    { simpl in Hin. destruct Hin as [<-|[<-|[<-|[<-|[]]]]];
        (split; [discriminate|split; discriminate]). }
    destruct Hth as (Hth & H1 & H2).
    destruct (Hspec H1 H2) as (_ & _ & Hge & _).
    assert (Hc : 0.5 <= confidence) by lra.
    assert (El : Qlt_bool confidence 0.5 = false) by (apply Qlt_bool_false_iff; exact Hc).
    assert (E5 : Qle_bool 0.5 confidence = true) by (apply Qle_bool_iff; exact Hc).
    unfold _generate_recommendations, get_classification_confidence_level.
    rewrite El, E5.
    split; [|split].
    + simpl in Hin. destruct Hin as [<-|[<-|[<-|[<-|[]]]]]; reflexivity.
    + simpl in Hin. destruct Hin as [<-|[<-|[<-|[<-|[]]]]]; simpl; intuition discriminate.
    + destruct (Qle_bool 0.9 confidence), (Qle_bool 0.7 confidence); cbn; lia.
  - unfold _generate_recommendations.
    destruct (Qlt_bool confidence 0.5) eqn:El.
    + apply Qlt_bool_iff in El. split; [intros _; exact El|intros _; now left].
    + apply Qlt_bool_false_iff in El. split; [|intros Hlt; exfalso; lra].
      cbn [app]. intros Hin. exfalso.
      repeat match type of Hin with
             | context [if ?b then _ else _] =>
                 match type of b with bool => destruct b end
             end; simpl in Hin; intuition discriminate.
  - unfold _generate_recommendations.
    repeat match goal with
           | |- context [if ?b then _ else _] =>
               match type of b with bool => destruct b end
           end; simpl; lia.
Qed.

Lemma recommendations_witness :
  In "Consider manual review due to low classification confidence"
     (_generate_recommendations
        (fst (fst (classify_with_confidence five_words)))
        (snd (fst (classify_with_confidence five_words)))) <->
  snd (fst (classify_with_confidence five_words)) < 0.5.
Proof.
  assert (H : classify_with_confidence five_words =
              (fst (fst (classify_with_confidence five_words)),
               snd (fst (classify_with_confidence five_words)),
               snd (classify_with_confidence five_words)))
    by (vm_compute; reflexivity).
  exact (proj1 (proj2 (proj2 (proj2
           (recommendations_follow_the_thresholds five_words _ _ _ H))))).
Defined.

(** *** Alternatives *)

Lemma insert_descending_perm (x : string * Q) (l : dict Q) :
  Permutation (insert_descending x l) (x :: l).
Proof.
  induction l as [|y l IH]; cbn [insert_descending]; [apply Permutation_refl|].
  destruct (Qlt_bool (snd x) (snd y)); [|apply Permutation_refl].
  eapply perm_trans; [apply perm_skip, IH|apply perm_swap].
Qed.

Lemma sorted_descending_perm (d : dict Q) : Permutation (sorted_descending d) d.
Proof.
  induction d as [|x d IH]; cbn [sorted_descending fold_right]; [constructor|].
  eapply perm_trans; [apply insert_descending_perm|apply perm_skip, IH].
Qed.

Lemma insert_descending_sorted (x : string * Q) (l : dict Q) :
  StronglySorted value_ge l -> StronglySorted value_ge (insert_descending x l).
Proof.
  induction l as [|y l IH]; cbn [insert_descending]; intros Hs.
  - repeat constructor.
  - inversion Hs as [|? ? Hs' Hall]; subst.
    destruct (Qlt_bool (snd x) (snd y)) eqn:E.
    + apply Qlt_bool_iff in E. constructor; [now apply IH|].
      eapply Permutation_Forall; [apply Permutation_sym, insert_descending_perm|].
      constructor; [unfold value_ge; lra|exact Hall].
    + apply Qlt_bool_false_iff in E. constructor; [exact Hs|].
      constructor; [exact E|].
      eapply Forall_impl; [|exact Hall].
      intros z Hz. unfold value_ge in *. lra.
Qed.

Lemma sorted_descending_sorted (d : dict Q) : StronglySorted value_ge (sorted_descending d).
Proof.
  induction d as [|x d IH]; cbn [sorted_descending fold_right]; [constructor|].
  now apply insert_descending_sorted.
Qed.

(** The first maximum is sorted first; the rest keeps its own sorting. *)
Lemma sorted_descending_head (before after : dict Q) (best : string) (value : Q) :
  Forall (fun e : string * Q => snd e < value) before ->
  Forall (fun e : string * Q => snd e <= value) after ->
  sorted_descending (before ++ (best, value) :: after) =
  (best, value) :: sorted_descending (before ++ after).
Proof.
  intros Hb Ha. induction Hb as [|x before Hx Hb IH].
  - cbn [app sorted_descending fold_right].
    fold (sorted_descending after).
    assert (Hall : Forall (fun e : string * Q => snd e <= value) (sorted_descending after)).
    { eapply Permutation_Forall; [apply Permutation_sym, sorted_descending_perm|exact Ha]. }
    destruct (sorted_descending after) as [|y l]; [reflexivity|].
    cbn [insert_descending snd].
    inversion Hall as [|? ? Hy _]; subst.
    assert (E : Qlt_bool value (snd y) = false) by (apply Qlt_bool_false_iff; exact Hy).
    now rewrite E.
  - cbn [app sorted_descending fold_right].
    fold (sorted_descending (before ++ (best, value) :: after)).
    fold (sorted_descending (before ++ after)).
    rewrite IH. cbn [insert_descending snd].
    assert (E : Qlt_bool (snd x) value = true) by (apply Qlt_bool_iff; exact Hx).
    now rewrite E.
Qed.

Lemma loop_over_range {A B : Type} (f : A -> B) (l : list A) (count start : nat) :
  (start + count <= List.length l)%nat ->
  flat_map (fun i => match nth_error l i with
                     | Some x => [f x]
                     | None => []
                     end) (seq start count) =
  map f (firstn count (skipn start l)).
Proof.
  revert start. induction count as [|count IH]; intros start Hlen; [reflexivity|].
  cbn [seq flat_map].
  destruct (nth_error l start) as [x|] eqn:E.
  - rewrite IH by lia.
    assert (Hskip : skipn start l = x :: skipn (S start) l).
    { clear IH Hlen. revert l E. induction start as [|start IHs]; intros [|y l] E;
        try discriminate E.
      - injection E as ->. reflexivity.
      - cbn [skipn]. apply IHs. exact E. }
    rewrite Hskip. reflexivity.
  - apply nth_error_None in E. lia.
Qed.

Lemma alternatives_eq (d : dict Q) (top_n : nat) :
  _get_alternative_classifications d top_n =
  map as_alternative (firstn top_n (tl (sorted_descending d))).
Proof.
  unfold _get_alternative_classifications.
  set (l := sorted_descending d).
  assert (Hloop : forall count,
            (1 + count <= List.length l)%nat ->
            flat_map
              (fun i => match nth_error l i with
                        | Some (doc_type, score) =>
                            [{| alternative_type := doc_type;
                                alternative_confidence := score;
                                alternative_level := get_classification_confidence_level score |}]
                        | None => []
                        end) (seq 1 count) =
            map as_alternative (firstn count (skipn 1 l))).
  { intros count Hc. rewrite <- (loop_over_range as_alternative l count 1 Hc).
    apply flat_map_ext. intros i. destruct (nth_error l i) as [[t s]|]; reflexivity. }
  destruct l as [|x l'] eqn:El.
  { cbn [List.length tl]. rewrite Nat.min_0_r, firstn_nil. reflexivity. }
  cbn [List.length tl].
  rewrite Hloop by (cbn [List.length]; lia).
  cbn [skipn]. f_equal.
  assert (Hmin : (Nat.min (top_n + 1) (S (List.length l')) - 1 =
                  Nat.min top_n (List.length l'))%nat) by lia.
  rewrite Hmin. clear.
  revert l'. induction top_n as [|n IH]; intros [|y l']; try reflexivity.
  cbn [List.length Nat.min firstn]. f_equal. apply IH.
Qed.

Lemma StronglySorted_map_rel {A B : Type} (R : B -> B -> Prop) (f : A -> B) (l : list A) :
  StronglySorted (fun a b => R (f a) (f b)) l -> StronglySorted R (map f l).
Proof.
  induction 1 as [|x l Hs IH Hall]; cbn [map]; constructor; [exact IH|].
  rewrite Forall_forall in *. intros y Hy. apply in_map_iff in Hy.
  destruct Hy as (z & <- & Hz). exact (Hall z Hz).
Qed.

Lemma runners_up
    (d : dict Q) (top_n : nat) (best : string) (value : Q)
    (Hnd : NoDup (keys d)) (Hmax : max_key d = Some (best, value)) :
  let alternatives := _get_alternative_classifications d top_n in
  List.length alternatives = Nat.min top_n (List.length d - 1) /\
  NoDup (map alternative_type alternatives) /\
  StronglySorted (fun a b => b <= a) (map alternative_confidence alternatives) /\
  Forall (fun a =>
            alternative_type a <> best /\
            get (alternative_type a) d = Some (alternative_confidence a) /\
            alternative_confidence a <= value /\
            alternative_level a =
              get_classification_confidence_level (alternative_confidence a))
         alternatives /\
  (forall t s, In (t, s) d -> t <> best ->
     (List.length d - 1 <= top_n)%nat ->
     In t (map alternative_type alternatives)).
Proof.
  intros alternatives. subst alternatives. rewrite alternatives_eq.
  pose proof (max_key_spec d) as Hspec. rewrite Hmax in Hspec.
  destruct Hspec as (before & after & Hd & Hb & Ha).
  pose proof (sorted_descending_head before after best value Hb Ha) as Hhead.
  rewrite <- Hd in Hhead.
  pose proof (sorted_descending_perm d) as Hperm.
  pose proof (sorted_descending_sorted d) as Hsorted.
  rewrite Hhead in Hperm, Hsorted |- *. cbn [tl].
  set (rest := sorted_descending (before ++ after)) in *. clearbody rest.
  assert (Hkeys : NoDup (best :: keys rest)).
  { change (best :: keys rest) with (keys ((best, value) :: rest)).
    unfold keys. eapply Permutation_NoDup; [|exact Hnd].
    apply Permutation_map, Permutation_sym, Hperm. }
  apply NoDup_cons_iff in Hkeys. destruct Hkeys as [Hbest Hrest].
  apply StronglySorted_inv in Hsorted. destruct Hsorted as [Hsrest Hle].
  assert (Hlen : List.length d = S (List.length rest)).
  { rewrite <- (Permutation_length Hperm). reflexivity. }
  assert (Hsub : forall e, In e (firstn top_n rest) -> In e rest).
  { intros e He. rewrite <- (firstn_skipn top_n rest). apply in_or_app. now left. }
  split; [|split; [|split; [|split]]].
  - rewrite length_map, length_firstn, Hlen. lia.
  - rewrite map_map. cbn [as_alternative alternative_type].
    change (map (fun x : string * Q => fst x) (firstn top_n rest))
      with (map fst (firstn top_n rest)).
    rewrite <- firstn_map. unfold keys in Hrest.
    rewrite <- (firstn_skipn top_n (map fst rest)) in Hrest.
    exact (NoDup_app_remove_r _ _ Hrest).
  - rewrite map_map. cbn [as_alternative alternative_confidence].
    apply (StronglySorted_map_rel (fun a b => b <= a) snd).
    assert (Hfs : StronglySorted value_ge (firstn top_n rest)).
    { clear - Hsrest. revert rest Hsrest.
      induction top_n as [|n IH]; intros rest Hs; [constructor|].
      destruct rest as [|x l]; [constructor|].
      inversion Hs as [|? ? Hs' Hall]; subst. cbn [firstn].
      constructor; [now apply IH|].
      rewrite Forall_forall in *. intros y Hy. apply Hall.
      rewrite <- (firstn_skipn n l). apply in_or_app. now left. }
    exact Hfs.
  - apply Forall_forall. intros a Ha'. apply in_map_iff in Ha'.
    destruct Ha' as ([t s] & <- & He). apply Hsub in He.
    cbn [as_alternative alternative_type alternative_confidence alternative_level fst snd].
    split; [|split; [|split; [|reflexivity]]].
    + intros ->. apply Hbest. apply (in_map fst) in He. exact He.
    + apply ScoringExtra.in_get; [exact Hnd|].
      apply (Permutation_in _ Hperm). now right.
    + rewrite Forall_forall in Hle. exact (Hle _ He).
  - intros t s Hin Hne Hall.
    rewrite map_map. cbn [as_alternative alternative_type].
    rewrite firstn_all2 by lia.
    apply (Permutation_in _ (Permutation_sym Hperm)) in Hin.
    destruct Hin as [[= E _]|Hin]; [congruence|].
    apply (in_map fst) in Hin. exact Hin.
Qed.

(** X18: the alternatives are the runners-up of the score table, in
    descending order, without the first maximum. *)
Theorem alternatives_are_the_runners_up
    (d : dict Q) (top_n : nat) (best : string) (value : Q)
    (Hnd : NoDup (keys d)) (Hmax : max_key d = Some (best, value)) :
  let alternatives := _get_alternative_classifications d top_n in
  List.length alternatives = Nat.min top_n (List.length d - 1) /\
  NoDup (map alternative_type alternatives) /\
  StronglySorted (fun a b => b <= a) (map alternative_confidence alternatives) /\
  Forall (fun a =>
            alternative_type a <> best /\
            get (alternative_type a) d = Some (alternative_confidence a) /\
            alternative_confidence a <= value /\
            alternative_level a =
              get_classification_confidence_level (alternative_confidence a))
         alternatives /\
  (forall t s, In (t, s) d -> t <> best ->
     (List.length d - 1 <= top_n)%nat ->
     In t (map alternative_type alternatives)).
Proof. exact (runners_up d top_n best value Hnd Hmax). Qed.

Lemma alternatives_witness :
  List.length
    (_get_alternative_classifications
       [("privacy_policy", 0.3); ("service_agreement", 0.7); ("employment_contract", 0.7);
        ("general_legal_document", 0.1)] 3) = 3%nat /\
  map alternative_type
    (_get_alternative_classifications
       [("privacy_policy", 0.3); ("service_agreement", 0.7); ("employment_contract", 0.7);
        ("general_legal_document", 0.1)] 3) =
    ["employment_contract"; "privacy_policy"; "general_legal_document"].
Proof.
  assert (Hnd : NoDup (keys [("privacy_policy", 0.3); ("service_agreement", 0.7);
                             ("employment_contract", 0.7);
                             ("general_legal_document", 0.1)])).
  { repeat (constructor; [simpl; intuition discriminate|]). constructor. }
  split.
  - exact (proj1 (alternatives_are_the_runners_up _ 3 "service_agreement" 0.7 Hnd eq_refl)).
  - reflexivity.
Defined.

(** X19: a scored text has exactly three alternatives, none of them the
    winning type. *)
Theorem classified_text_has_three_alternatives (text : string) :
  exists document_type confidence all_scores,
    classify_with_confidence text = (document_type, confidence, all_scores) /\
    let alternatives := _get_alternative_classifications all_scores 3 in
    List.length alternatives = (if too_short text then 0 else 3)%nat /\
    Forall (fun a =>
              In (alternative_type a) (keys document_patterns) /\
              get (alternative_type a) all_scores = Some (alternative_confidence a) /\
              alternative_confidence a <= confidence /\
              ~ first_maximum all_scores (alternative_type a) confidence)
           alternatives.
Proof.
  destruct (too_short text) eqn:Hguard.
  - exists "unknown", 0.0, []. unfold classify_with_confidence. rewrite Hguard.
    split; [reflexivity|]. split; [reflexivity|constructor].
  - destruct (classify_long text Hguard) as (best & value & Hmax & Hres).
    exists (apply_threshold best value), value, (classification_scores text).
    split; [exact Hres|].
    assert (Hnd : NoDup (keys (classification_scores text))).
    { rewrite classification_scores_eq. unfold keys. rewrite map_map.
      exact document_patterns_distinct. }
    destruct (runners_up (classification_scores text) 3 best value
                Hnd Hmax) as (Hlen & _ & _ & Hall & _).
    split.
    + rewrite Hlen, classification_scores_eq, length_map. reflexivity.
    + eapply Forall_impl; [|exact Hall].
      intros a (Hne & Hget & Hle & _).
      split; [|split; [exact Hget|split; [exact Hle|]]].
      * apply get_in in Hget. apply (in_map fst) in Hget.
        rewrite classification_scores_eq in Hget. unfold keys in Hget.
        rewrite map_map in Hget. exact Hget.
      * intros (b1 & a1 & Hd1 & Hb1 & Ha1).
        pose proof (max_key_spec (classification_scores text)) as Hs.
        rewrite Hmax in Hs. destruct Hs as (b2 & a2 & Hd2 & Hb2 & Ha2).
        apply Hne.
        (* two first maxima of the same table coincide *)
        assert (Hin1 : In (alternative_type a, value) (classification_scores text))
          by (rewrite Hd1; apply in_or_app; right; now left).
        clear Hlen Hall Hget Hle Hres Hnd Hmax Hne.
        rewrite Hd2 in Hd1. clear Hd2 Hin1.
        revert b1 Hd1 Hb1. induction b2 as [|x b2 IH]; intros b1 Hd1 Hb1.
        -- destruct b1 as [|y b1]; [now injection Hd1|].
           exfalso. injection Hd1 as <- _. inversion Hb1 as [|? ? Hy _]; subst.
           cbn [snd] in Hy. lra.
        -- inversion Hb2 as [|? ? Hx Hb2']; subst.
           destruct b1 as [|y b1].
           ++ exfalso. injection Hd1 as -> _. cbn [snd] in Hx. lra.
           ++ injection Hd1 as <- Hd1. inversion Hb1; subst. now apply (IH Hb2' b1).
Qed.

(** *** The reasoning text *)

Lemma reasoning_low (doc_type : string) (confidence : Q) (text : string) :
  (confidence < 0.4 ->
   _generate_classification_reasoning doc_type confidence text =
     ("Low confidence classification. Document may be " ++ doc_type ++
      " but lacks clear identifying markers.")%string) /\
  (prefix "Low confidence"
     (_generate_classification_reasoning doc_type confidence text) = true <->
   confidence < 0.4).
Proof.
  unfold _generate_classification_reasoning.
  destruct (Qle_bool 0.8 confidence) eqn:E8, (Qle_bool 0.6 confidence) eqn:E6,
           (Qle_bool 0.4 confidence) eqn:E4;
    repeat match goal with
           | H : Qle_bool _ _ = true |- _ => apply Qle_bool_iff in H
           | H : Qle_bool _ _ = false |- _ => apply Qle_bool_false_iff in H
           end;
    (split; [intros Hlt; try reflexivity; exfalso; lra|]);
    (split; [intros Hp; try discriminate Hp; lra|intros Hlt; try reflexivity; exfalso; lra]).
Qed.

Lemma confidence_by_length
    (text : string) (document_type : string) (confidence : Q) (all_scores : dict Q)
    (H : classify_with_confidence text = (document_type, confidence, all_scores)) :
  confidence <= 1.05 * Spec.length_factor text /\
  confidence <= 1.05 * (of_nat (word_count text) / 100).
Proof.
  assert (Hlf : confidence <= 1.05 * Spec.length_factor text).
  { destruct (too_short text) eqn:Hguard.
    - revert H. unfold classify_with_confidence. rewrite Hguard. intros [= <- <- <-].
      pose proof (length_factor_bounds text) as Bl.
      set (lf := Spec.length_factor text) in *. clearbody lf.
      assert (E : 0.0 == 0) by reflexivity. rewrite E. lra.
    - destruct (classified text Hguard) as (best & c & Hin & _ & Hres).
      rewrite Hres in H. injection H as <- <- <-.
      exact (type_score_le_length_factor text best c Hin). }
  split; [exact Hlf|].
  pose proof (length_factor_le_words text) as Hw.
  set (lf := Spec.length_factor text) in *. set (w := of_nat _ / 100) in *.
  clearbody lf w. lra.
Qed.

(** X20: the reasoning text is the low-confidence one exactly below 0.4, so
    for every unknown document and every text under 39 words. *)
Theorem reasoning_follows_the_classification
    (text : string) (document_type : string) (confidence : Q) (all_scores : dict Q)
    (H : classify_with_confidence text = (document_type, confidence, all_scores)) :
  let reasoning := _generate_classification_reasoning document_type confidence text in
  (prefix "Low confidence" reasoning = true <-> confidence < 0.4) /\
  (document_type = "unknown" ->
   reasoning = "Low confidence classification. Document may be unknown but lacks clear identifying markers.") /\
  (document_type <> "unknown" -> document_type <> "general_legal_document" ->
   prefix "Low confidence" reasoning = false) /\
  ((word_count text < 39)%nat -> prefix "Low confidence" reasoning = true) /\
  (too_short text = true ->
   prefix "Strong indicators" reasoning = false /\
   prefix "Clear patterns" reasoning = false /\
   prefix "Moderate confidence" reasoning = false).
Proof.
  intros reasoning. subst reasoning.
  destruct (reasoning_low document_type confidence text) as [Hlow Hiff].
  destruct (returned_type_cases text _ _ _ H) as (_ & Hunk & Hspec).
  split; [exact Hiff|]. split; [|split; [|split]].
  - intros ->. assert (Hc : confidence <= 0.2) by (apply Hunk; reflexivity).
    apply Hlow. lra.
  - intros H1 H2. destruct (Hspec H1 H2) as (_ & _ & _ & Hc).
    destruct (prefix _ _); [|reflexivity].
    exfalso. assert (Hlt : confidence < 0.4) by (apply Hiff; reflexivity). lra.
  - intros Hn. apply Hiff.
    destruct (confidence_by_length text _ _ _ H) as (_ & Hw).
    assert (Hr : of_nat (word_count text) / 100 <= of_nat 38 / 100)
      by (apply words_ratio_le; lia).
    assert (E : of_nat 38 / 100 == 0.38) by reflexivity. rewrite E in Hr.
    set (w := of_nat _ / 100) in *. clearbody w. lra.
  - intros Hshort. revert H. unfold classify_with_confidence. rewrite Hshort.
    intros [= <- <- <-]. repeat split.
Qed.

Lemma reasoning_witness :
  prefix "Low confidence"
    (_generate_classification_reasoning
       (fst (fst (classify_with_confidence five_words)))
       (snd (fst (classify_with_confidence five_words))) five_words) = true.
Proof.
  assert (H : classify_with_confidence five_words =
              (fst (fst (classify_with_confidence five_words)),
               snd (fst (classify_with_confidence five_words)),
               snd (classify_with_confidence five_words)))
    by (vm_compute; reflexivity).
  assert (Hwords : (word_count five_words < 39)%nat) by (vm_compute; lia).
  exact (proj1 (proj2 (proj2 (proj2
           (reasoning_follows_the_classification five_words _ _ _ H)))) Hwords).
Defined.

End ClassifierExtra.

(** ** The selection, scored *)

Module PipelineExtra.
Import Notions Dict Py Frameworks Scoring.
Import ScoringProps FrameworkProps ScoringExtra FrameworkExtra.
Local Open Scope Q_scope.

(** *** Scoring the selected frameworks

    The document pipeline hands the ["selected_frameworks"] of
    [select_frameworks] to [calculate_comprehensive_score]. *)

Lemma selection_not_empty (document_type : string) (confidence : Q)
    (content_indicators : option (dict pyval)) :
  selected_frameworks (select_frameworks document_type confidence content_indicators) <> [].
Proof.
  rewrite selected_eq.
  destruct (combined_frameworks _ _ _) as [|x l] eqn:E; [discriminate|].
  pose proof (sort_by_key_length priority_of (x :: l)) as Hlen.
  destruct (sort_by_key priority_of (x :: l)); [discriminate Hlen|discriminate].
Qed.

Lemma priority_two_kept (document_type : string) (confidence : Q)
    (content_indicators : option (dict pyval)) (f : string) :
  In f (combined_frameworks document_type confidence (indicators content_indicators)) ->
  (priority_of f <= 2)%Z ->
  In f (selected_frameworks (select_frameworks document_type confidence content_indicators)).
Proof.
  intros Hin Hp. rewrite selected_eq.
  pose proof (combined_nodup document_type confidence (indicators content_indicators)) as Hnd.
  destruct (combined_frameworks _ _ _) as [|x l]; [contradiction|].
  change 4%nat with (List.length high_priority).
  apply (sorted_prefix_keeps priority_of 2).
  - apply sort_by_key_sorted.
  - exact (Permutation_NoDup (Permutation_sym (sort_by_key_perm priority_of (x :: l))) Hnd).
  - intros y. apply high_priority_iff.
  - exact (Permutation_in f (Permutation_sym (sort_by_key_perm priority_of (x :: l))) Hin).
  - exact Hp.
Qed.

Lemma scored_entry_for (da : pyval) (fs : list string) (f : string) :
  In f fs ->
  exists cs,
    get (_map_framework_to_category f) (scored_categories (score_frameworks da fs)) = Some cs /\
    score cs = framework_score da f.
Proof.
  intros Hin.
  destruct (score_frameworks_invariant da fs) as [Hnd Hkeys Hscores _ _].
  assert (Hk : In (_map_framework_to_category f)
                  (keys (scored_categories (score_frameworks da fs))))
    by (apply Hkeys, in_map; exact Hin).
  unfold keys in Hk. apply in_map_iff in Hk. destruct Hk as ([c cs] & Hc & Hentry).
  cbn [fst] in Hc. subst c. exists cs. split.
  - exact (in_get _ _ _ Hnd Hentry).
  - exact (Hscores _ cs Hentry f eq_refl).
Qed.

(** X21: scoring the frameworks of a selection: every selected framework is
    scored, the total weight is positive and the overall score is the
    weighted mean. *)
Theorem selected_frameworks_are_all_scored
    (document_type : string) (confidence : Q) (content_indicators : option (dict pyval))
    (da : pyval) (r : scoring_results)
    (H : calculate_comprehensive_score da
           (selected_frameworks
              (select_frameworks document_type confidence content_indicators)) = Some r) :
  let selected :=
    selected_frameworks (select_frameworks document_type confidence content_indicators) in
  (1 <= List.length (category_scores r) <= 3)%nat /\
  0 < Spec.total (map framework_weight selected) /\
  overall_score r ==
    Spec.total (map (fun f => framework_score da f * framework_weight f) selected) /
    Spec.total (map framework_weight selected) /\
  (forall f, In f selected ->
     exists cs, get (_map_framework_to_category f) (category_scores r) = Some cs /\
                score cs = framework_score da f) /\
  (0.5 <= confidence -> In "constitutional_compliance" (keys (category_scores r))) /\
  (forall x, classification_confidence_of da = Some x ->
             (x + 1 / 3) / 3 <= confidence_level r).
Proof.
  intros selected.
  pose proof (selection_not_empty document_type confidence content_indicators) as Hne.
  fold selected in Hne, H.
  destruct (overall_score_eq da selected r H) as [Hcs Hoverall].
  destruct (score_frameworks_invariant da selected) as [Hnd Hkeys _ Hweighted Hweight].
  pose proof (total_weight_positive selected Hne) as Hpos.
  assert (Hentry : forall f, In f selected ->
            exists cs, get (_map_framework_to_category f) (category_scores r) = Some cs /\
                       score cs = framework_score da f).
  { intros f Hin. rewrite Hcs. exact (scored_entry_for da selected f Hin). }
  split; [|split; [exact Hpos|split; [|split; [exact Hentry|split]]]].
  - split.
    + destruct selected as [|f fs] eqn:E; [now elim Hne|].
      destruct (Hentry f (or_introl eq_refl)) as (cs & Hget & _).
      destruct (category_scores r); [discriminate Hget|cbn [List.length]; lia].
    + rewrite Hcs. change 3%nat with (List.length (keys scoring_criteria)).
      unfold keys at 1 in Hnd. rewrite <- (length_map fst).
      apply NoDup_incl_length; [exact Hnd|].
      intros c Hc. apply Hkeys, in_map_iff in Hc. destruct Hc as (f & <- & _).
      apply map_framework_cases.
  - rewrite Hoverall.
    set (t := score_frameworks da selected) in *.
    set (w := Spec.total (map framework_weight selected)) in *.
    set (s := Spec.total (map (fun f => framework_score da f * framework_weight f) selected))
      in *.
    clearbody t w s.
    assert (E : Qlt_bool 0 (total_weight t) = true)
      by (apply Qlt_bool_iff; rewrite Hweight; exact Hpos).
    rewrite E, Hweighted, Hweight. reflexivity.
  - intros Hc.
    assert (Hsel : In "constitutional_analysis" selected).
    { apply priority_two_kept.
      - exact (combined_has_constitutional document_type confidence _ Hc).
      - rewrite priority_constitutional. lia. }
    destruct (Hentry _ Hsel) as (cs & Hget & _).
    apply get_in in Hget. exact (in_map fst _ _ Hget).
  - intros x Hx.
    destruct (risk_result da selected r H) as (_ & _ & Hconf).
    destruct (confidence_formula da selected _ Hconf) as (x' & d & ind & Hx' & _ & _ & Heq).
    rewrite Hx in Hx'. injection Hx' as <-.
    pose proof (min_one_bounds _
                  (ratio_nonneg (List.length (filter truthy (map snd ind))) 8 eq_refl)) as Hb.
    assert (Ha : 1 / 3 <= py_min 1.0 (of_nat (List.length selected) / 3)).
    { apply py_min_glb; [discriminate|].
      destruct selected as [|f fs]; [now elim Hne|].
      apply Qle_shift_div_l; [reflexivity|].
      assert (Hn : of_nat 1 <= of_nat (List.length (f :: fs)))
        by (apply of_nat_le; cbn [List.length]; lia).
      setoid_replace (1 / 3 * 3) with (of_nat 1) by reflexivity. exact Hn. }
    rewrite Heq.
    set (a := py_min 1.0 (of_nat (List.length selected) / 3)) in *.
    set (b := py_min 1.0 _) in Hb |- *. clearbody a b.
    unfold Qdiv at 1 3. apply Qmult_le_compat_r; [|discriminate].
    destruct Hb as [Hb _]. lra.
Qed.

Lemma selected_frameworks_are_all_scored_witness :
  exists r,
    calculate_comprehensive_score
      (PyDict [("document_classification", PyDict [("confidence", PyFloat 0.8)])])
      (selected_frameworks (select_frameworks "privacy_policy" 0.8 None)) = Some r /\
    In "constitutional_compliance" (keys (category_scores r)).
Proof.
  eexists. split; [reflexivity|].
  refine (proj1 (proj2 (proj2 (proj2 (proj2
           (selected_frameworks_are_all_scored "privacy_policy" 0.8 None
              (PyDict [("document_classification", PyDict [("confidence", PyFloat 0.8)])])
              _ eq_refl))))) _).
  discriminate.
Defined.

End PipelineExtra.

(** ** The articles and the framework details *)

Module ArticlesExtra.
Import Notions Dict Articles.
Local Open Scope nat_scope.

(** *** The table of articles *)

Lemma format_int_injective (i j : nat) : format_int i = format_int j -> i = j.
Proof.
  unfold format_int. intros H.
  assert (Hu : Some (Nat.to_uint i) = Some (Nat.to_uint j))
    by (rewrite <- !NilEmpty.usu; now rewrite H).
  injection Hu as Hu.
  rewrite <- (Unsigned.of_to i), <- (Unsigned.of_to j). now rewrite Hu.
Qed.

Lemma article_key_injective (i j : nat) : article_key i = article_key j -> i = j.
Proof.
  unfold article_key. intros H. apply format_int_injective.
  cbn [String.append] in H. now injection H.
Qed.

Lemma article_keys_nodup (l : list nat) : NoDup l -> NoDup (map article_key l).
Proof.
  induction 1 as [|i l Hi Hnd IH]; cbn [map]; constructor; [|exact IH].
  intros Hin. apply in_map_iff in Hin. destruct Hin as (j & Hj & Hin).
  apply article_key_injective in Hj. now subst j.
Qed.

Lemma fill_by_key {A V : Type} (key : A -> string) (f : A -> V) (l : list A)
    (acc : dict V) :
  NoDup (keys acc ++ map key l) ->
  fold_left (fun d x => set (key x) (f x) d) l acc =
  acc ++ map (fun x => (key x, f x)) l.
Proof.
  revert acc. induction l as [|x l IH]; cbn [fold_left map]; intros acc Hnd.
  - now rewrite app_nil_r.
  - assert (Hk : ~ In (key x) (keys acc)).
    { apply NoDup_remove_2 in Hnd. intros Hin. apply Hnd, in_or_app. now left. }
    rewrite (set_fresh _ _ _ Hk), IH.
    + now rewrite <- app_assoc.
    + unfold keys in *. rewrite map_app, <- app_assoc. exact Hnd.
Qed.

Lemma create_all_articles_eq :
  create_all_articles = map (fun i => (article_key i, article_of i)) (seq 1 395).
Proof.
  unfold create_all_articles.
  rewrite (fill_by_key article_key article_of); [reflexivity|].
  cbn [keys map app]. apply article_keys_nodup, seq_NoDup.
Qed.

Lemma articles_keys : keys create_all_articles = map article_key (seq 1 395).
Proof. rewrite create_all_articles_eq. unfold keys. now rewrite map_map. Qed.

Lemma between_iff (a i b : nat) : between a i b = true <-> a <= i <= b.
Proof.
  unfold between. rewrite andb_true_iff, !Nat.leb_le. tauto.
Qed.

Lemma article_lookup (i : nat) :
  get (article_key i) create_all_articles =
  if between 1 i 395 then Some (article_of i) else None.
Proof.
  destruct (between 1 i 395) eqn:E.
  - apply between_iff in E. apply ScoringExtra.in_get.
    + rewrite articles_keys. apply article_keys_nodup, seq_NoDup.
    + rewrite create_all_articles_eq.
      apply (in_map (fun i => (article_key i, article_of i))), in_seq. lia.
  - apply get_not_in. rewrite articles_keys. intros Hin.
    apply in_map_iff in Hin. destruct Hin as (j & Hj & Hin).
    apply article_key_injective in Hj. subst j. apply in_seq in Hin.
    assert (Hb : between 1 i 395 = true) by (apply between_iff; lia).
    rewrite Hb in E. discriminate E.
Qed.

Lemma stored_article (key : string) (a : article) :
  get key create_all_articles = Some a ->
  key = article_key (number a) /\ 1 <= number a <= 395 /\ a = article_of (number a).
Proof.
  intros H. apply get_in in H. rewrite create_all_articles_eq in H.
  apply in_map_iff in H. destruct H as (i & [= <- <-] & Hin).
  apply in_seq in Hin. cbn [number article_of]. repeat split; lia.
Qed.

(** X22: the table holds the articles 1 to 395, each under the key of its
    number. *)
Theorem articles_are_numbered_one_to_395 :
  List.length CONSTITUTIONAL_ARTICLES = 395 /\
  NoDup (keys CONSTITUTIONAL_ARTICLES) /\
  (forall i, get (article_key i) CONSTITUTIONAL_ARTICLES =
             if between 1 i 395 then Some (article_of i) else None) /\
  (forall key a, get key CONSTITUTIONAL_ARTICLES = Some a ->
                 key = article_key (number a) /\ 1 <= number a <= 395) /\
  (forall key, In key (keys CONSTITUTIONAL_ARTICLES) -> prefix "article_" key = true).
Proof.
  unfold CONSTITUTIONAL_ARTICLES.
  split; [|split; [|split; [exact article_lookup|split]]].
  - rewrite create_all_articles_eq, length_map, length_seq. reflexivity.
  - rewrite articles_keys. apply article_keys_nodup, seq_NoDup.
  - intros key a H. destruct (stored_article key a H) as (Hk & Hr & _). tauto.
  - intros key Hin. rewrite articles_keys in Hin. apply in_map_iff in Hin.
    destruct Hin as (i & <- & _). unfold article_key.
    simpl. destruct (format_int i); reflexivity.
Qed.

Lemma article_flags (i : nat) :
  let a := article_of i in
  (fundamental_right a = true <-> part a = "III") /\
  (fundamental_right a = true <-> chapter a = "Fundamental Rights") /\
  (directive_principle a = true <-> part a = "IV") /\
  (directive_principle a = true <-> chapter a = "Directive Principles") /\
  (privacy_implications a = true ->
   fundamental_right a = true /\ constitutional_significance a = "landmark") /\
  (dpdpa_relevance a = "critical" -> privacy_implications a = true) /\
  (1 <= i -> (part a = "Other" <-> 238 <= i)) /\
  (constitutional_significance a = "landmark" ->
   privacy_implications a = true \/ i = 368).
Proof.
  cbn [article_of fundamental_right directive_principle part chapter
       privacy_implications dpdpa_relevance constitutional_significance].
  split; [|split; [|split; [|split; [|split; [|split; [|split]]]]]].
  - destruct (between 1 i 4) eqn:E1, (between 5 i 11) eqn:E2, (between 12 i 35) eqn:E3;
      try (split; [reflexivity|discriminate || reflexivity]);
      try (split; discriminate);
      try (apply between_iff in E1; apply between_iff in E3; lia);
      try (apply between_iff in E2; apply between_iff in E3; lia).
    destruct (between 36 i 51), (between 52 i 151), (between 152 i 237);
      split; discriminate.
  - destruct (between 12 i 35); [split; reflexivity|].
    destruct (between 36 i 51); split; discriminate.
  - destruct (between 1 i 4) eqn:E1, (between 5 i 11) eqn:E2, (between 12 i 35) eqn:E3,
             (between 36 i 51) eqn:E4;
      try (split; [reflexivity|discriminate || reflexivity]);
      try (split; discriminate);
      try (apply between_iff in E4;
           first [apply between_iff in E1|apply between_iff in E2|apply between_iff in E3];
           lia).
    destruct (between 52 i 151), (between 152 i 237); split; discriminate.
  - destruct (between 12 i 35) eqn:E3, (between 36 i 51) eqn:E4;
      try (split; [reflexivity|discriminate || reflexivity]);
      try (split; discriminate).
    apply between_iff in E3. apply between_iff in E4. lia.
  - unfold int_in. cbn [existsb]. intros H.
    repeat (apply orb_prop in H; destruct H as [H|H]);
      try discriminate H; apply Nat.eqb_eq in H; subst i; split; reflexivity.
  - destruct (Nat.eqb_spec i 21) as [->|_]; [reflexivity|discriminate].
  - intros Hi.
    destruct (between 1 i 4) eqn:E1, (between 5 i 11) eqn:E2, (between 12 i 35) eqn:E3,
             (between 36 i 51) eqn:E4, (between 52 i 151) eqn:E5,
             (between 152 i 237) eqn:E6;
      repeat match goal with
             | H : between _ _ _ = true |- _ => apply between_iff in H
             | H : between _ _ _ = false |- _ =>
                 apply not_true_iff_false in H; rewrite between_iff in H
             end;
      split; intros H; try discriminate H; try reflexivity; lia.
  - unfold int_in. cbn [existsb].
    destruct (Nat.eqb_spec i 14) as [->|_]; [left; reflexivity|].
    destruct (Nat.eqb_spec i 19) as [->|_]; [left; reflexivity|].
    destruct (Nat.eqb_spec i 21) as [->|_]; [left; reflexivity|].
    destruct (Nat.eqb_spec i 32) as [->|_]; [left; reflexivity|].
    destruct (Nat.eqb_spec i 368) as [->|_]; [right; reflexivity|].
    cbn [orb]. discriminate.
Qed.

(** X23: the flags of a stored article agree with its part and chapter. *)
Theorem article_flags_agree_with_part_and_chapter
    (key : string) (a : article)
    (H : get key CONSTITUTIONAL_ARTICLES = Some a) :
  (fundamental_right a = true <-> part a = "III") /\
  (fundamental_right a = true <-> chapter a = "Fundamental Rights") /\
  (directive_principle a = true <-> part a = "IV") /\
  (directive_principle a = true <-> chapter a = "Directive Principles") /\
  (privacy_implications a = true ->
   fundamental_right a = true /\ constitutional_significance a = "landmark") /\
  (dpdpa_relevance a = "critical" -> privacy_implications a = true) /\
  (part a = "Other" <-> 238 <= number a) /\
  (constitutional_significance a = "landmark" ->
   privacy_implications a = true \/ number a = 368).
Proof.
  destruct (stored_article key a H) as (_ & Hr & Ha).
  pose proof (article_flags (number a)) as Hf. cbv zeta in Hf. rewrite <- Ha in Hf.
  destruct Hf as (H1 & H2 & H3 & H4 & H5 & H6 & H7 & H8).
  repeat split; try tauto; try apply H1; try apply H2; try apply H3; try apply H4;
    try apply H7; try lia; tauto.
Qed.

Lemma article_flags_witness :
  exists a, get "article_21" CONSTITUTIONAL_ARTICLES = Some a /\
            (fundamental_right a = true <-> part a = "III").
Proof.
  assert (H : get "article_21" CONSTITUTIONAL_ARTICLES = Some (article_of 21))
    by (vm_compute; reflexivity).
  exists (article_of 21). split; [exact H|].
  exact (proj1 (article_flags_agree_with_part_and_chapter "article_21" (article_of 21) H)).
Defined.

End ArticlesExtra.

Module DetailsExtra.
Import Notions Dict Py Frameworks FrameworkExtra ArticlesExtra.

(** *** Framework details *)

Lemma set_int_fresh {V : Type} (i : nat) (v : V) (d : list (nat * V)) :
  ~ In i (map fst d) -> set_int i v d = d ++ [(i, v)].
Proof.
  induction d as [|[j w] d IH]; cbn [set_int map fst app]; intros Hi; [reflexivity|].
  destruct (Nat.eqb_spec i j) as [->|Hne].
  - exfalso. apply Hi. now left.
  - f_equal. apply IH. intros Hin. apply Hi. now right.
Qed.

(** The loop over the key articles: the stored ones, in their order. *)
Lemma details_loop (articles : dict Articles.article) (numbers : list nat)
    (found : list (nat * article_details)) :
  NoDup (map fst found ++ numbers) ->
  fold_left
    (fun found article_num =>
       match get (Articles.article_key article_num) articles with
       | Some a =>
           set_int article_num
             {| title := Articles.title a;
                part := Articles.part a;
                chapter := Articles.chapter a |} found
       | None => found
       end)
    numbers found =
  found ++ stored_details articles numbers.
Proof.
  revert found. induction numbers as [|n numbers IH]; intros found Hnd.
  - cbn [fold_left stored_details flat_map]. now rewrite app_nil_r.
  - cbn [fold_left]. unfold stored_details. cbn [flat_map].
    fold (stored_details articles numbers).
    assert (Hn : ~ In n (map fst found)).
    { apply NoDup_remove_2 in Hnd. intros Hin. apply Hnd, in_or_app. now left. }
    destruct (get (Articles.article_key n) articles) as [a|].
    + rewrite (set_int_fresh _ _ _ Hn), IH.
      * rewrite <- app_assoc. reflexivity.
      * rewrite map_app, <- app_assoc. exact Hnd.
    + rewrite IH; [reflexivity|].
      apply NoDup_remove_1 in Hnd. exact Hnd.
Qed.

Lemma key_articles_distinct (name : string) (numbers : list nat) :
  get name key_articles = Some numbers ->
  In name (keys framework_registry) /\ NoDup numbers /\
  Forall (fun n => (1 <= n <= 395)%nat) numbers.
Proof.
  intros H. apply get_in in H. simpl in H.
  destruct H as [[= <- <-]|[[= <- <-]|[[= <- <-]|[]]]];
    (split; [simpl; tauto|]);
    (split; [repeat (constructor; [simpl; intuition discriminate|]); constructor|]);
    repeat (constructor; [lia|]); constructor.
Qed.

Lemma details_found (articles : dict Articles.article) (name : string)
    (config : framework_config) :
  get name framework_registry = Some config ->
  get_framework_details articles name =
    details config (option_map (stored_details articles) (get name key_articles)).
Proof.
  intros H. unfold get_framework_details. rewrite H. f_equal.
  destruct (get name key_articles) as [numbers|] eqn:E; [|reflexivity].
  cbn [option_map]. f_equal.
  destruct (key_articles_distinct name numbers E) as (_ & Hnd & _).
  exact (details_loop articles numbers [] Hnd).
Qed.

Lemma stored_details_all (numbers : list nat) :
  Forall (fun n => (1 <= n <= 395)%nat) numbers ->
  stored_details Articles.CONSTITUTIONAL_ARTICLES numbers =
  map (fun n => (n, details_of (Articles.article_of n))) numbers.
Proof.
  induction 1 as [|n numbers Hn _ IH]; [reflexivity|].
  unfold stored_details. cbn [flat_map map].
  fold (stored_details Articles.CONSTITUTIONAL_ARTICLES numbers). rewrite IH.
  unfold Articles.CONSTITUTIONAL_ARTICLES at 1. rewrite article_lookup.
  assert (Hb : Articles.between 1 n 395 = true) by (apply between_iff; exact Hn).
  rewrite Hb. reflexivity.
Qed.

(** X24: the details of a framework are its registry entry with the stored
    key articles, or the not-found error. *)
Theorem framework_details_follow_the_registry
    (articles : dict Articles.article) (framework_name : string) :
  (get framework_name framework_registry = None ->
   get_framework_details articles framework_name =
     not_found ("Framework '" ++ framework_name ++ "' not found")) /\
  (forall config, get framework_name framework_registry = Some config ->
     get_framework_details articles framework_name =
       details config
         (option_map (stored_details articles) (get framework_name key_articles))) /\
  (forall numbers, get framework_name key_articles = Some numbers ->
     In framework_name (keys framework_registry) /\
     NoDup numbers /\
     stored_details Articles.CONSTITUTIONAL_ARTICLES numbers =
       map (fun n => (n, details_of (Articles.article_of n))) numbers).
Proof.
  split; [|split].
  - intros H. unfold get_framework_details. now rewrite H.
  - exact (details_found articles framework_name).
  - intros numbers H.
    destruct (key_articles_distinct framework_name numbers H) as (Hin & Hnd & Hall).
    split; [exact Hin|]. split; [exact Hnd|]. exact (stored_details_all numbers Hall).
Qed.

(** X25: every selected framework but case_law_analysis has details, with
    the priority it was sorted by. *)
Theorem selected_frameworks_have_details
    (articles : dict Articles.article)
    (document_type : string) (confidence : Q) (content_indicators : option (dict pyval))
    (f : string)
    (H : In f (selected_frameworks
                 (select_frameworks document_type confidence content_indicators))) :
  (f = "case_law_analysis" /\
   get_framework_details articles f =
     not_found "Framework 'case_law_analysis' not found") \/
  (f <> "case_law_analysis" /\
   exists config found,
     get_framework_details articles f = details config found /\
     get f framework_registry = Some config /\
     priority config = priority_of f /\
     (found = None <->
      In f ["dpdpa_compliance"; "contract_law_analysis"; "general_legal_analysis"])).
Proof.
  assert (Hnames : In f selectable).
  { apply selected_in_combined in H.
    destruct H as [H|[_ ->]]; [exact (combined_names _ _ _ _ H)|simpl; tauto]. }
  simpl in Hnames.
  destruct Hnames as [<-|[<-|[<-|[<-|[<-|[<-|[<-|[]]]]]]]];
    try (left; split; reflexivity);
    right; (split; [discriminate|]);
    eexists; eexists;
    (split; [apply details_found; reflexivity|]);
    (split; [reflexivity|]); (split; [reflexivity|]);
    cbn [get key_articles option_map String.eqb Ascii.eqb Bool.eqb];
    (split; [intros E; try discriminate E; simpl; tauto
            |intros E; simpl in E; try reflexivity; intuition discriminate]).
Qed.

Lemma selected_frameworks_have_details_witness :
  In "case_law_analysis"
     (selected_frameworks (select_frameworks "high_court_judgment" 0.6 None)) /\
  get_framework_details Articles.CONSTITUTIONAL_ARTICLES "case_law_analysis" =
    not_found "Framework 'case_law_analysis' not found".
Proof.
  assert (H : In "case_law_analysis"
                (selected_frameworks (select_frameworks "high_court_judgment" 0.6 None)))
    by (vm_compute; tauto).
  split; [exact H|].
  destruct (selected_frameworks_have_details Articles.CONSTITUTIONAL_ARTICLES
              "high_court_judgment" 0.6 None _ H)
    as [[_ Hd]|[Hne _]]; [exact Hd|exfalso; exact (Hne eq_refl)].
Defined.

End DetailsExtra.
